(** * probe_all_models: a shallow embedding and its verified properties

    The development models [probe_all_models.py], a smoke-test harness that
    lists the model identifiers of an OpenAI-compatible server and sends one
    cheap request per model.

    Modelling conventions.
    - A Python [str] is a Stdlib [string]; its characters stand for the code
      points below 256 (Latin-1), on which [str.lower] and [str.strip] are
      written out.  [len] is [String.length].
    - A decoded JSON value (what [r.json()] returns, type [Any] in the
      source) is the inductive [json]; a Python [dict] is a [gmap string _].
    - The network and the file system are a [world]: a script of replies
      still to be consumed, the file-system facts the program reads, and
      the trace of the effects performed so far.  Effectful functions live
      in the state and exception monad [M]; every exception modelled is an
      instance of Python's [Exception].
    - Writing a report file (opening it and filling it) records the report
      handed over and either completes or raises, as the file system
      decides.  [write_md] is the module [Md]: it builds its lines, and
      may raise there, before it opens the file.
    - The time stamp [generatedAt] is the world's [now_iso], read when the
      report is assembled; the durations ([durationMs], [durationSeconds])
      are left out of the records: no property below reads them. *)

From Stdlib Require Import ZArith String Ascii List Bool Lia.
From Stdlib Require Import Floats.SpecFloat Numbers.DecimalString.
From stdpp Require Import base option list gmap strings sorting.

Set Warnings "-register-all".
Local Open Scope string_scope.
Local Open Scope Z_scope.

(* ================================================================== *)
(** ** Python strings *)
(* ================================================================== *)

Module PyStr.

(** [c.lower()] on one Latin-1 code point: A-Z and the accented capitals
    U+00C0..U+00DE (but not the multiplication sign U+00D7) move up by 32. *)
Definition lower_char (c : ascii) : ascii :=
  let n := N_of_ascii c in
  if ((65 <=? n) && (n <=? 90))%N
     || ((192 <=? n) && (n <=? 222) && negb (n =? 215))%N
  then ascii_of_N (n + 32)
  else c.

Fixpoint lower (s : string) : string :=
  match s with
  | EmptyString => EmptyString
  | String c s' => String (lower_char c) (lower s')
  end.

(** [c.isspace()] below 256: TAB..CR, FS..US, space, NEL, NBSP. *)
Definition is_space (c : ascii) : bool :=
  let n := N_of_ascii c in
  (((9 <=? n) && (n <=? 13)) || ((28 <=? n) && (n <=? 32))
   || (n =? 133) || (n =? 160))%N.

Fixpoint lstrip (s : string) : string :=
  match s with
  | EmptyString => EmptyString
  | String c s' => if is_space c then lstrip s' else s
  end.

(** Drops the trailing characters satisfying [p]. *)
Fixpoint rstrip_by (p : ascii -> bool) (s : string) : string :=
  match s with
  | EmptyString => EmptyString
  | String c s' =>
      match rstrip_by p s' with
      | EmptyString => if p c then EmptyString else String c EmptyString
      | t => String c t
      end
  end.

(** [s.strip()] *)
Definition strip (s : string) : string := rstrip_by is_space (lstrip s).

(** [s.rstrip("/")] *)
Definition rstrip_slash (s : string) : string :=
  rstrip_by (fun c => Ascii.eqb c "/"%char) s.

(** [s.startswith(p)] *)
Definition startswith (s p : string) : bool := String.prefix p s.

(** [p in s]: [p] occurs in [s] as a contiguous block. *)
Fixpoint contains (p s : string) : bool :=
  String.prefix p s
  || match s with
     | EmptyString => false
     | String _ s' => contains p s'
     end.

(** [s[:n]] *)
Fixpoint slice_to (n : nat) (s : string) : string :=
  match n, s with
  | S n', String c s' => String c (slice_to n' s')
  | _, _ => EmptyString
  end.

(** [str(n)] for an [int]. *)
Definition of_Z (n : Z) : string := NilZero.string_of_int (Z.to_int n).

End PyStr.

(* ================================================================== *)
(** ** JSON values and Python exceptions *)
(* ================================================================== *)

Inductive json : Type :=
| JNull
| JBool (b : bool)
| JInt (n : Z)
| JFloat (f : spec_float)
| JStr (s : string)
| JArr (l : list json)
| JObj (o : gmap string json).

(** An exception object: [type(e).__name__] and [str(e)]. *)
Record exn : Type := Exn { exn_type : string; exn_msg : string }.

(** The Python type name of a decoded JSON value. *)
Definition py_type_name (j : json) : string :=
  match j with
  | JNull => "NoneType"
  | JBool _ => "bool"
  | JInt _ => "int"
  | JFloat _ => "float"
  | JStr _ => "str"
  | JArr _ => "list"
  | JObj _ => "dict"
  end.

Definition AttributeError (j : json) (attr : string) : exn :=
  Exn "AttributeError"
      ("'" +:+ py_type_name j +:+ "' object has no attribute '" +:+ attr +:+ "'").

Definition TypeError_not_iterable (j : json) : exn :=
  Exn "TypeError" ("'" +:+ py_type_name j +:+ "' object is not iterable").

(** Python truthiness ([bool(j)], as used by [not], [and], [or], [if]). *)
Definition truthy (j : json) : bool :=
  match j with
  | JNull => false
  | JBool b => b
  | JInt n => negb (n =? 0)
  | JFloat (S754_zero _) => false
  | JFloat _ => true
  | JStr s => negb (String.eqb s "")
  | JArr l => match l with [] => false | _ => true end
  | JObj o => negb (Nat.eqb (size o) 0)
  end.

(** [d.get(k)] on a dict: the value, or [None]. *)
Definition dict_get (o : gmap string json) (k : string) : json :=
  default JNull (o !! k).

(** [j.get(k)] on an arbitrary value: only a dict has the method. *)
Definition py_get (j : json) (k : string) : exn + json :=
  match j with
  | JObj o => inr (dict_get o k)
  | _ => inl (AttributeError j "get")
  end.

(** [j == s] for a [str] constant [s]. *)
Definition eq_str (j : json) (s : string) : bool :=
  match j with
  | JStr t => String.eqb t s
  | _ => false
  end.

(* ================================================================== *)
(** ** err_summary *)
(* ================================================================== *)

Definition err_summary (j : json) : option (gmap string json) :=
  match j with
  | JObj o =>
      match dict_get o "error" with
      | JObj err =>
          let msg := dict_get err "message" in
          let msg :=
            match msg with
            | JStr s =>
                if (240 <? String.length s)%nat
                then JStr (PyStr.slice_to 237 s +:+ "...")
                else msg
            | _ => msg
            end in
          Some {[ "type" := dict_get err "type";
                  "code" := dict_get err "code";
                  "param" := dict_get err "param";
                  "message" := msg ]}
      | _ => None
      end
  | _ => None
  end.

(* ================================================================== *)
(** ** category_for *)
(* ================================================================== *)

Definition category_for (mid : string) : string :=
  let m := PyStr.lower mid in
  if PyStr.startswith m "sora-" then "video"
  else if PyStr.contains "realtime" m then "realtime"
  else if PyStr.contains "computer-use" m then "computer_use"
  else if PyStr.contains "moderation" m then "moderation"
  else if PyStr.contains "embedding" m then "embeddings"
  else if PyStr.contains "transcribe" m || String.eqb m "whisper-1" then "transcribe"
  else if PyStr.startswith m "tts-" || PyStr.contains "-tts" m then "tts"
  else if PyStr.contains "audio-preview" m || PyStr.startswith m "gpt-audio" then "audio_chat"
  else if PyStr.contains "deep-research" m then "deep_research"
  else if PyStr.contains "search-api" m || PyStr.contains "search-preview" m then "search"
  else if PyStr.contains "search" m then "search"
  else if String.eqb m "dall-e-2" || String.eqb m "dall-e-3" then "dalle"
  else if PyStr.contains "image" m then "image"
  else "text".

(* ================================================================== *)
(** ** Outcome records, requests and the world *)
(* ================================================================== *)

(** The dict returned by [probe_text_like]. *)
Record text_result : Type := TextResult {
  tr_ok : bool;
  tr_endpoint : string;
  tr_http : Z;
  tr_error : option (gmap string json)
}.

(** The dict appended to [results] for one model.  [endpoint] and [http] are
    [None] only in the record built by the exception handler of [main].
    The [note] key exists only in the video record; a missing key and a
    [None] value are both [None] here. *)
Record outcome : Type := Outcome {
  model : string;
  category : string;
  ok : bool;
  skipped : bool;
  endpoint : option string;
  http : option Z;
  error : option (gmap string json);
  note : option string
}.

Record report : Type := Report {
  meta_baseUrl : string;
  meta_authMode : string;
  meta_totalModels : nat;
  results : list outcome
}.

Inductive req_body : Type :=
| NoBody
| JsonBody (payload : gmap string json)
| MultipartBody (fields : gmap string string)
                (files : list (string * (string * string * string))).

Record request : Type := Request {
  rq_method : string;
  rq_url : string;
  rq_headers : gmap string string;
  rq_body : req_body;
  rq_timeout : Z
}.

(** What the [requests] library hands back: [r.status_code], [r.headers],
    the value of [r.json()] ([None] when it raises) and [r.text]. *)
Record response : Type := Response {
  status_code : Z;
  resp_headers : list (string * string);
  resp_json : option json;
  resp_text : string
}.

Inductive stderr_line : Type :=
| MissingWav (path : string)
| ListingFailed (st : Z) (body : json)
| Progress (i n n_ok : nat).

Inductive event : Type :=
| EvRequest (rq : request)
| EvSleep (ms : Z)
| EvOpen (path : string)
| EvStderr (l : stderr_line)
| EvWriteJson (path : string) (r : report)
| EvWriteMd (path : string) (r : report).

(** - [replies]: what each coming call of [requests.get]/[requests.post]
      does, in order: raise, or return a response;
    - [fs_exists p]: [os.path.exists(p)];
    - [fs_open_error p]: the exception [open(p, "rb")] raises, if any;
    - [fs_write_error p]: the exception raised by [open(p, "w")] or while
      the opened file [p] is written, if any;
    - [now_iso]: the time stamp [now_iso()] returns;
    - [trace]: the effects performed so far, oldest first. *)
Record world : Type := World {
  replies : list (exn + response);
  fs_exists : string -> bool;
  fs_open_error : string -> option exn;
  fs_write_error : string -> option exn;
  now_iso : string;
  trace : list event
}.

Definition with_trace (w : world) (t : list event) : world :=
  World (replies w) (fs_exists w) (fs_open_error w) (fs_write_error w)
        (now_iso w) t.

Definition with_replies (w : world) (rs : list (exn + response)) : world :=
  World rs (fs_exists w) (fs_open_error w) (fs_write_error w) (now_iso w)
        (trace w).

(** The world after one more effect. *)
Definition logged (w : world) (ev : event) : world :=
  with_trace w (trace w ++ [ev]).

(** The world after a request: it is recorded and one reply is used up. *)
Definition sent (w : world) (rq : request) : world :=
  logged (with_replies w (tail (replies w))) (EvRequest rq).

(* ================================================================== *)
(** ** The state and exception monad *)
(* ================================================================== *)

Definition M (A : Type) : Type := world -> (exn + A) * world.

Definition ret {A} (a : A) : M A := fun w => (inr a, w).

Definition raise {A} (e : exn) : M A := fun w => (inl e, w).

Definition bind {A B} (m : M A) (k : A -> M B) : M B :=
  fun w =>
    match m w with
    | (inl e, w') => (inl e, w')
    | (inr a, w') => k a w'
    end.

(** [try: m  except Exception as e: h e] *)
Definition try_except {A} (m : M A) (h : exn -> M A) : M A :=
  fun w =>
    match m w with
    | (inl e, w') => h e w'
    | (inr a, w') => (inr a, w')
    end.

(** A pure computation that may raise. *)
Definition lift {A} (r : exn + A) : M A := fun w => (r, w).

Definition emit (ev : event) : M unit := fun w => (inr tt, logged w ev).

Definition ask {A} (f : world -> A) : M A := fun w => (inr (f w), w).

Notation "x <- m ;; k" := (bind m (fun x => k))
  (at level 100, m at next level, right associativity,
   format "'[v' x  <-  m  ;; '/' k ']'").
Notation "m1 ;;; m2" := (bind m1 (fun _ => m2))
  (at level 100, right associativity).

Definition ConnectionError : exn :=
  Exn "ConnectionError" "no reply from the server".

(** One call into [requests]: the request is recorded and the next reply of
    the script is consumed; a script that has run dry is a dead network. *)
Definition send (rq : request) : M response :=
  fun w =>
    match replies w with
    | [] => (inl ConnectionError, sent w rq)
    | rp :: _ => (rp, sent w rq)
    end.

(* ================================================================== *)
(** ** Client *)
(* ================================================================== *)

Record Client : Type := MkClient {
  base_url : string;
  api_key : option string;
  auth_mode : string
}.

Definition missing_key : exn :=
  Exn "RuntimeError" "OPENAI_API_KEY is required for auth-mode=bearer".

(** [headers_json] and [headers_multipart] differ in the initial dict only. *)
Definition add_auth (c : Client) (h : gmap string string)
  : exn + gmap string string :=
  if String.eqb (auth_mode c) "bearer" then
    match api_key c with
    | None => inl missing_key
    | Some k =>
        if String.eqb k "" then inl missing_key
        else inr (<["Authorization" := "Bearer " +:+ k]> h)
    end
  else inr h.

Definition headers_json (c : Client) : exn + gmap string string :=
  add_auth c {[ "Content-Type" := "application/json" ]}.

Definition headers_multipart (c : Client) : exn + gmap string string :=
  add_auth c ∅.

Definition url (c : Client) (path : string) : string :=
  PyStr.rstrip_slash (base_url c) +:+ path.

(* ================================================================== *)
(** ** Transport helpers *)
(* ================================================================== *)

(** [{k.lower(): v for k, v in r.headers.items()}] *)
Definition lower_keys (hs : list (string * string)) : gmap string string :=
  foldl (fun m kv => <[PyStr.lower (fst kv) := snd kv]> m) ∅ hs.

(** [try: j = r.json()  except Exception: j = {"_raw": r.text[:n]}] *)
Definition json_or_raw (n : nat) (r : response) : json :=
  match resp_json r with
  | Some j => j
  | None => JObj {[ "_raw" := JStr (PyStr.slice_to n (resp_text r)) ]}
  end.

Definition get_models (c : Client) : M (Z * json) :=
  h <- lift (headers_json c) ;;
  r <- send (Request "GET" (url c "/v1/models") h NoBody 60) ;;
  ret (status_code r, json_or_raw 500 r).

(** What [post_json] makes of a response. *)
Definition decode_json_response (r : response)
  : Z * json * gmap string string :=
  let hdrs := lower_keys (resp_headers r) in
  let ct := default "" (hdrs !! "content-type") in
  if PyStr.startswith ct "audio/"
  then (status_code r, JObj {[ "_binary" := JBool true ]}, hdrs)
  else (status_code r, json_or_raw 800 r, hdrs).

Definition post_json (c : Client) (path : string)
    (payload : gmap string json) (timeout : Z)
  : M (Z * json * gmap string string) :=
  h <- lift (headers_json c) ;;
  r <- send (Request "POST" (url c path) h (JsonBody payload) timeout) ;;
  ret (decode_json_response r).

Definition post_multipart (c : Client) (path : string)
    (fields : gmap string string)
    (files : list (string * (string * string * string))) (timeout : Z)
  : M (Z * json * gmap string string) :=
  h <- lift (headers_multipart c) ;;
  r <- send (Request "POST" (url c path) h (MultipartBody fields files) timeout) ;;
  ret (status_code r, json_or_raw 800 r, lower_keys (resp_headers r)).

(* ================================================================== *)
(** ** Probes *)
(* ================================================================== *)

(** The expression [st == 200 and not j.get("error")]; the method call is
    reached, and may raise, only when the status is 200. *)
Definition ok_200 (st : Z) (j : json) : exn + bool :=
  if st =? 200 then
    match py_get j "error" with
    | inl e => inl e
    | inr v => inr (negb (truthy v))
    end
  else inr false.

(** [a or b] on optional dicts. *)
Definition py_or (a b : option (gmap string json)) : option (gmap string json) :=
  match a with
  | Some d => if truthy (JObj d) then a else b
  | None => b
  end.

(** [es and es.get("type") == "server_error"] *)
Definition is_server_error (es : option (gmap string json)) : bool :=
  match es with
  | Some d => truthy (JObj d) && eq_str (dict_get d "type") "server_error"
  | None => false
  end.

Definition responses_payload (mid : string) (extra : option (gmap string json))
  : gmap string json :=
  let payload : gmap string json :=
    {[ "model" := JStr mid;
       "input" := JStr "Reply with exactly: OK";
       "max_output_tokens" := JInt 16 ]} in
  match extra with
  | Some e => if truthy (JObj e) then e ∪ payload else payload
  | None => payload
  end.

Definition chat_payload (mid : string) : gmap string json :=
  {[ "model" := JStr mid;
     "messages" := JArr [JObj {[ "role" := JStr "user";
                                 "content" := JStr "Reply with exactly: OK" ]}];
     "max_tokens" := JInt 16 ]}.

Definition completions_payload (mid : string) : gmap string json :=
  {[ "model" := JStr mid;
     "prompt" := JStr "Reply with exactly: OK";
     "max_tokens" := JInt 16 ]}.

Definition all_endpoints : string :=
  "/v1/responses|/v1/chat/completions|/v1/completions".

Definition unknown_error : gmap string json := {[ "message" := JStr "unknown" ]}.

(** The tail of [probe_text_like], from the comment "Chat completions" on;
    [st] and [es] are the values those variables hold at that point. *)
Definition text_like_fallbacks (c : Client) (mid : string) (st : Z)
    (es : option (gmap string json)) : M text_result :=
  r3 <- post_json c "/v1/chat/completions" (chat_payload mid) 90 ;;
  let '(st3, j3, _) := r3 in
  ok3 <- lift (ok_200 st3 j3) ;;
  if ok3 : bool then ret (TextResult true "/v1/chat/completions" st3 None)
  else
    r4 <- post_json c "/v1/completions" (completions_payload mid) 90 ;;
    let '(st4, j4, _) := r4 in
    ok4 <- lift (ok_200 st4 j4) ;;
    if ok4 : bool then ret (TextResult true "/v1/completions" st4 None)
    else
      ret (TextResult false all_endpoints st
             (py_or es (py_or (err_summary j3)
                        (py_or (err_summary j4) (Some unknown_error))))).

Definition probe_text_like (c : Client) (mid : string)
    (extra : option (gmap string json)) : M text_result :=
  let payload := responses_payload mid extra in
  r1 <- post_json c "/v1/responses" payload 90 ;;
  let '(st, j, _) := r1 in
  ok1 <- lift (ok_200 st j) ;;
  if ok1 : bool then ret (TextResult true "/v1/responses" st None)
  else
    let es := err_summary j in
    if is_server_error es then
      emit (EvSleep 500) ;;;
      r2 <- post_json c "/v1/responses" payload 90 ;;
      let '(st2, j2, _) := r2 in
      ok2 <- lift (ok_200 st2 j2) ;;
      if ok2 : bool then ret (TextResult true "/v1/responses" st2 None)
      else text_like_fallbacks c mid st2 (err_summary j2)
    else text_like_fallbacks c mid st es.

(** The record most branches of [probe_one] return. *)
Definition plain_outcome (mid cat : string) (ok : bool) (ep : string) (st : Z)
    (es : option (gmap string json)) : outcome :=
  Outcome mid cat ok false (Some ep) (Some st) (if ok then None else es) None.

Definition of_text_result (mid cat : string) (r : text_result) : outcome :=
  Outcome mid cat (tr_ok r) false (Some (tr_endpoint r)) (Some (tr_http r))
          (tr_error r) None.

(** A probe made of one JSON request whose success test is [ok_200]. *)
Definition simple_probe (c : Client) (mid cat path : string)
    (payload : gmap string json) (timeout : Z) : M outcome :=
  r <- post_json c path payload timeout ;;
  let '(st, j, _) := r in
  let es := err_summary j in
  ok <- lift (ok_200 st j) ;;
  ret (plain_outcome mid cat ok path st es).

Definition video_note : string := "validation-only (invalid size)".

Definition video_payload (mid : string) : gmap string json :=
  {[ "model" := JStr mid; "prompt" := JStr "test"; "size" := JStr "bad" ]}.

(** The expression
    [(st == 400 and isinstance(es, dict) and es.get("param") == "size")
     or (st == 200 and not j.get("error"))]. *)
Definition video_ok (st : Z) (es : option (gmap string json)) (j : json)
  : exn + bool :=
  if (st =? 400)
     && match es with
        | Some d => eq_str (dict_get d "param") "size"
        | None => false
        end
  then inr true
  else ok_200 st j.

Definition probe_video (c : Client) (mid cat : string) : M outcome :=
  r <- post_json c "/v1/videos" (video_payload mid) 120 ;;
  let '(st, j, _) := r in
  let es := err_summary j in
  ok <- lift (video_ok st es j) ;;
  let note := if (st =? 400) && ok then Some video_note else None in
  ret (Outcome mid cat ok false (Some "/v1/videos") (Some st)
               (if ok : bool then None else es) note).

(** [len(x)]: only strings, lists and dicts have a length. *)
Definition py_len (x : json) : exn + nat :=
  match x with
  | JStr s => inr (String.length s)
  | JArr l => inr (length l)
  | JObj o => inr (size o)
  | _ => inl (Exn "TypeError"
                  ("object of type '" +:+ py_type_name x +:+ "' has no len()"))
  end.

(** [{"dataCount": len(j.get("data") or [])}] when [ok and isinstance(j, dict)]:
    the dict itself is dropped, the call of [len] may raise. *)
Definition data_count (ok : bool) (j : json) : exn + unit :=
  if ok then
    match j with
    | JObj o =>
        let data := dict_get o "data" in
        match py_len (if truthy data then data else JArr []) with
        | inl e => inl e
        | inr _ => inr tt
        end
    | _ => inr tt
    end
  else inr tt.

Definition probe_image (c : Client) (mid cat : string) : M outcome :=
  let size :=
    if String.eqb mid "dall-e-2" then "256x256"
    else if String.eqb mid "dall-e-3" then "1024x1024"
    else "auto" in
  r <- post_json c "/v1/images/generations"
         {[ "model" := JStr mid; "prompt" := JStr "A tiny red dot";
            "size" := JStr size; "n" := JInt 1 ]} 120 ;;
  let '(st, j, _) := r in
  let es := err_summary j in
  ok <- lift (ok_200 st j) ;;
  lift (data_count ok j) ;;;
  ret (plain_outcome mid cat ok "/v1/images/generations" st es).

Definition probe_tts (c : Client) (mid cat : string) : M outcome :=
  r <- post_json c "/v1/audio/speech"
         {[ "model" := JStr mid; "input" := JStr "ping"; "voice" := JStr "alloy" ]}
         120 ;;
  let '(st, j, hdrs) := r in
  let ok := (st =? 200)
            && PyStr.startswith (default "" (hdrs !! "content-type")) "audio/" in
  let err :=
    if ok then None
    else py_or (err_summary j)
               (Some {[ "message" := JStr ("http " +:+ PyStr.of_Z st);
                        "content_type" :=
                          match hdrs !! "content-type" with
                          | Some v => JStr v
                          | None => JNull
                          end ]}) in
  ret (Outcome mid cat ok false (Some "/v1/audio/speech") (Some st) err None).

Definition probe_transcribe (c : Client) (mid cat wav_path : string) : M outcome :=
  emit (EvOpen wav_path) ;;;
  oe <- ask (fun w => fs_open_error w wav_path) ;;
  match oe with
  | Some e => raise e
  | None =>
      r <- post_multipart c "/v1/audio/transcriptions"
             {[ "model" := mid ]}
             [("file", ("probe.wav", wav_path, "audio/wav"))] 120 ;;
      let '(st, j, _) := r in
      let es := err_summary j in
      ok <- lift (ok_200 st j) ;;
      ret (plain_outcome mid cat ok "/v1/audio/transcriptions" st es)
  end.

Definition audio_chat_payload (mid : string) : gmap string json :=
  {[ "model" := JStr mid;
     "modalities" := JArr [JStr "text"; JStr "audio"];
     "audio" := JObj {[ "voice" := JStr "alloy"; "format" := JStr "wav" ]};
     "messages" := JArr [JObj {[ "role" := JStr "user";
                                 "content" := JStr "Say OK" ]}];
     "max_tokens" := JInt 16 ]}.

Definition search_payload (mid : string) : gmap string json :=
  {[ "model" := JStr mid;
     "messages" := JArr [JObj {[ "role" := JStr "user";
                                 "content" := JStr "What is 1+1? Reply with OK." ]}];
     "max_tokens" := JInt 32 ]}.

(** The redaction of [client_secret] (realtime) rebinds the local [j],
    which is not read afterwards, and cannot raise; it has no counterpart
    here. *)
Definition probe_one (c : Client) (mid wav_path : string) : M outcome :=
  let cat := category_for mid in
  if String.eqb cat "video" then probe_video c mid cat
  else if String.eqb cat "realtime" then
    simple_probe c mid cat "/v1/realtime/sessions" {[ "model" := JStr mid ]} 60
  else if String.eqb cat "embeddings" then
    simple_probe c mid cat "/v1/embeddings"
      {[ "model" := JStr mid; "input" := JStr "ping" ]} 60
  else if String.eqb cat "moderation" then
    simple_probe c mid cat "/v1/moderations"
      {[ "model" := JStr mid; "input" := JStr "ping" ]} 60
  else if String.eqb cat "image" || String.eqb cat "dalle" then
    probe_image c mid cat
  else if String.eqb cat "tts" then probe_tts c mid cat
  else if String.eqb cat "transcribe" then probe_transcribe c mid cat wav_path
  else if String.eqb cat "audio_chat" then
    simple_probe c mid cat "/v1/chat/completions" (audio_chat_payload mid) 120
  else if String.eqb cat "computer_use" then
    r <- probe_text_like c mid (Some {[ "truncation" := JStr "auto" ]}) ;;
    ret (of_text_result mid cat r)
  else if String.eqb cat "deep_research" then
    r <- probe_text_like c mid
           (Some {[ "tools" := JArr [JObj {[ "type" := JStr "web_search_preview" ]}] ]}) ;;
    ret (of_text_result mid cat r)
  else if String.eqb cat "search" then
    simple_probe c mid cat "/v1/chat/completions" (search_payload mid) 120
  else
    r <- probe_text_like c mid None ;;
    ret (of_text_result mid cat r).

(* ================================================================== *)
(** ** main *)
(* ================================================================== *)

(** The parsed command line ([--auth-mode] is one of ["bearer"], ["none"]
    after [argparse]) and the two environment variables read. *)
Record Args : Type := MkArgs {
  arg_base_url : string;
  arg_auth_mode : string;
  arg_out_json : string;
  arg_out_md : string;
  arg_sleep_ms : Z
}.

Record Env : Type := MkEnv {
  OPENAI_API_KEY : option string;
  OPENAI_PROBE_WAV : option string
}.

(** [models_resp.get("data", []) if isinstance(models_resp, dict) else []] *)
Definition listed_models (models_resp : json) : json :=
  match models_resp with
  | JObj o => default (JArr []) (o !! "data")
  | _ => JArr []
  end.

(** [for m in models]: what iterating a decoded value yields. *)
Definition py_iter (j : json) : exn + list json :=
  match j with
  | JArr l => inr l
  | JStr s => inr (map (fun ch => JStr (String ch "")) (list_ascii_of_string s))
  | JObj o => inr (map (fun kv => JStr (fst kv)) (map_to_list o))
  | _ => inl (TypeError_not_iterable j)
  end.

(** One round of the set comprehension: the filter
    [isinstance(m, dict) and m.get("id")], then [m.get("id").strip().lower()]. *)
Definition model_id_of (m : json) : exn + option string :=
  match m with
  | JObj o =>
      let id := dict_get o "id" in
      if truthy id then
        match id with
        | JStr s => inr (Some (PyStr.lower (PyStr.strip s)))
        | _ => inl (AttributeError id "strip")
        end
      else inr None
  | _ => inr None
  end.

Fixpoint collect_ids (ms : list json) : exn + list string :=
  match ms with
  | [] => inr []
  | m :: rest =>
      match model_id_of m with
      | inl e => inl e
      | inr o =>
          match collect_ids rest with
          | inl e => inl e
          | inr ids => inr (match o with Some s => s :: ids | None => ids end)
          end
      end
  end.

Definition str_le (a b : string) : Prop := String.leb a b = true.

Global Instance str_le_dec a b : Decision (str_le a b).
Proof. unfold str_le. apply _. Defined.

(** [sorted({...})]: the set, then its elements in increasing order of code
    points.  The order in which the set is walked and the sorting algorithm
    do not matter: see [sorted_set_unique]. *)
Definition sorted_set (ids : list string) : list string :=
  merge_sort str_le (elements (list_to_set ids : gset string)).

Definition model_ids_of (models_resp : json) : exn + list string :=
  match py_iter (listed_models models_resp) with
  | inl e => inl e
  | inr ms =>
      match collect_ids ms with
      | inl e => inl e
      | inr ids => inr (sorted_set ids)
      end
  end.

(** [f"exception: {type(e).__name__}: {e}"] *)
Definition exception_message (e : exn) : string :=
  "exception: " +:+ exn_type e +:+ ": " +:+ exn_msg e.

(** The record built by the handler [except Exception as e]. *)
Definition exception_outcome (mid : string) (e : exn) : outcome :=
  Outcome mid (category_for mid) false false None None
    (Some {[ "message" := JStr (exception_message e) ]}) None.

(** The [try] statement of the loop body. *)
Definition guarded_probe (c : Client) (mid wav_path : string) : M outcome :=
  try_except (probe_one c mid wav_path)
             (fun e => ret (exception_outcome mid e)).

Definition count_ok (rs : list outcome) : nat :=
  length (filter (fun r => ok r = true) rs).

(** The [for] loop: [i] is the 1-based index of the head of [ids], [total]
    is [len(model_ids)], [acc] is [results] so far. *)
Fixpoint probe_loop (c : Client) (wav_path : string) (sleep_ms : Z)
    (total i : nat) (ids : list string) (acc : list outcome)
  : M (list outcome) :=
  match ids with
  | [] => ret acc
  | mid :: rest =>
      r <- guarded_probe c mid wav_path ;;
      let acc := (acc ++ [r])%list in
      (if Nat.eqb (i mod 10) 0
       then emit (EvStderr (Progress i total (count_ok acc)))
       else ret tt) ;;;
      emit (EvSleep (Z.max 0 sleep_ms)) ;;;
      probe_loop c wav_path sleep_ms total (S i) rest acc
  end.

(* ================================================================== *)
(** ** write_md *)
(* ================================================================== *)

Module Md.

(** The line feed. *)
Definition nl : string := String "010"%char "".

(** [str(n)] for a natural number. *)
Definition of_nat (n : nat) : string := PyStr.of_Z (Z.of_nat n).

(** [str(x)] for an optional [int] or [str] as an f-string prints it. *)
Definition of_opt_Z (o : option Z) : string :=
  match o with
  | Some z => PyStr.of_Z z
  | None => "None"
  end.

Definition of_opt_str (o : option string) : string :=
  match o with
  | Some s => s
  | None => "None"
  end.

(** [s.replace("|", "\\|")] *)
Fixpoint escape_pipes (s : string) : string :=
  match s with
  | EmptyString => EmptyString
  | String ch s' =>
      if Ascii.eqb ch "|"%char
      then String "\"%char (String "|"%char (escape_pipes s'))
      else String ch (escape_pipes s')
  end.

(** [sum(1 for r in results if r.get("ok"))] and the like. *)
Definition count_if (p : outcome -> bool) (rs : list outcome) : nat :=
  length (List.filter p rs).

(** The four numbers of the summary; [fail] is a difference of [int]s. *)
Definition total (rs : list outcome) : nat := length rs.
Definition n_ok (rs : list outcome) : nat := count_if ok rs.
Definition n_skipped (rs : list outcome) : nat := count_if skipped rs.
Definition n_fail (rs : list outcome) : Z :=
  Z.of_nat (total rs) - Z.of_nat (n_ok rs) - Z.of_nat (n_skipped rs).

(** One value of [by_cat]: the counters total, ok and fail. *)
Record counters : Type := Counters { c_total : nat; c_ok : nat; c_fail : nat }.

(** [r.get("category") or "unknown"] *)
Definition cat_key (r : outcome) : string :=
  if String.eqb (category r) "" then "unknown" else category r.

(** One round of the loop that fills [by_cat]. *)
Definition count_one (by_cat : gmap string counters) (r : outcome)
  : gmap string counters :=
  let cat := cat_key r in
  let c := default (Counters 0 0 0) (by_cat !! cat) in
  let c := Counters (S (c_total c)) (c_ok c) (c_fail c) in
  let c :=
    if ok r then Counters (c_total c) (S (c_ok c)) (c_fail c)
    else if skipped r then c
    else Counters (c_total c) (c_ok c) (S (c_fail c)) in
  <[cat := c]> by_cat.

Definition by_cat (rs : list outcome) : gmap string counters :=
  foldl count_one ∅ rs.

(** [sorted(by_cat.keys())] *)
Definition sorted_cats (m : gmap string counters) : list string :=
  merge_sort str_le (elements (dom m)).

Definition cat_row (m : gmap string counters) (cat : string) : string :=
  let c := default (Counters 0 0 0) (m !! cat) in
  "| " +:+ cat +:+ " | " +:+ of_nat (c_total c) +:+ " | " +:+ of_nat (c_ok c)
  +:+ " | " +:+ of_nat (c_fail c) +:+ " |".

(** [[r for r in results if (not r.get("ok") and not r.get("skipped"))]] *)
Definition fails (rs : list outcome) : list outcome :=
  List.filter (fun r => negb (ok r) && negb (skipped r)) rs.

(** The order of the tuples [(category, model)]. *)
Definition key_le (a b : outcome) : bool :=
  match String.compare (category a) (category b) with
  | Lt => true
  | Gt => false
  | Eq => String.leb (model a) (model b)
  end.

(** [sorted(l, key=...)]: a stable sort, by insertion from the right. *)
Fixpoint insert_by {A} (le : A -> A -> bool) (x : A) (l : list A) : list A :=
  match l with
  | [] => [x]
  | y :: l' => if le x y then x :: l else y :: insert_by le x l'
  end.

Definition stable_sort {A} (le : A -> A -> bool) (l : list A) : list A :=
  foldr (insert_by le) [] l.

(** The cell of the error column:
    [err = r.get("error") or {}], [msg = err.get("message")],
    [(msg or "").replace("|", "\\|")]; only a [str] has [replace]. *)
Definition error_cell (r : outcome) : exn + string :=
  let err : gmap string json :=
    match error r with
    | Some d => if truthy (JObj d) then d else ∅
    | None => ∅
    end in
  let msg := dict_get err "message" in
  let msg := if truthy msg then msg else JStr "" in
  match msg with
  | JStr s => inr (escape_pipes s)
  | _ => inl (AttributeError msg "replace")
  end.

Definition fail_row (r : outcome) : exn + string :=
  match error_cell r with
  | inl e => inl e
  | inr msg =>
      inr ("| `" +:+ model r +:+ "` | " +:+ category r +:+ " | `"
           +:+ of_opt_str (endpoint r) +:+ "` | " +:+ of_opt_Z (http r)
           +:+ " | " +:+ msg +:+ " |")
  end.

(** The rows of a [for] loop that appends one line per element; the first
    element that raises ends it. *)
Fixpoint rows {A} (f : A -> exn + string) (l : list A) : exn + list string :=
  match l with
  | [] => inr []
  | x :: l' =>
      match f x with
      | inl e => inl e
      | inr s =>
          match rows f l' with
          | inl e => inl e
          | inr ss => inr (s :: ss)
          end
      end
  end.

Definition note_smoke : string :=
  "- This is a **smoke probe**, not a full capability test. It uses minimal payloads to confirm the model works on its likely endpoint.".

Definition note_video : string :=
  "- Video models (`sora-*`) are probed using a **validation-only** request (invalid `size`) to avoid expensive generation.".

(** The list [lines] at the end of [write_md], or the exception raised
    while it is built; [generatedAt] is [report['meta']['generatedAt']]. *)
Definition lines (generatedAt : string) (rep : report) : exn + list string :=
  let rs := results rep in
  let head :=
    [ "# OpenAI model probe results" +:+ nl;
      "**Generated:** " +:+ generatedAt +:+ "  " +:+ nl;
      "**Base URL:** `" +:+ meta_baseUrl rep +:+ "`  " +:+ nl;
      "**Auth mode:** `" +:+ meta_authMode rep +:+ "`" +:+ nl;
      "## Summary" +:+ nl;
      "- Total models probed: **" +:+ of_nat (total rs) +:+ "**";
      "- Supported (probe OK): **" +:+ of_nat (n_ok rs) +:+ "**";
      "- Failed: **" +:+ PyStr.of_Z (n_fail rs) +:+ "**" ] in
  let skip :=
    if Nat.eqb (n_skipped rs) 0 then []
    else [ "- Skipped: **" +:+ of_nat (n_skipped rs) +:+ "**" ] in
  let cats :=
    ([ ""; "## Results by category" +:+ nl;
       "| Category | Total | OK | Fail |"; "|---|---:|---:|---:|" ]
     ++ map (cat_row (by_cat rs)) (sorted_cats (by_cat rs)) ++ [ "" ])%list in
  let notes := [ "## Notes" +:+ nl; note_smoke; note_video ] in
  match fails rs with
  | [] =>
      inr (head ++ skip ++ cats
           ++ [ "## Failed models" +:+ nl; "_None._" +:+ nl ] ++ notes)%list
  | fs =>
      match rows fail_row (stable_sort key_le fs) with
      | inl e => inl e
      | inr table =>
          inr (head ++ skip ++ cats
               ++ [ "## Failed models" +:+ nl;
                    "| Model | Category | Endpoint | HTTP | Error |";
                    "|---|---|---|---:|---|" ]
               ++ table ++ [ "" ] ++ notes)%list
      end
  end.

(** ["\n".join(lines) + "\n"], the text handed to [f.write]. *)
Definition text (generatedAt : string) (rep : report) : exn + string :=
  match lines generatedAt rep with
  | inl e => inl e
  | inr ls => inr (String.concat nl ls +:+ nl)
  end.

End Md.

(* ================================================================== *)
(** ** main: the reports and the exit status *)
(* ================================================================== *)

(** Opening the file [path] for writing and filling it; [ev] records which
    report it is. *)
Definition write_report (ev : string -> report -> event) (path : string)
    (r : report) : M unit :=
  emit (ev path r) ;;;
  oe <- ask (fun w => fs_write_error w path) ;;
  match oe with
  | Some e => raise e
  | None => ret tt
  end.

(** [write_md(path, report)]: the lines are built first, and an exception
    raised there leaves before the file is opened. *)
Definition write_md (path generatedAt : string) (rep : report) : M unit :=
  match Md.text generatedAt rep with
  | inl e => raise e
  | inr _ => write_report EvWriteMd path rep
  end.

Definition default_wav : string := "/tmp/openai-probe.wav".

(** The value is the returned exit status; an exception that leaves [main]
    ends the process with a traceback instead. *)
Definition main (args : Args) (env : Env) : M Z :=
  let client := MkClient (arg_base_url args) (OPENAI_API_KEY env)
                         (arg_auth_mode args) in
  let wav_path := default default_wav (OPENAI_PROBE_WAV env) in
  present <- ask (fun w => fs_exists w wav_path) ;;
  if negb present then
    emit (EvStderr (MissingWav wav_path)) ;;; ret 2
  else
    lm <- get_models client ;;
    let '(st, models_resp) := lm in
    if negb (st =? 200) then
      emit (EvStderr (ListingFailed st models_resp)) ;;; ret 3
    else
      model_ids <- lift (model_ids_of models_resp) ;;
      rs <- probe_loop client wav_path (arg_sleep_ms args)
              (length model_ids) 1 model_ids [] ;;
      generatedAt <- ask now_iso ;;
      let rep := Report (arg_base_url args) (arg_auth_mode args)
                        (length model_ids) rs in
      write_report EvWriteJson (arg_out_json args) rep ;;;
      write_md (arg_out_md args) generatedAt rep ;;;
      ret 0.

(** The outcomes a run has handed to the report writers. *)
Definition reported (t : list event) : list (list outcome) :=
  omap (fun ev => match ev with
                  | EvWriteJson _ r => Some (results r)
                  | _ => None
                  end) t.

(* ------------------------------------------------------------------ *)
(** *** A sample run *)

Module Sample.

Definition envelope (ty msg : string) : json :=
  JObj {[ "error" := JObj {[ "type" := JStr ty; "message" := JStr msg ]} ]}.

Definition listing : json :=
  JObj {[ "data" := JArr [ JObj {[ "id" := JStr "gpt-4o" ]};
                           JObj {[ "id" := JStr "DALL-E-3" ]};
                           JObj {[ "id" := JStr "whisper-1" ]};
                           JObj {[ "id" := JStr " GPT-4o " ]} ] ]}.

Definition json_response (st : Z) (j : json) : response :=
  Response st [("Content-Type", "application/json")] (Some j) "".

Definition json_reply (st : Z) (j : json) : exn + response :=
  inr (json_response st j).

Definition json_headers : gmap string string :=
  {[ "Content-Type" := "application/json" ]}.

Definition long_message : string :=
  string_of_list_ascii (repeat "x"%char 300).

Definition long_envelope : gmap string json :=
  {[ "type" := JStr "invalid_request_error"; "message" := JStr long_message ]}.

Definition size_envelope : json :=
  JObj {[ "error" := JObj {[ "param" := JStr "size";
                             "message" := JStr "invalid size" ]} ]}.

Definition tts_listing : json :=
  JObj {[ "data" := JArr [ JObj {[ "id" := JStr "tts-1" ]} ] ]}.

Definition numeric_message : json :=
  JObj {[ "error" := JObj {[ "message" := JInt 7 ]} ]}.

Definition fs_all (_ : string) : bool := true.
Definition fs_fine (_ : string) : option exn := None.

Definition world0 (rs : list (exn + response)) : world :=
  World rs fs_all fs_fine fs_fine "2026-01-01T00:00:00-05:00" [].

Definition args : Args :=
  MkArgs "https://api.openai.com/" "bearer" "out.json" "out.md" 50.
Definition env : Env := MkEnv (Some "sk-test") None.

Definition client : Client := MkClient "http://localhost:3000" None "none".

End Sample.

(* ================================================================== *)
(** ** Notions of the specification *)
(* ================================================================== *)

(** The fixed enumeration of categories. *)
Definition Categories : list string :=
  ["video"; "realtime"; "computer_use"; "moderation"; "embeddings";
   "transcribe"; "tts"; "audio_chat"; "deep_research"; "search"; "dalle";
   "image"; "text"].

(** The first twelve rules of the classifier as the specification lists
    them: a test on the lower-cased identifier and the category it gives.
    The thirteenth rule is the default of [first_match]. *)
Definition rules : list ((string -> bool) * string) :=
  [ (fun m => PyStr.startswith m "sora-", "video");
    (fun m => PyStr.contains "realtime" m, "realtime");
    (fun m => PyStr.contains "computer-use" m, "computer_use");
    (fun m => PyStr.contains "moderation" m, "moderation");
    (fun m => PyStr.contains "embedding" m, "embeddings");
    (fun m => PyStr.contains "transcribe" m || String.eqb m "whisper-1",
     "transcribe");
    (fun m => PyStr.startswith m "tts-" || PyStr.contains "-tts" m, "tts");
    (fun m => PyStr.contains "audio-preview" m || PyStr.startswith m "gpt-audio",
     "audio_chat");
    (fun m => PyStr.contains "deep-research" m, "deep_research");
    (fun m => PyStr.contains "search-api" m || PyStr.contains "search-preview" m
              || PyStr.contains "search" m, "search");
    (fun m => String.eqb m "dall-e-2" || String.eqb m "dall-e-3", "dalle");
    (fun m => PyStr.contains "image" m, "image") ].

Fixpoint first_match (rs : list ((string -> bool) * string)) (m : string)
  : string :=
  match rs with
  | [] => "text"
  | (test, cat) :: rs' => if test m then cat else first_match rs' m
  end.

(** [categorize] of the specification. *)
Definition categorize (identifier : string) : string :=
  first_match rules (PyStr.lower identifier).

(** The body a probe sees for a response (after [post_json]). *)
Definition seen_body (r : response) : json := snd (fst (decode_json_response r)).

(** The body is an object whose [error] member is an object holding [v]
    under the key [k]: an error envelope with that field. *)
Definition envelope_field (j : json) (k : string) (v : json) : Prop :=
  exists o e, j = JObj o /\ o !! "error" = Some (JObj e) /\ e !! k = Some v.

Definition server_error_envelope (j : json) : Prop :=
  envelope_field j "type" (JStr "server_error").

(** No recognizable error envelope: nothing for [err_summary] to extract. *)
Definition no_error_envelope (j : json) : Prop := err_summary j = None.

(** The body is an object whose [error] member is missing or falsy. *)
Definition object_without_error (j : json) : Prop :=
  exists o, j = JObj o /\ truthy (dict_get o "error") = false.

(** A response that is not a success of its endpoint. *)
Definition failed_response (r : response) : Prop :=
  status_code r <> 200
  \/ exists o, seen_body r = JObj o /\ truthy (dict_get o "error") = true.

(** The first summary that exists, or the generic one. *)
Fixpoint first_available (l : list (option (gmap string json)))
  : gmap string json :=
  match l with
  | [] => unknown_error
  | Some d :: _ => d
  | None :: l' => first_available l'
  end.

(** The raw identifier of one entry of a listing: its [id] member when the
    entry is an object and the member a non-empty string. *)
Definition raw_id (m : json) : option string :=
  match m with
  | JObj o =>
      match o !! "id" with
      | Some (JStr s) => if String.eqb s "" then None else Some s
      | _ => None
      end
  | _ => None
  end.

(** The raw identifiers of a listing, in the order of its [data] array. *)
Definition listed_ids (models_resp : json) : list string :=
  match listed_models models_resp with
  | JArr l => omap raw_id l
  | _ => []
  end.

Definition normalize (s : string) : string := PyStr.lower (PyStr.strip s).

(* ================================================================== *)
(** ** Requests, and what computations may do *)
(* ================================================================== *)

(** The request [post_json] sends. *)
Definition post_request (c : Client) (h : gmap string string) (path : string)
    (payload : gmap string json) (timeout : Z) : request :=
  Request "POST" (url c path) h (JsonBody payload) timeout.

Definition listing_request (c : Client) (h : gmap string string) : request :=
  Request "GET" (url c "/v1/models") h NoBody 60.

(** The three requests of the text-like chain. *)
Definition primary_request (c : Client) (h : gmap string string) (mid : string)
    (extra : option (gmap string json)) : request :=
  post_request c h "/v1/responses" (responses_payload mid extra) 90.

Definition chat_request (c : Client) (h : gmap string string) (mid : string)
  : request :=
  post_request c h "/v1/chat/completions" (chat_payload mid) 90.

Definition completions_request (c : Client) (h : gmap string string)
    (mid : string) : request :=
  post_request c h "/v1/completions" (completions_payload mid) 90.

Definition client_of (args : Args) (env : Env) : Client :=
  MkClient (arg_base_url args) (OPENAI_API_KEY env) (arg_auth_mode args).

Definition wav_of (env : Env) : string :=
  default default_wav (OPENAI_PROBE_WAV env).

(** The file-system facts and the clock reading never change. *)
Definition same_fs (w w' : world) : Prop :=
  fs_exists w' = fs_exists w
  /\ fs_open_error w' = fs_open_error w
  /\ fs_write_error w' = fs_write_error w
  /\ now_iso w' = now_iso w.

(** [w'] is [w] after some more effects, each of them satisfying [P]. *)
Definition extends (P : event -> Prop) (w w' : world) : Prop :=
  same_fs w w' /\ exists t, trace w' = (trace w ++ t)%list /\ Forall P t.

(** Whatever the world: [m] only performs effects satisfying [P], and a
    value it returns satisfies [Q]. *)
Definition does {A} (P : event -> Prop) (Q : A -> Prop) (m : M A) : Prop :=
  forall w, extends P w (snd (m w)) /\ forall a, fst (m w) = inr a -> Q a.

(** The request was built by the client [c]: its headers are the client's. *)
Definition client_request (c : Client) (rq : request) : Prop :=
  headers_json c = inr (rq_headers rq)
  \/ headers_multipart c = inr (rq_headers rq).

(** The effects a probe may perform: POST requests of the client, sleeping,
    opening the fixture; never a report. *)
Definition probe_event (c : Client) (ev : event) : Prop :=
  match ev with
  | EvRequest rq => rq_method rq = "POST" /\ client_request c rq
  | EvSleep _ | EvOpen _ | EvStderr _ => True
  | EvWriteJson _ _ | EvWriteMd _ _ => False
  end.

(** What [main] may do: requests of its client, and anything else. *)
Definition main_event (c : Client) (ev : event) : Prop :=
  match ev with
  | EvRequest rq => client_request c rq
  | _ => True
  end.

(** A request to one of the two fallback endpoints: neither a primary
    request nor a pause. *)
Definition fallback_event (c : Client) (h : gmap string string) (mid : string)
    (ev : event) : Prop :=
  ev = EvRequest (chat_request c h mid)
  \/ ev = EvRequest (completions_request c h mid).

(** The categories probed by the text-like chain, and tts. *)
Definition text_like_or_tts : list string :=
  ["tts"; "computer_use"; "deep_research"; "text"].

Definition well_formed_outcome (mid : string) (o : outcome) : Prop :=
  model o = mid /\ category o = category_for mid /\ skipped o = false
  /\ (ok o = true -> error o = None)
  /\ (In (category o) text_like_or_tts -> ok o = false -> is_Some (error o)).

Definition well_formed_text_result (r : text_result) : Prop :=
  (tr_ok r = true -> tr_error r = None)
  /\ (tr_ok r = false -> is_Some (tr_error r)).

(** The claims on a 200 answer "with no error envelope", as written. *)
Definition video_claim_as_stated : Prop :=
  forall (c : Client) (mid wav_path : string) (w : world) (r : response)
         (rest : list (exn + response)),
    category_for mid = "video" ->
    replies w = inr r :: rest ->
    (exists h, headers_json c = inr h) ->
    exists out,
      fst (guarded_probe c mid wav_path w) = inr out
      /\ (ok out = true <->
          (status_code r = 400
           /\ envelope_field (seen_body r) "param" (JStr "size"))
          \/ (status_code r = 200 /\ no_error_envelope (seen_body r))).

Definition retry_claim_as_stated : Prop :=
  forall (c : Client) (mid : string) (extra : option (gmap string json))
         (w : world) (r1 r2 : response) (rest : list (exn + response)),
    (exists h, headers_json c = inr h) ->
    replies w = inr r1 :: inr r2 :: rest ->
    server_error_envelope (seen_body r1) ->
    status_code r2 = 200 -> no_error_envelope (seen_body r2) ->
    fst (probe_text_like c mid extra w)
    = inr (TextResult true "/v1/responses" 200 None).

(* ================================================================== *)
(** ** Counting effects *)
(* ================================================================== *)

Definition is_request (ev : event) : bool :=
  match ev with
  | EvRequest _ => true
  | _ => false
  end.

Definition is_sleep (ev : event) : bool :=
  match ev with
  | EvSleep _ => true
  | _ => false
  end.

(** The number of requests among some effects. *)
Definition n_requests (t : list event) : nat := length (List.filter is_request t).

(** Whatever the world, [m] sends at most [n] requests, and it uses up one
    reply of the script for each request it sends. *)
Definition sends_at_most {A} (n : nat) (m : M A) : Prop :=
  forall w, exists t,
    trace (snd (m w)) = (trace w ++ t)%list
    /\ (n_requests t <= n)%nat
    /\ replies (snd (m w)) = drop (n_requests t) (replies w).

(** The endpoints on which a model of a category is probed. *)
Definition endpoints_for (cat : string) : list string :=
  if String.eqb cat "video" then ["/v1/videos"]
  else if String.eqb cat "realtime" then ["/v1/realtime/sessions"]
  else if String.eqb cat "embeddings" then ["/v1/embeddings"]
  else if String.eqb cat "moderation" then ["/v1/moderations"]
  else if String.eqb cat "image" || String.eqb cat "dalle"
       then ["/v1/images/generations"]
  else if String.eqb cat "tts" then ["/v1/audio/speech"]
  else if String.eqb cat "transcribe" then ["/v1/audio/transcriptions"]
  else if String.eqb cat "audio_chat" || String.eqb cat "search"
       then ["/v1/chat/completions"]
  else ["/v1/responses"; "/v1/chat/completions"; "/v1/completions";
        all_endpoints].

(** [size] and the payload in the image branch of [probe_one]. *)
Definition image_size (mid : string) : string :=
  if String.eqb mid "dall-e-2" then "256x256"
  else if String.eqb mid "dall-e-3" then "1024x1024"
  else "auto".

Definition image_payload (mid : string) : gmap string json :=
  {[ "model" := JStr mid; "prompt" := JStr "A tiny red dot";
     "size" := JStr (image_size mid); "n" := JInt 1 ]}.

(** The payload of the speech request, and the generic error of the tts
    branch, [{"message": f"http {st}", "content_type": ...}]. *)
Definition tts_payload (mid : string) : gmap string json :=
  {[ "model" := JStr mid; "input" := JStr "ping"; "voice" := JStr "alloy" ]}.

Definition tts_generic_error (st : Z) (hdrs : gmap string string)
  : gmap string json :=
  {[ "message" := JStr ("http " +:+ PyStr.of_Z st);
     "content_type" := match hdrs !! "content-type" with
                       | Some v => JStr v
                       | None => JNull
                       end ]}.

(** What every result of [probe_text_like] satisfies. *)
Definition text_result_invariant (r : text_result) : Prop :=
  (tr_ok r = true ->
   tr_http r = 200
   /\ In (tr_endpoint r)
         ["/v1/responses"; "/v1/chat/completions"; "/v1/completions"])
  /\ (tr_ok r = false -> tr_endpoint r = all_endpoints).

(** What every outcome of [probe_one] satisfies. *)
Definition outcome_invariant (mid : string) (o : outcome) : Prop :=
  skipped o = false
  /\ (exists ep, endpoint o = Some ep /\ In ep (endpoints_for (category_for mid)))
  /\ (exists st, http o = Some st
        /\ (ok o = true ->
            st = 200 \/ (category_for mid = "video" /\ st = 400)))
  /\ (note o <> None ->
      category_for mid = "video" /\ ok o = true /\ http o = Some 400).

(** [n] slashes. *)
Fixpoint slashes (n : nat) : string :=
  match n with
  | O => EmptyString
  | S n' => String "/"%char (slashes n')
  end.



(** The message of an outcome's error is truthy and not a string. *)
Definition bad_message (r : outcome) : Prop :=
  exists d m, error r = Some d /\ d !! "message" = Some m
              /\ truthy m = true /\ forall s, m <> JStr s.

(** The paths a model of a category may be requested on, and what a probe
    of the model [mid] may do: POST requests to these paths that name the
    model, the pause before the retry of the text-like chain, and opening
    the fixture for a transcription model. *)
Definition probe_paths (cat : string) : list string :=
  List.filter (fun p => negb (String.eqb p all_endpoints)) (endpoints_for cat).

Definition names_model (mid : string) (b : req_body) : Prop :=
  match b with
  | JsonBody payload => payload !! "model" = Some (JStr mid)
  | MultipartBody fields _ => fields !! "model" = Some mid
  | NoBody => False
  end.

Definition probe_step (c : Client) (mid wav_path : string) (ev : event) : Prop :=
  match ev with
  | EvRequest rq =>
      rq_method rq = "POST"
      /\ (exists p, In p (probe_paths (category_for mid))
                    /\ rq_url rq = url c p)
      /\ names_model mid (rq_body rq)
  | EvSleep ms => ms = 500 /\ In "/v1/responses" (probe_paths (category_for mid))
  | EvOpen p => p = wav_path /\ category_for mid = "transcribe"
  | EvStderr _ | EvWriteJson _ _ | EvWriteMd _ _ => False
  end.

(* ================================================================== *)
(** * Properties *)
(* ================================================================== *)

(** ** Strings *)

Lemma length_append (a b : string) :
  String.length (a +:+ b) = (String.length a + String.length b)%nat.
Proof. induction a as [|ch a IH]; simpl; [reflexivity | now rewrite IH]. Qed.

Lemma slice_to_length (n : nat) (s : string) :
  String.length (PyStr.slice_to n s) = Nat.min n (String.length s).
Proof.
  revert s; induction n as [|n IH]; intros [|ch s]; simpl; try reflexivity.
  now rewrite IH.
Qed.

Lemma slice_to_prefix (n : nat) (s : string) :
  String.prefix (PyStr.slice_to n s) s = true.
Proof.
  revert s; induction n as [|n IH]; intros [|ch s]; simpl; try reflexivity.
  destruct (ascii_dec ch ch) as [_|Hne]; [apply IH | now destruct Hne].
Qed.

Lemma slice_to_all (n : nat) (s : string) :
  (String.length s <= n)%nat -> PyStr.slice_to n s = s.
Proof.
  revert s; induction n as [|n IH]; intros [|ch s]; simpl; intros Hle;
    try reflexivity; try lia.
  rewrite IH; [reflexivity | lia].
Qed.





Lemma append_cancel_l (p a b : string) : p +:+ a = p +:+ b -> a = b.
Proof.
  induction p as [|ch p IH]; [auto|].
  intros H. injection H. exact IH.
Qed.

(** ** Dicts and truthiness *)

Lemma dict_get_some (o : gmap string json) (k : string) (v : json) :
  o !! k = Some v -> dict_get o k = v.
Proof. unfold dict_get. now intros ->. Qed.

Lemma dict_get_str (o : gmap string json) (k s : string) :
  dict_get o k = JStr s <-> o !! k = Some (JStr s).
Proof.
  unfold dict_get. destruct (o !! k) as [v|]; simpl; split; intros H;
    congruence.
Qed.

Lemma truthy_obj_lookup (d : gmap string json) (k : string) (v : json) :
  d !! k = Some v -> truthy (JObj d) = true.
Proof.
  intros Hk. simpl. apply negb_true_iff, Nat.eqb_neq.
  apply (map_size_ne_0_lookup_2 d k). rewrite Hk. eauto.
Qed.

Lemma err_summary_inv (j : json) (d : gmap string json) :
  err_summary j = Some d ->
  exists o e, j = JObj o /\ o !! "error" = Some (JObj e)
    /\ d !! "type" = Some (dict_get e "type")
    /\ d !! "code" = Some (dict_get e "code")
    /\ d !! "param" = Some (dict_get e "param").
Proof.
  destruct j as [| | | | | |o]; simpl; try discriminate.
  destruct (o !! "error") as [[| | | | | |e]|] eqn:He;
    try (rewrite (dict_get_some _ _ _ He)); try discriminate.
  2: { unfold dict_get at 1. rewrite He. discriminate. }
  intros [= <-]. exists o, e. repeat split; try assumption;
    now simplify_map_eq.
Qed.

Lemma err_summary_truthy (j : json) (d : gmap string json) :
  err_summary j = Some d -> truthy (JObj d) = true.
Proof.
  intros H. destruct (err_summary_inv _ _ H) as (o & e & _ & _ & Ht & _).
  eapply truthy_obj_lookup, Ht.
Qed.

Lemma err_summary_of_envelope (o e : gmap string json) :
  o !! "error" = Some (JObj e) -> is_Some (err_summary (JObj o)).
Proof. intros He. simpl. rewrite (dict_get_some _ _ _ He). eauto. Qed.

Lemma py_or_summary (j : json) (b : option (gmap string json)) :
  py_or (err_summary j) b
  = match err_summary j with Some d => Some d | None => b end.
Proof.
  destruct (err_summary j) as [d|] eqn:E; [|reflexivity].
  unfold py_or. now rewrite (err_summary_truthy _ _ E).
Qed.

(** ** err_summary: truncation of the message *)

(** C6. For every error envelope, [err_summary] stores a message string of
    more than 240 characters as its first 237 characters followed by the
    three characters "...", which makes exactly 240 characters, and stores
    a message string of at most 240 characters unchanged. *)
Theorem err_summary_truncates_message :
  forall (o e : gmap string json) (s : string),
    o !! "error" = Some (JObj e) ->
    e !! "message" = Some (JStr s) ->
    exists d m,
      err_summary (JObj o) = Some d /\ d !! "message" = Some (JStr m)
      /\ ((240 < String.length s)%nat ->
          m = PyStr.slice_to 237 s +:+ "..."
          /\ String.length (PyStr.slice_to 237 s) = 237%nat
          /\ String.prefix (PyStr.slice_to 237 s) s = true
          /\ String.length m = 240%nat)
      /\ ((String.length s <= 240)%nat -> m = s).
Proof.
  intros o e s Ho He. unfold err_summary.
  rewrite (dict_get_some _ _ _ Ho), (dict_get_some _ _ _ He).
  destruct (Nat.ltb_spec 240 (String.length s)) as [Hlong|Hshort].
  - exists ({[ "type" := dict_get e "type";
               "code" := dict_get e "code";
               "param" := dict_get e "param";
               "message" := JStr (PyStr.slice_to 237 s +:+ "...") ]}),
           (PyStr.slice_to 237 s +:+ "...").
    split; [reflexivity|]. split; [now simplify_map_eq|]. split; [|lia].
    intros _. split; [reflexivity|].
    assert (Hlen : String.length (PyStr.slice_to 237 s) = 237%nat)
      by (rewrite slice_to_length; lia).
    split; [exact Hlen|]. split; [apply slice_to_prefix|].
    rewrite length_append, Hlen. reflexivity.
  - exists ({[ "type" := dict_get e "type";
               "code" := dict_get e "code";
               "param" := dict_get e "param";
               "message" := JStr s ]}), s.
    split; [reflexivity|]. split; [now simplify_map_eq|]. split; [lia|].
    reflexivity.
Qed.

(** ** category_for *)

Lemma first_match_in (rs : list ((string -> bool) * string)) (m : string) :
  In (first_match rs m) (map snd rs ++ ["text"]).
Proof.
  induction rs as [|[test cat] rs IH]; simpl; [now left|].
  destruct (test m); [now left | now right].
Qed.

Lemma category_for_categorize (mid : string) : category_for mid = categorize mid.
Proof.
  unfold category_for, categorize, rules. cbn [first_match].
  generalize (PyStr.lower mid) as m; intros m.
  repeat match goal with
         | |- (if ?b then _ else _) = _ => destruct b; [reflexivity|]
         end.
  cbn [orb].
  repeat match goal with
         | |- (if ?b then _ else _) = _ => destruct b; [reflexivity|]
         end.
  reflexivity.
Qed.

(** C1. On every identifier [category_for] returns one value, a member of
    the fixed enumeration of thirteen names, and that value is the category
    of the first rule of the ordered list that matches the lower-cased
    identifier (["text"] when none does); ["gpt-audio-search-preview"]
    matches both the audio_chat rule and the search rule and is classified
    by the audio_chat rule, which is listed first. *)
Theorem category_for_first_rule_wins :
  forall mid : string,
    category_for mid = first_match rules (PyStr.lower mid)
    /\ In (category_for mid) Categories
    /\ NoDup Categories
    /\ length rules = 12%nat
    /\ (let m := "gpt-audio-search-preview" in
        (PyStr.contains "audio-preview" m || PyStr.startswith m "gpt-audio") = true
        /\ PyStr.contains "search" m = true
        /\ category_for m = "audio_chat").
Proof.
  intros mid. split; [apply category_for_categorize|].
  split.
  { rewrite category_for_categorize. unfold categorize.
    pose proof (first_match_in rules (PyStr.lower mid)) as Hin.
    cbn [rules map snd app] in Hin. cbn [Categories In] in *.
    exact Hin. }
  split.
  { apply (bool_decide_unpack _). vm_compute. exact I. }
  split; [reflexivity|].
  cbv zeta. repeat split; vm_compute; reflexivity.
Qed.

(* ================================================================== *)
(** ** Reasoning about computations in [M] *)
(* ================================================================== *)

Section Does.
Context (P : event -> Prop).

Lemma extends_refl (w : world) : extends P w w.
Proof.
  split; [now repeat split|]. exists []. now rewrite app_nil_r.
Qed.

Lemma extends_trans (w1 w2 w3 : world) :
  extends P w1 w2 -> extends P w2 w3 -> extends P w1 w3.
Proof.
  intros [(E1 & O1 & W1 & N1) (t1 & T1 & F1)]
         [(E2 & O2 & W2 & N2) (t2 & T2 & F2)].
  split; [repeat split; congruence|].
  exists (t1 ++ t2)%list. split; [now rewrite T2, T1, app_assoc|].
  now apply Forall_app.
Qed.

Lemma extends_logged (w : world) (ev : event) :
  P ev -> extends P w (logged w ev).
Proof.
  intros Hev. split; [now repeat split|]. exists [ev]. split; [reflexivity|].
  now repeat constructor.
Qed.

Lemma does_ret {A} (Q : A -> Prop) (a : A) : Q a -> does P Q (ret a).
Proof.
  intros Ha w. split; [apply extends_refl|]. now intros b [= <-].
Qed.

Lemma does_raise {A} (Q : A -> Prop) (e : exn) : does P Q (raise e).
Proof. intros w. split; [apply extends_refl|]. intros a [=]. Qed.

Lemma does_lift {A} (Q : A -> Prop) (r : exn + A) :
  (forall a, r = inr a -> Q a) -> does P Q (lift r).
Proof. intros Hr w. split; [apply extends_refl | exact Hr]. Qed.

Lemma does_ask {A} (Q : A -> Prop) (f : world -> A) :
  (forall w, Q (f w)) -> does P Q (ask f).
Proof.
  intros Hf w. split; [apply extends_refl|]. intros a [= <-]. apply Hf.
Qed.

Lemma does_emit (Q : unit -> Prop) (ev : event) :
  P ev -> Q tt -> does P Q (emit ev).
Proof.
  intros Hev Hq w. split; [now apply extends_logged|].
  now intros [] _.
Qed.

Lemma does_send (Q : response -> Prop) (rq : request) :
  P (EvRequest rq) -> (forall r, Q r) -> does P Q (send rq).
Proof.
  intros Hev Hq w. split; [|intros r _; apply Hq].
  unfold send. destruct (replies w) as [|rp rs]; cbn [snd];
    (split; [now repeat split|]); exists [EvRequest rq];
    (split; [reflexivity | now repeat constructor]).
Qed.

Lemma does_bind {A B} (Q1 : A -> Prop) (Q : B -> Prop) (m : M A)
    (k : A -> M B) :
  does P Q1 m -> (forall a, Q1 a -> does P Q (k a)) -> does P Q (bind m k).
Proof.
  intros Hm Hk w. destruct (Hm w) as [Hext Hres]. unfold bind.
  destruct (m w) as [[e|a] w1]; cbn [fst snd] in *.
  - split; [exact Hext | intros b [=]].
  - destruct (Hk a (Hres a eq_refl) w1) as [Hext' Hres'].
    split; [eapply extends_trans; eassumption | exact Hres'].
Qed.

Lemma does_try {A} (Q : A -> Prop) (m : M A) (h : exn -> M A) :
  does P Q m -> (forall e, does P Q (h e)) -> does P Q (try_except m h).
Proof.
  intros Hm Hh w. destruct (Hm w) as [Hext Hres]. unfold try_except.
  destruct (m w) as [[e|a] w1]; cbn [fst snd] in *.
  - destruct (Hh e w1) as [Hext' Hres'].
    split; [eapply extends_trans; eassumption | exact Hres'].
  - split; [exact Hext | intros b [= <-]; now apply Hres].
Qed.

Lemma does_post {A} (Q1 : A -> Prop) (Q : A -> Prop) (m : M A) :
  does P Q1 m -> (forall a, Q1 a -> Q a) -> does P Q m.
Proof.
  intros Hm Himp w. destruct (Hm w) as [Hext Hres].
  split; [exact Hext | intros a Ha; now apply Himp, Hres].
Qed.

End Does.

Lemma extends_weaken (P P' : event -> Prop) (w w' : world) :
  (forall ev, P ev -> P' ev) -> extends P w w' -> extends P' w w'.
Proof.
  intros Himp [Hfs (t & Ht & HF)]. split; [exact Hfs|]. exists t.
  split; [exact Ht | eapply Forall_impl; eassumption].
Qed.

Lemma does_weaken {A} (P P' : event -> Prop) (Q : A -> Prop) (m : M A) :
  (forall ev, P ev -> P' ev) -> does P Q m -> does P' Q m.
Proof.
  intros Himp Hm w. destruct (Hm w) as [Hext Hres].
  split; [eapply extends_weaken; eassumption | exact Hres].
Qed.

Ltac does_step :=
  lazymatch goal with
  | |- does _ _ (bind _ _) => eapply does_bind; [ | intros ? ? ]
  | |- does _ _ (ret _) => apply does_ret
  | |- does _ _ (raise _) => apply does_raise
  | |- does _ _ (match ?r with _ => _ end) =>
      first [ destruct r as [[? ?] ?] | destruct r as [? ?] ]
  end.

Lemma does_lift_eq {A} (P : event -> Prop) (r : exn + A) :
  does P (fun a => r = inr a) (lift r).
Proof. apply does_lift. auto. Qed.

Lemma does_emit_any (P : event -> Prop) (ev : event) :
  P ev -> does P (fun _ => True) (emit ev).
Proof. intros Hev. now apply does_emit. Qed.

Lemma does_post_json_gen (P : event -> Prop) (c : Client) (path : string)
    (payload : gmap string json) (t : Z) :
  (forall h, headers_json c = inr h ->
             P (EvRequest (post_request c h path payload t))) ->
  does P (fun _ => True) (post_json c path payload t).
Proof.
  intros HP. unfold post_json. eapply does_bind.
  - apply does_lift_eq.
  - intros h Hh. eapply does_bind.
    + apply (does_send _ (fun _ => True)); [now apply HP | auto].
    + intros r _. now apply does_ret.
Qed.

(** ** What the probes do, in any world *)

Lemma py_or_is_Some_r (a : option (gmap string json)) (d : gmap string json) :
  is_Some (py_or a (Some d)).
Proof.
  unfold py_or. destruct a as [x|]; [|eauto]. destruct (truthy (JObj x)); eauto.
Qed.

Lemma py_or_is_Some (a b : option (gmap string json)) :
  is_Some b -> is_Some (py_or a b).
Proof. intros [d ->]. apply py_or_is_Some_r. Qed.

Section Probes.
Context (c : Client).

Lemma does_post_json (path : string) (payload : gmap string json) (t : Z) :
  does (probe_event c) (fun _ => True) (post_json c path payload t).
Proof.
  apply does_post_json_gen. intros h Hh. split; [reflexivity | now left].
Qed.

Lemma does_post_multipart (path : string) (fields : gmap string string)
    (files : list (string * (string * string * string))) (t : Z) :
  does (probe_event c) (fun _ => True) (post_multipart c path fields files t).
Proof.
  unfold post_multipart. eapply does_bind.
  - apply (does_lift _ (fun h => headers_multipart c = inr h)). auto.
  - intros h Hh. eapply does_bind.
    + apply (does_send _ (fun _ => True)); [|auto].
      split; [reflexivity | now right].
    + intros r _. now apply does_ret.
Qed.

Lemma does_text_like_fallbacks (mid : string) (st : Z)
    (es : option (gmap string json)) :
  does (probe_event c) well_formed_text_result (text_like_fallbacks c mid st es).
Proof.
  unfold text_like_fallbacks.
  does_step; [apply does_post_json|]. does_step.
  does_step; [apply does_lift_eq|]. destruct a.
  { does_step. split; [reflexivity | discriminate]. }
  does_step; [apply does_post_json|]. does_step.
  does_step; [apply does_lift_eq|]. destruct a.
  { does_step. split; [reflexivity | discriminate]. }
  does_step. split; [discriminate|]. intros _. cbn [tr_error].
  repeat apply py_or_is_Some. eauto.
Qed.

Lemma does_probe_text_like (mid : string) (extra : option (gmap string json)) :
  does (probe_event c) well_formed_text_result (probe_text_like c mid extra).
Proof.
  unfold probe_text_like. cbv zeta.
  does_step; [apply does_post_json|]. does_step.
  does_step; [apply does_lift_eq|]. destruct a.
  { does_step. split; [reflexivity | discriminate]. }
  destruct (is_server_error (err_summary j)); [|apply does_text_like_fallbacks].
  does_step; [now apply does_emit_any|].
  does_step; [apply does_post_json|]. does_step.
  does_step; [apply does_lift_eq|]. destruct a0.
  { does_step. split; [reflexivity | discriminate]. }
  apply does_text_like_fallbacks.
Qed.

Lemma well_formed_plain (mid cat : string) (b : bool) (ep : string) (st : Z)
    (es : option (gmap string json)) :
  cat = category_for mid -> ~ In cat text_like_or_tts ->
  well_formed_outcome mid (plain_outcome mid cat b ep st es).
Proof.
  intros -> Hnot. unfold well_formed_outcome, plain_outcome. cbn.
  repeat split; [now intros -> | now intros Hin].
Qed.

Lemma well_formed_of_text_result (mid cat : string) (r : text_result) :
  cat = category_for mid -> well_formed_text_result r ->
  well_formed_outcome mid (of_text_result mid cat r).
Proof.
  intros -> [Hok Hfail]. unfold well_formed_outcome, of_text_result. cbn.
  repeat split; auto.
Qed.

Lemma does_simple_probe (mid cat path : string) (payload : gmap string json)
    (t : Z) :
  cat = category_for mid -> ~ In cat text_like_or_tts ->
  does (probe_event c) (well_formed_outcome mid)
       (simple_probe c mid cat path payload t).
Proof.
  intros Hcat Hnot. unfold simple_probe.
  does_step; [apply does_post_json|]. does_step. cbv zeta.
  does_step; [apply does_lift_eq|].
  does_step. now apply well_formed_plain.
Qed.

Lemma does_probe_video (mid cat : string) :
  cat = category_for mid -> ~ In cat text_like_or_tts ->
  does (probe_event c) (well_formed_outcome mid) (probe_video c mid cat).
Proof.
  intros -> Hnot. unfold probe_video.
  does_step; [apply does_post_json|]. does_step. cbv zeta.
  does_step; [apply does_lift_eq|].
  does_step. unfold well_formed_outcome. cbn.
  repeat split; [now intros -> | now intros Hin].
Qed.

Lemma does_probe_image (mid cat : string) :
  cat = category_for mid -> ~ In cat text_like_or_tts ->
  does (probe_event c) (well_formed_outcome mid) (probe_image c mid cat).
Proof.
  intros Hcat Hnot. unfold probe_image. cbv zeta.
  does_step; [apply does_post_json|]. does_step. cbv zeta.
  does_step; [apply does_lift_eq|].
  does_step; [apply does_lift_eq|].
  does_step. now apply well_formed_plain.
Qed.

Lemma does_probe_tts (mid cat : string) :
  cat = category_for mid ->
  does (probe_event c) (well_formed_outcome mid) (probe_tts c mid cat).
Proof.
  intros ->. unfold probe_tts.
  does_step; [apply does_post_json|]. does_step. cbv zeta.
  does_step. unfold well_formed_outcome. cbn.
  repeat split; [now intros -> | intros _ ->; apply py_or_is_Some_r].
Qed.

Lemma does_probe_transcribe (mid cat wav_path : string) :
  cat = category_for mid -> ~ In cat text_like_or_tts ->
  does (probe_event c) (well_formed_outcome mid)
       (probe_transcribe c mid cat wav_path).
Proof.
  intros Hcat Hnot. unfold probe_transcribe.
  does_step; [now apply does_emit_any|].
  does_step; [apply (does_ask _ (fun _ => True)); auto|].
  destruct a0; [apply does_raise|].
  does_step; [apply does_post_multipart|]. does_step. cbv zeta.
  does_step; [apply does_lift_eq|].
  does_step. now apply well_formed_plain.
Qed.

Lemma does_probe_one (mid wav_path : string) :
  does (probe_event c) (well_formed_outcome mid) (probe_one c mid wav_path).
Proof.
  unfold probe_one. cbv zeta.
  remember (category_for mid) as cat eqn:Hcat.
  repeat match goal with
         | |- does _ _ (if String.eqb cat ?s then _ else _) =>
             destruct (String.eqb_spec cat s) as [Heq|_]
         | |- does _ _ (if _ || _ then _ else _) =>
             destruct (String.eqb_spec cat "image") as [Heq|_];
             [|destruct (String.eqb_spec cat "dalle") as [Heq|_]]; cbn [orb]
         end;
    try (first [ apply does_simple_probe | apply does_probe_video
               | apply does_probe_image | apply does_probe_transcribe ];
         [ assumption
         | rewrite Heq; unfold text_like_or_tts; cbn [In]; intros Hin;
           repeat (destruct Hin as [Hin|Hin]; [discriminate|]); exact Hin ]);
    try (apply does_probe_tts; assumption);
    (does_step; [apply does_probe_text_like|];
     does_step; now apply well_formed_of_text_result).
Qed.

(** The [try] statement always yields a record. *)
Lemma guarded_probe_returns (mid wav_path : string) (w : world) :
  exists o,
    fst (guarded_probe c mid wav_path w) = inr o
    /\ snd (guarded_probe c mid wav_path w) = snd (probe_one c mid wav_path w)
    /\ match fst (probe_one c mid wav_path w) with
       | inl e => o = exception_outcome mid e
       | inr o' => o = o'
       end.
Proof.
  unfold guarded_probe, try_except.
  destruct (probe_one c mid wav_path w) as [[e|o] w1]; cbn [fst snd];
    eexists; repeat split.
Qed.

Lemma does_guarded_probe (mid wav_path : string) :
  does (probe_event c) (fun o => model o = mid /\ category o = category_for mid)
       (guarded_probe c mid wav_path).
Proof.
  unfold guarded_probe. apply does_try.
  - eapply does_post; [apply does_probe_one|].
    intros o (Hm & Hc & _). now split.
  - intros e. apply does_ret. now split.
Qed.

End Probes.

(* ================================================================== *)
(** ** Running a probe against given replies *)
(* ================================================================== *)

Lemma run_bind_inr {A B} (m : M A) (k : A -> M B) (w w1 : world) (a : A) :
  m w = (inr a, w1) -> bind m k w = k a w1.
Proof. unfold bind. now intros ->. Qed.

Lemma run_bind_inl {A B} (m : M A) (k : A -> M B) (w w1 : world) (e : exn) :
  m w = (inl e, w1) -> bind m k w = (inl e, w1).
Proof. unfold bind. now intros ->. Qed.

Lemma decode_json_response_eq (r : response) :
  decode_json_response r
  = (status_code r, seen_body r, lower_keys (resp_headers r)).
Proof.
  unfold seen_body, decode_json_response.
  destruct (PyStr.startswith _ _); reflexivity.
Qed.

Lemma post_json_run (c : Client) (h : gmap string string) (path : string)
    (payload : gmap string json) (t : Z) (w : world) :
  headers_json c = inr h ->
  post_json c path payload t w
  = (match replies w with
     | [] => inl ConnectionError
     | inl e :: _ => inl e
     | inr r :: _ => inr (status_code r, seen_body r, lower_keys (resp_headers r))
     end,
     sent w (post_request c h path payload t)).
Proof.
  intros Hh. unfold post_json, bind, lift, send, ret. rewrite Hh.
  destruct (replies w) as [|[e|r] rs]; try reflexivity.
  now rewrite decode_json_response_eq.
Qed.

(** The first reply is a response: [post_json] returns it decoded. *)
Lemma post_json_reply (c : Client) (h : gmap string string) (path : string)
    (payload : gmap string json) (t : Z) (w : world) (r : response)
    (rest : list (exn + response)) :
  headers_json c = inr h -> replies w = inr r :: rest ->
  post_json c path payload t w
  = (inr (status_code r, seen_body r, lower_keys (resp_headers r)),
     sent w (post_request c h path payload t)).
Proof. intros Hh Hr. rewrite (post_json_run _ _ _ _ _ _ Hh), Hr. reflexivity. Qed.

Lemma replies_sent (w : world) (rq : request) :
  replies (sent w rq) = tail (replies w).
Proof. reflexivity. Qed.

Lemma replies_logged (w : world) (ev : event) : replies (logged w ev) = replies w.
Proof. reflexivity. Qed.

Lemma trace_sent (w : world) (rq : request) :
  trace (sent w rq) = (trace w ++ [EvRequest rq])%list.
Proof. reflexivity. Qed.

Lemma trace_logged (w : world) (ev : event) :
  trace (logged w ev) = (trace w ++ [ev])%list.
Proof. reflexivity. Qed.

(** *** The success test *)

Lemma ok_200_envelope (st : Z) (j : json) (k : string) (v : json) :
  envelope_field j k v -> ok_200 st j = inr false.
Proof.
  intros (o & e & -> & Ho & He). unfold ok_200, py_get.
  destruct (st =? 200); [|reflexivity].
  now rewrite (dict_get_some _ _ _ Ho), (truthy_obj_lookup _ _ _ He).
Qed.

Lemma ok_200_object_without_error (j : json) :
  object_without_error j -> ok_200 200 j = inr true.
Proof. intros (o & -> & Hf). unfold ok_200, py_get. cbn. now rewrite Hf. Qed.

Lemma ok_200_failed (r : response) :
  failed_response r -> ok_200 (status_code r) (seen_body r) = inr false.
Proof.
  intros [Hst|(o & Hj & Ht)]; unfold ok_200.
  - destruct (Z.eqb_spec (status_code r) 200); [contradiction | reflexivity].
  - rewrite Hj. cbn [py_get]. rewrite Ht.
    now destruct (status_code r =? 200).
Qed.

Lemma is_server_error_iff (j : json) :
  is_server_error (err_summary j) = true <-> server_error_envelope j.
Proof.
  unfold is_server_error, server_error_envelope, envelope_field. split.
  - destruct (err_summary j) as [d|] eqn:E; [|discriminate].
    destruct (err_summary_inv _ _ E) as (o & e & -> & Ho & Ht & _).
    rewrite (err_summary_truthy _ _ E), (dict_get_some _ _ _ Ht). cbn [andb].
    unfold eq_str. destruct (dict_get e "type") as [| | | |s| |] eqn:Ety;
      try discriminate.
    intros Hs%String.eqb_eq. subst s. apply dict_get_str in Ety. eauto.
  - intros (o & e & -> & Ho & He).
    destruct (err_summary_of_envelope _ _ Ho) as [d E]. rewrite E.
    destruct (err_summary_inv _ _ E) as (o' & e' & [= <-] & Ho' & Ht & _).
    rewrite Ho in Ho'. injection Ho' as <-.
    rewrite (err_summary_truthy _ _ E), (dict_get_some _ _ _ Ht).
    now rewrite (dict_get_some _ _ _ He).
Qed.

Lemma not_server_error (j : json) :
  ~ server_error_envelope j -> is_server_error (err_summary j) = false.
Proof.
  intros Hn. destruct (is_server_error (err_summary j)) eqn:E; [|reflexivity].
  now apply is_server_error_iff in E.
Qed.

(** *** The text-like chain *)

Section TextLike.
Context (c : Client) (h : gmap string string) (Hh : headers_json c = inr h).
Context (mid : string) (extra : option (gmap string json)).

Lemma fallback_event_other (ev : event) :
  fallback_event c h mid ev -> ev <> EvRequest (primary_request c h mid extra) /\ forall ms, ev <> EvSleep ms.
Proof.
  intros [->| ->]; (split; [|discriminate]); intros [= Hurl _];
    unfold url in Hurl; apply append_cancel_l in Hurl; discriminate.
Qed.

Lemma does_fallbacks_requests (st : Z) (es : option (gmap string json)) :
  does (fallback_event c h mid) (fun _ => True) (text_like_fallbacks c mid st es).
Proof.
  unfold text_like_fallbacks.
  does_step.
  { apply does_post_json_gen. intros h' Hh'. rewrite Hh in Hh'.
    injection Hh' as <-. now left. }
  does_step. does_step; [apply does_lift_eq|].
  destruct a; [now does_step|].
  does_step.
  { apply does_post_json_gen. intros h' Hh'. rewrite Hh in Hh'.
    injection Hh' as <-. now right. }
  does_step. does_step; [apply does_lift_eq|].
  destruct a; now does_step.
Qed.

Lemma fallbacks_trace (st : Z) (es : option (gmap string json)) (w : world) :
  exists t,
    trace (snd (text_like_fallbacks c mid st es w)) = (trace w ++ t)%list
    /\ Forall (fun ev => ev <> EvRequest (primary_request c h mid extra)
                         /\ forall ms, ev <> EvSleep ms) t.
Proof.
  destruct (does_fallbacks_requests st es w) as [[_ (t & Ht & HF)] _].
  exists t. split; [exact Ht|].
  eapply Forall_impl; [exact HF | apply fallback_event_other].
Qed.

(** Both fallback endpoints answer with a failure: the chain gives up. *)
Lemma fallbacks_all_fail (st : Z) (es : option (gmap string json)) (w : world)
    (r3 r4 : response) (rest : list (exn + response)) :
  replies w = inr r3 :: inr r4 :: rest ->
  failed_response r3 -> failed_response r4 ->
  fst (text_like_fallbacks c mid st es w)
  = inr (TextResult false all_endpoints st
           (py_or es (Some (first_available [err_summary (seen_body r3);
                                             err_summary (seen_body r4)])))).
Proof.
  intros Hr F3 F4. unfold text_like_fallbacks.
  rewrite (run_bind_inr _ _ _ _ _ (post_json_reply _ _ _ _ _ _ _ _ Hh Hr)).
  cbv beta iota. unfold lift at 1.
  erewrite run_bind_inr by (rewrite (ok_200_failed _ F3); reflexivity).
  cbv beta iota.
  assert (Hr' : replies (sent w (chat_request c h mid)) = inr r4 :: rest)
    by (rewrite replies_sent, Hr; reflexivity).
  rewrite (run_bind_inr _ _ _ _ _ (post_json_reply _ _ _ _ _ _ _ _ Hh Hr')).
  cbv beta iota. unfold lift at 1.
  erewrite run_bind_inr by (rewrite (ok_200_failed _ F4); reflexivity).
  cbv beta iota. unfold ret. cbn [fst]. do 2 f_equal.
  rewrite !py_or_summary. cbn [first_available].
  destruct (err_summary (seen_body r3)), (err_summary (seen_body r4));
    reflexivity.
Qed.

End TextLike.

Ltac trace_eq :=
  unfold ret, raise; cbn [fst snd];
  rewrite ?trace_sent, ?trace_logged, ?trace_sent;
  rewrite <- ?app_assoc; cbn [app]; try reflexivity.

(** C2 (amended). In [probe_text_like], when the first response of the
    primary endpoint carries an error envelope whose type is server_error,
    the probe sleeps 0.5 s and sends the same primary request once more,
    and nothing after that is a primary request or a pause; if the reply to
    the retry has status 200 and an object body whose error member is
    missing or falsy, the result is ok with endpoint "/v1/responses" and
    nothing more is sent.  When the first response carries no such
    envelope, the primary request is sent once and no pause is made. *)
Theorem text_like_retry_on_server_error :
  forall (c : Client) (h : gmap string string) (mid : string)
         (extra : option (gmap string json)) (w : world) (r1 : response)
         (rest : list (exn + response)),
    headers_json c = inr h ->
    replies w = inr r1 :: rest ->
    let P := primary_request c h mid extra in
    let run := probe_text_like c mid extra w in
    let other := fun ev => ev <> EvRequest P /\ forall ms, ev <> EvSleep ms in
    (server_error_envelope (seen_body r1) ->
     exists t,
       trace (snd run)
       = (trace w ++ [EvRequest P; EvSleep 500; EvRequest P] ++ t)%list
       /\ Forall other t
       /\ forall r2 rest',
            rest = inr r2 :: rest' -> status_code r2 = 200 ->
            object_without_error (seen_body r2) ->
            fst run = inr (TextResult true "/v1/responses" 200 None) /\ t = [])
    /\ (~ server_error_envelope (seen_body r1) ->
        exists t,
          trace (snd run) = (trace w ++ [EvRequest P] ++ t)%list
          /\ Forall other t).
Proof.
  intros c h mid extra w r1 rest Hh Hrep P run other.
  assert (Hrun : run = probe_text_like c mid extra w) by reflexivity.
  clearbody run. unfold probe_text_like in Hrun. cbv zeta in Hrun.
  rewrite (run_bind_inr _ _ _ _ _ (post_json_reply _ _ _ _ _ _ _ _ Hh Hrep))
    in Hrun.
  cbv beta iota in Hrun.
  change (post_request c h "/v1/responses" (responses_payload mid extra) 90)
    with P in Hrun.
  unfold lift at 1 in Hrun. split.
  - intros Hse.
    erewrite run_bind_inr in Hrun
      by (rewrite (ok_200_envelope _ _ _ _ Hse); reflexivity).
    cbv beta iota in Hrun. rewrite (proj2 (is_server_error_iff _) Hse) in Hrun.
    erewrite run_bind_inr in Hrun by reflexivity.
    unfold bind at 1 in Hrun. rewrite (post_json_run _ _ _ _ _ _ Hh) in Hrun.
    rewrite replies_logged, replies_sent, Hrep in Hrun. cbn [tail] in Hrun.
    change (post_request c h "/v1/responses" (responses_payload mid extra) 90)
      with P in Hrun.
    destruct rest as [|[e|r2] rest'].
    + subst run. exists []. split; [trace_eq|]. split; [constructor|].
      intros ? ? [=].
    + subst run. exists []. split; [trace_eq|]. split; [constructor|].
      intros ? ? [=].
    + unfold lift at 1 in Hrun. unfold bind at 1 in Hrun.
      destruct (ok_200 (status_code r2) (seen_body r2)) as [e|[|]] eqn:Eok;
        subst run.
      * exists []. split; [trace_eq|]. split; [constructor|].
        intros ? ? [= <- <-] Hst Hobj. rewrite Hst in Eok.
        rewrite (ok_200_object_without_error _ Hobj) in Eok. discriminate.
      * exists []. split; [trace_eq|]. split; [constructor|].
        intros ? ? [= <- <-] Hst Hobj. unfold ret. cbn [fst].
        now rewrite Hst.
      * destruct (fallbacks_trace c h Hh mid extra (status_code r2)
                    (err_summary (seen_body r2))
                    (sent (logged (sent w P) (EvSleep 500)) P))
          as (t & Ht & HF).
        exists t. split; [rewrite Ht; trace_eq|]. split; [exact HF|].
        intros ? ? [= <- <-] Hst Hobj. rewrite Hst in Eok.
        rewrite (ok_200_object_without_error _ Hobj) in Eok. discriminate.
  - intros Hnse. unfold bind at 1 in Hrun.
    destruct (ok_200 (status_code r1) (seen_body r1)) as [e|[|]] eqn:Eok.
    + subst run. exists []. split; [trace_eq | constructor].
    + subst run. exists []. split; [trace_eq | constructor].
    + rewrite (not_server_error _ Hnse) in Hrun. subst run.
      destruct (fallbacks_trace c h Hh mid extra (status_code r1)
                  (err_summary (seen_body r1)) (sent w P)) as (t & Ht & HF).
      exists t. split; [rewrite Ht; trace_eq | exact HF].
Qed.

(** C3. When every response of the chain is a failure (the first response
    of the primary endpoint, its retry when the first response carries a
    server_error envelope, the chat response and the completions response),
    the result is not ok, its endpoint is the three paths joined by "|",
    its status is that of the last primary response, and its error is the
    first summary available among the last primary response, the chat
    response and the completions response (the generic one when there is
    none). *)
Theorem text_like_all_endpoints_fail :
  forall (c : Client) (h : gmap string string) (mid : string)
         (extra : option (gmap string json)) (w : world)
         (r1 : response) (rest : list (exn + response)),
    headers_json c = inr h ->
    replies w = inr r1 :: rest ->
    failed_response r1 ->
    let gives_up := fun (rp r3 r4 : response) =>
      fst (probe_text_like c mid extra w)
      = inr (TextResult false all_endpoints (status_code rp)
               (Some (first_available [err_summary (seen_body rp);
                                       err_summary (seen_body r3);
                                       err_summary (seen_body r4)]))) in
    all_endpoints
    = String.concat "|" ["/v1/responses"; "/v1/chat/completions"; "/v1/completions"]
    /\ (forall r3 r4 rest',
          ~ server_error_envelope (seen_body r1) ->
          rest = inr r3 :: inr r4 :: rest' ->
          failed_response r3 -> failed_response r4 ->
          gives_up r1 r3 r4)
    /\ (forall r2 r3 r4 rest',
          server_error_envelope (seen_body r1) ->
          rest = inr r2 :: inr r3 :: inr r4 :: rest' ->
          failed_response r2 -> failed_response r3 -> failed_response r4 ->
          gives_up r2 r3 r4).
Proof.
  intros c h mid extra w r1 rest Hh Hrep F1 gives_up. subst gives_up.
  split; [reflexivity|]. cbv beta.
  remember (probe_text_like c mid extra w) as run eqn:Hrun.
  unfold probe_text_like in Hrun. cbv zeta in Hrun.
  rewrite (run_bind_inr _ _ _ _ _ (post_json_reply _ _ _ _ _ _ _ _ Hh Hrep))
    in Hrun.
  cbv beta iota in Hrun. unfold lift at 1 in Hrun.
  erewrite run_bind_inr in Hrun
    by (rewrite (ok_200_failed _ F1); reflexivity).
  cbv beta iota in Hrun. split.
  - intros r3 r4 rest' Hnse -> F3 F4. rewrite (not_server_error _ Hnse) in Hrun.
    subst run.
    rewrite (fallbacks_all_fail c h Hh mid _ _ _ r3 r4 rest');
      [|rewrite replies_sent, Hrep; reflexivity|exact F3|exact F4].
    do 2 f_equal. rewrite py_or_summary. cbn [first_available].
    now destruct (err_summary (seen_body r1)).
  - intros r2 r3 r4 rest' Hse -> F2 F3 F4.
    rewrite (proj2 (is_server_error_iff _) Hse) in Hrun.
    erewrite run_bind_inr in Hrun by reflexivity.
    erewrite run_bind_inr in Hrun
      by (eapply post_json_reply;
          [exact Hh | rewrite replies_logged, replies_sent, Hrep; reflexivity]).
    cbv beta iota in Hrun. unfold lift at 1 in Hrun.
    erewrite run_bind_inr in Hrun
      by (rewrite (ok_200_failed _ F2); reflexivity).
    cbv beta iota in Hrun. subst run.
    rewrite (fallbacks_all_fail c h Hh mid _ _ _ r3 r4 rest');
      [|rewrite replies_sent, replies_logged, replies_sent, Hrep; reflexivity
       |exact F3|exact F4].
    do 2 f_equal. rewrite py_or_summary. cbn [first_available].
    now destruct (err_summary (seen_body r2)).
Qed.

(** *** The video probe *)

Lemma summary_param_iff (j : json) (s : string) :
  match err_summary j with
  | Some d => eq_str (dict_get d "param") s
  | None => false
  end = true
  <-> envelope_field j "param" (JStr s).
Proof.
  unfold envelope_field. split.
  - destruct (err_summary j) as [d|] eqn:E; [|discriminate].
    destruct (err_summary_inv _ _ E) as (o & e & -> & Ho & _ & _ & Hp).
    rewrite (dict_get_some _ _ _ Hp). unfold eq_str.
    destruct (dict_get e "param") as [| | | |s'| |] eqn:Ep; try discriminate.
    intros Hs%String.eqb_eq. subst s'. apply dict_get_str in Ep. eauto.
  - intros (o & e & -> & Ho & He).
    destruct (err_summary_of_envelope _ _ Ho) as [d E]. rewrite E.
    destruct (err_summary_inv _ _ E) as (o' & e' & [= <-] & Ho' & _ & _ & Hp).
    rewrite Ho in Ho'. injection Ho' as <-.
    rewrite (dict_get_some _ _ _ Hp), (dict_get_some _ _ _ He).
    apply String.eqb_refl.
Qed.

Lemma video_ok_spec (st : Z) (j : json) :
  st <> 200 \/ (exists o, j = JObj o) ->
  exists b,
    video_ok st (err_summary j) j = inr b
    /\ (b = true <->
        (st = 400 /\ envelope_field j "param" (JStr "size"))
        \/ (st = 200 /\ object_without_error j)).
Proof.
  intros Hdom. unfold video_ok.
  pose proof (summary_param_iff j "size") as Hp.
  destruct (Z.eqb_spec st 400) as [->|Hn400]; cbn [andb].
  - destruct (match err_summary j with Some _ => _ | None => _ end).
    + exists true. split; [reflexivity|]. split; [|reflexivity].
      intros _. left. split; [reflexivity | now apply Hp].
    + exists false. split; [reflexivity|]. split; [discriminate|].
      intros [[_ He]|[Hst _]]; [now apply Hp in He | discriminate].
  - unfold ok_200. destruct (Z.eqb_spec st 200) as [->|Hn200].
    + destruct Hdom as [Hdom|[o ->]]; [contradiction|]. cbn [py_get].
      exists (negb (truthy (dict_get o "error"))). split; [reflexivity|].
      rewrite negb_true_iff. split.
      * intros Hf. right. split; [reflexivity|]. now exists o.
      * intros [[Hst _]|[_ (o' & [= <-] & Hf)]]; [discriminate | exact Hf].
    + exists false. split; [reflexivity|]. split; [discriminate|].
      intros [[Hst _]|[Hst _]]; contradiction.
Qed.

Lemma probe_one_video (c : Client) (mid wav_path : string) :
  category_for mid = "video" ->
  probe_one c mid wav_path = probe_video c mid "video".
Proof. intros Hcat. unfold probe_one. rewrite Hcat. reflexivity. Qed.

(** C4 (amended). For a video model the probe posts one request, whose
    size field is the invalid value "bad".  When the response is not a 200
    or its body is an object, the probe returns an outcome, and that
    outcome is ok exactly when the status is 400 and the body carries an
    error envelope whose param is "size", or the status is 200 and the
    error member of the body is missing or falsy; on the 400 success path
    the note is set and the error is null.  A 200 response whose body is
    not an object makes the probe raise AttributeError instead. *)
Theorem video_probe_validation_only :
  forall (c : Client) (h : gmap string string) (mid wav_path : string)
         (w : world) (r : response) (rest : list (exn + response)),
    headers_json c = inr h ->
    category_for mid = "video" ->
    replies w = inr r :: rest ->
    let st := status_code r in
    let j := seen_body r in
    let run := probe_one c mid wav_path w in
    snd run = sent w (post_request c h "/v1/videos" (video_payload mid) 120)
    /\ video_payload mid !! "size" = Some (JStr "bad")
    /\ (st <> 200 \/ (exists o, j = JObj o) ->
        exists out,
          fst run = inr out
          /\ (ok out = true <->
              (st = 400 /\ envelope_field j "param" (JStr "size"))
              \/ (st = 200 /\ object_without_error j))
          /\ (st = 400 -> ok out = true ->
              note out = Some video_note /\ error out = None))
    /\ (st = 200 -> (forall o, j <> JObj o) ->
        fst run = inl (AttributeError j "get")).
Proof.
  intros c h mid wav_path w r rest Hh Hcat Hrep st j run.
  assert (Hrun : run = probe_video c mid "video" w)
    by (subst run; now rewrite probe_one_video).
  clearbody run. unfold probe_video in Hrun.
  rewrite (run_bind_inr _ _ _ _ _ (post_json_reply _ _ _ _ _ _ _ _ Hh Hrep))
    in Hrun.
  cbv beta iota zeta in Hrun. fold st j in Hrun. unfold lift at 1 in Hrun.
  unfold bind in Hrun. split; [|split; [|split]].
  - subst run. now destruct (video_ok st (err_summary j) j).
  - unfold video_payload. now simplify_map_eq.
  - intros Hdom. destruct (video_ok_spec st j Hdom) as (b & Hb & Hiff).
    rewrite Hb in Hrun. subst run. unfold ret. cbn [fst].
    eexists. split; [reflexivity|]. cbn [ok note error]. split; [exact Hiff|].
    intros Hst ->. subst st. rewrite Hst. now cbn.
  - intros Hst Hno. subst run. unfold video_ok, ok_200. rewrite Hst. cbn.
    destruct j; try reflexivity. now destruct (Hno o).
Qed.

(** Against C4 as stated: a 200 response whose body is the JSON array [[]]
    carries no error envelope, yet the video probe raises and the recorded
    outcome is not ok. *)
Lemma video_200_array_body_not_ok : ~ video_claim_as_stated.
Proof.
  intros Hclaim.
  destruct (Hclaim Sample.client "sora-2" default_wav
              (Sample.world0 [Sample.json_reply 200 (JArr [])])
              (Response 200 [("Content-Type", "application/json")]
                        (Some (JArr [])) "")
              [] eq_refl eq_refl (ex_intro _ _ eq_refl))
    as (out & Hout & Hiff).
  vm_compute in Hout. injection Hout as <-.
  assert (Hok : false = true); [|discriminate].
  apply Hiff. right. split; reflexivity.
Qed.

(** Against C2 as stated: a server error, then a 200 retry whose body is
    the JSON array [[]]; the retry carries no error envelope, yet the chain
    raises instead of returning an ok result. *)
Lemma retry_200_array_body_raises : ~ retry_claim_as_stated.
Proof.
  intros Hclaim.
  specialize (Hclaim Sample.client "gpt-4o" None
                (Sample.world0
                   [Sample.json_reply 500 (Sample.envelope "server_error" "boom");
                    Sample.json_reply 200 (JArr [])])
                (Response 500 [("Content-Type", "application/json")]
                          (Some (Sample.envelope "server_error" "boom")) "")
                (Response 200 [("Content-Type", "application/json")]
                          (Some (JArr [])) "")
                [] (ex_intro _ _ eq_refl) eq_refl).
  assert (Hse : server_error_envelope
                  (seen_body (Response 500 [("Content-Type", "application/json")]
                     (Some (Sample.envelope "server_error" "boom")) ""))).
  { eexists _, _. split; [reflexivity|]. split; reflexivity. }
  specialize (Hclaim Hse eq_refl eq_refl).
  vm_compute in Hclaim. discriminate.
Qed.

(** ** The error field *)

(** C10. An outcome returned by [probe_one] that is ok has a null error,
    and an outcome of the text-like chain (categories computer_use,
    deep_research, text) or of the tts probe that is not ok has an error;
    [probe_text_like] itself obeys the same two rules. *)
Theorem probe_one_error_field :
  forall (c : Client) (mid wav_path : string) (w : world) (out : outcome),
    fst (probe_one c mid wav_path w) = inr out ->
    (ok out = true -> error out = None)
    /\ (In (category_for mid) text_like_or_tts ->
        ok out = false -> error out <> None)
    /\ (forall extra w' r,
          fst (probe_text_like c mid extra w') = inr r ->
          (tr_ok r = true -> tr_error r = None)
          /\ (tr_ok r = false -> tr_error r <> None)).
Proof.
  intros c mid wav_path w out Hout.
  destruct (does_probe_one c mid wav_path w) as [_ Hres].
  destruct (Hres out Hout) as (_ & Hcat & _ & Hok & Herr).
  split; [exact Hok|]. split.
  - intros Hin Hno. rewrite <- Hcat in Hin.
    destruct (Herr Hin Hno) as [d ->]. discriminate.
  - intros extra w' r Hr.
    destruct (does_probe_text_like c mid extra w') as [_ Hres'].
    destruct (Hres' r Hr) as [Hok' Herr']. split; [exact Hok'|].
    intros Hno. destruct (Herr' Hno) as [d ->]. discriminate.
Qed.

(* ================================================================== *)
(** ** Discovery: the sorted set of identifiers *)
(* ================================================================== *)

Global Instance str_le_total : Total str_le.
Proof. intros a b. apply String.leb_total. Qed.

Lemma ascii_compare_refl (a : ascii) : (a ?= a)%char = Eq.
Proof. unfold Ascii.compare. apply N.compare_refl. Qed.

Lemma string_compare_lt_trans (a b d : string) :
  (a ?= b)%string = Lt -> (b ?= d)%string = Lt -> (a ?= d)%string = Lt.
Proof.
  revert b d; induction a as [|x a IH]; intros [|y b] [|z d]; cbn;
    try discriminate; try reflexivity.
  destruct (x ?= y)%char eqn:Exy; destruct (y ?= z)%char eqn:Eyz;
    try discriminate.
  - apply Ascii.compare_eq_iff in Exy, Eyz. subst.
    rewrite ascii_compare_refl. apply IH.
  - apply Ascii.compare_eq_iff in Exy. subst. now rewrite Eyz.
  - apply Ascii.compare_eq_iff in Eyz. subst. now rewrite Exy.
  - unfold Ascii.compare in *. rewrite N.compare_lt_iff in Exy, Eyz.
    assert (Hxz : (N_of_ascii x ?= N_of_ascii z)%N = Lt)
      by (apply N.compare_lt_iff; lia).
    now rewrite Hxz.
Qed.

Global Instance str_le_trans : Transitive str_le.
Proof.
  intros a b d. unfold str_le, String.leb.
  destruct (a ?= b)%string eqn:Eab; try discriminate;
    destruct (b ?= d)%string eqn:Ebd; try discriminate; intros _ _.
  - apply String.compare_eq_iff in Eab. subst. now rewrite Ebd.
  - apply String.compare_eq_iff in Eab. subst. now rewrite Ebd.
  - apply String.compare_eq_iff in Ebd. subst. now rewrite Eab.
  - now rewrite (string_compare_lt_trans _ _ _ Eab Ebd).
Qed.

Global Instance str_le_antisym : AntiSymm eq str_le.
Proof. intros a b. apply String.leb_antisym. Qed.

(** Any sorted arrangement of the set is the list [sorted_set] returns:
    neither the iteration order of the set nor the sorting algorithm
    matters. *)
Lemma sorted_set_unique (l l' : list string) :
  l' ≡ₚ elements (list_to_set l : gset string) -> Sorted str_le l' ->
  l' = sorted_set l.
Proof.
  intros Hperm Hsorted. apply (Sorted_unique str_le); [exact Hsorted | |].
  - apply Sorted_merge_sort, _.
  - unfold sorted_set. now rewrite merge_sort_Permutation.
Qed.

Lemma is_space_lower_char (ch : ascii) :
  PyStr.is_space (PyStr.lower_char ch) = PyStr.is_space ch.
Proof.
  destruct ch as [[] [] [] [] [] [] [] []]; vm_compute; reflexivity.
Qed.

Lemma lower_empty (s : string) : PyStr.lower s = "" -> s = "".
Proof. now destruct s. Qed.

Lemma lstrip_lower (s : string) :
  PyStr.lstrip (PyStr.lower s) = PyStr.lower (PyStr.lstrip s).
Proof.
  induction s as [|ch s IH]; [reflexivity|]. cbn [PyStr.lower PyStr.lstrip].
  rewrite is_space_lower_char. now destruct (PyStr.is_space ch).
Qed.

Lemma rstrip_lower (s : string) :
  PyStr.rstrip_by PyStr.is_space (PyStr.lower s)
  = PyStr.lower (PyStr.rstrip_by PyStr.is_space s).
Proof.
  induction s as [|ch s IH]; [reflexivity|]. cbn [PyStr.lower PyStr.rstrip_by].
  rewrite IH, is_space_lower_char.
  destruct (PyStr.rstrip_by PyStr.is_space s) as [|ch' t]; cbn [PyStr.lower];
    [now destruct (PyStr.is_space ch) | reflexivity].
Qed.

(** Trimming and lower-casing commute. *)
Lemma normalize_strip_lower (s : string) :
  normalize s = PyStr.strip (PyStr.lower s).
Proof. unfold normalize, PyStr.strip. now rewrite lstrip_lower, rstrip_lower. Qed.

Lemma sorted_set_NoDup (l : list string) : NoDup (sorted_set l).
Proof.
  unfold sorted_set. rewrite merge_sort_Permutation. apply NoDup_elements.
Qed.

Lemma sorted_set_Sorted (l : list string) : Sorted str_le (sorted_set l).
Proof. apply Sorted_merge_sort, _. Qed.

Lemma elem_of_sorted_set (x : string) (l : list string) :
  x ∈ sorted_set l <-> x ∈ l.
Proof.
  unfold sorted_set.
  now rewrite merge_sort_Permutation, elem_of_elements, elem_of_list_to_set.
Qed.

Lemma model_id_of_raw (m : json) (o : option string) :
  model_id_of m = inr o -> o = normalize <$> raw_id m.
Proof.
  destruct m as [| | | | | |d]; cbn [model_id_of raw_id];
    try (now intros [= <-]).
  unfold dict_get. destruct (d !! "id") as [v|]; cbn [default from_option];
    [|now intros [= <-]].
  destruct v as [|b|n|f|s|l|d']; cbn [truthy id].
  - now intros [= <-].
  - destruct b; [discriminate | now intros [= <-]].
  - destruct (n =? 0); [now intros [= <-] | discriminate].
  - destruct f; cbn; try discriminate. now intros [= <-].
  - destruct (String.eqb s ""); cbn [negb]; now intros [= <-].
  - destruct l; [now intros [= <-] | discriminate].
  - destruct (Nat.eqb (size d') 0); cbn [negb]; [now intros [= <-] | discriminate].
Qed.

Lemma collect_ids_raw (ms : list json) (ids : list string) :
  collect_ids ms = inr ids -> ids = map normalize (omap raw_id ms).
Proof.
  revert ids; induction ms as [|m ms IH]; intros ids; cbn [collect_ids].
  - now intros [= <-].
  - destruct (model_id_of m) as [e|o] eqn:Hm; [discriminate|].
    destruct (collect_ids ms) as [e|ids'] eqn:Hc; [discriminate|].
    intros [= <-]. apply model_id_of_raw in Hm. subst o.
    rewrite (IH ids' eq_refl). cbn [omap list_omap].
    now destruct (raw_id m).
Qed.

Lemma collect_ids_strings (l : list string) :
  collect_ids (map JStr l) = inr [].
Proof. induction l as [|s l IH]; cbn; [reflexivity | now rewrite IH]. Qed.

(** The identifiers probed are the sorted set of the normalized raw
    identifiers of the listing. *)
Lemma model_ids_of_listed (models_resp : json) (ids : list string) :
  model_ids_of models_resp = inr ids ->
  ids = sorted_set (map normalize (listed_ids models_resp)).
Proof.
  unfold model_ids_of, listed_ids.
  destruct (listed_models models_resp) as [| | | |s|l|d]; cbn [py_iter];
    try discriminate.
  - rewrite <- (map_map (fun ch => String ch "") JStr), collect_ids_strings.
    now intros [= <-].
  - destruct (collect_ids l) as [e|raw] eqn:Hc; [discriminate|].
    intros [= <-]. now rewrite (collect_ids_raw _ _ Hc).
  - rewrite <- (map_map fst JStr), collect_ids_strings. now intros [= <-].
Qed.

(* ================================================================== *)
(** ** The loop and [main] *)
(* ================================================================== *)

Lemma probe_event_not_reported (c : Client) (t : list event) :
  Forall (probe_event c) t -> reported t = [].
Proof.
  induction 1 as [|ev t Hev _ IH]; [reflexivity|].
  unfold reported in *. cbn [omap list_omap].
  destruct ev; cbn in Hev; try contradiction; exact IH.
Qed.

Lemma reported_app (t1 t2 : list event) :
  reported (t1 ++ t2) = (reported t1 ++ reported t2)%list.
Proof. apply omap_app. Qed.

Section Loop.
Context (c : Client) (wav_path : string) (sleep_ms : Z) (total : nat).

(** One round of the loop. *)
Lemma probe_loop_cons (mid : string) (ids : list string) (i : nat)
    (acc : list outcome) (w : world) :
  probe_loop c wav_path sleep_ms total i (mid :: ids) acc w
  = match guarded_probe c mid wav_path w with
    | (inl e, w1) => (inl e, w1)
    | (inr o, w1) =>
        let acc' := (acc ++ [o])%list in
        let w2 := if Nat.eqb (i mod 10) 0
                  then logged w1 (EvStderr (Progress i total (count_ok acc')))
                  else w1 in
        probe_loop c wav_path sleep_ms total (S i) ids acc'
                   (logged w2 (EvSleep (Z.max 0 sleep_ms)))
    end.
Proof.
  cbn [probe_loop]. unfold bind, emit, ret.
  destruct (guarded_probe c mid wav_path w) as [[e|o] w1]; [reflexivity|].
  now destruct (Nat.eqb (i mod 10) 0).
Qed.

Lemma probe_loop_returns (ids : list string) :
  forall (i : nat) (acc : list outcome) (w : world),
  exists rs,
    fst (probe_loop c wav_path sleep_ms total i ids acc w) = inr (acc ++ rs)%list
    /\ map model rs = ids
    /\ map category rs = map category_for ids
    /\ extends (probe_event c) w
               (snd (probe_loop c wav_path sleep_ms total i ids acc w)).
Proof.
  induction ids as [|mid ids IH]; intros i acc w.
  - exists []. cbn. rewrite app_nil_r. repeat split. apply extends_refl.
  - rewrite probe_loop_cons.
    destruct (does_guarded_probe c mid wav_path w) as [Hext Hres].
    destruct (guarded_probe_returns c mid wav_path w) as (o & Ho & _).
    destruct (guarded_probe c mid wav_path w) as [[e|o'] w1];
      cbn [fst snd] in *; [discriminate|]. injection Ho as ->.
    destruct (Hres o eq_refl) as [Hm Hc]. cbv zeta.
    set (w2 := if Nat.eqb (i mod 10) 0
               then logged w1 (EvStderr (Progress i total
                                           (count_ok (acc ++ [o]))))
               else w1).
    assert (Hext2 : extends (probe_event c) w1 w2).
    { subst w2. destruct (Nat.eqb (i mod 10) 0);
        [now apply extends_logged | apply extends_refl]. }
    destruct (IH (S i) (acc ++ [o])%list (logged w2 (EvSleep (Z.max 0 sleep_ms))))
      as (rs & Hrs & Hmodel & Hcats & Hext3).
    exists (o :: rs). rewrite Hrs, <- app_assoc.
    split; [reflexivity|]. split; [cbn; now rewrite Hm, Hmodel|].
    split; [cbn; now rewrite Hc, Hcats|].
    eapply extends_trans; [exact Hext|].
    eapply extends_trans; [exact Hext2|].
    eapply extends_trans; [|exact Hext3]. now apply extends_logged.
Qed.


End Loop.

(** *** Running [main] *)

Lemma probe_event_main_event (c : Client) (ev : event) :
  probe_event c ev -> main_event c ev.
Proof. destruct ev; cbn; tauto. Qed.

Lemma get_models_run (c : Client) (h : gmap string string) (w : world) :
  headers_json c = inr h ->
  get_models c w
  = (match replies w with
     | [] => inl ConnectionError
     | inl e :: _ => inl e
     | inr r :: _ => inr (status_code r, json_or_raw 500 r)
     end,
     sent w (listing_request c h)).
Proof.
  intros Hh. unfold get_models, bind, lift, send, ret. rewrite Hh.
  now destruct (replies w) as [|[e|r] rs].
Qed.

Lemma write_report_run (ev : string -> report -> event) (path : string)
    (r : report) (w : world) :
  write_report ev path r w
  = (match fs_write_error w path with
     | Some e => inl e
     | None => inr tt
     end,
     logged w (ev path r)).
Proof.
  unfold write_report, bind, emit, ask, raise, ret. cbn.
  now destruct (fs_write_error w path).
Qed.

(** ** write_md: the table of failed models, and when it raises *)


Section StableSort.
Context {A : Type} (le : A -> A -> bool).
Context (le_total : forall a b, le a b = false -> le b a = true).

Lemma insert_by_perm (x : A) (l : list A) : Md.insert_by le x l ≡ₚ x :: l.
Proof.
  induction l as [|y l IH]; [reflexivity|]. cbn [Md.insert_by].
  destruct (le x y); [reflexivity|]. rewrite IH. apply Permutation_swap.
Qed.

Lemma stable_sort_perm (l : list A) : Md.stable_sort le l ≡ₚ l.
Proof.
  induction l as [|x l IH]; [reflexivity|]. cbn [Md.stable_sort foldr].
  rewrite insert_by_perm. now constructor.
Qed.





End StableSort.

Lemma rows_inl {A} (f : A -> exn + string) (l : list A) (e : exn) :
  Md.rows f l = inl e -> exists x, In x l /\ f x = inl e.
Proof.
  induction l as [|x l IH]; cbn [Md.rows]; [discriminate|].
  destruct (f x) as [e'|s] eqn:Ex.
  - intros [= <-]. exists x. split; [now left | exact Ex].
  - destruct (Md.rows f l) as [e'|ss]; [|discriminate].
    intros [= <-]. destruct (IH eq_refl) as (y & Hy & Hfy).
    exists y. split; [now right | exact Hfy].
Qed.

Lemma rows_inr {A} (f : A -> exn + string) (l : list A) :
  (forall x, In x l -> exists s, f x = inr s) ->
  exists ss, Md.rows f l = inr ss /\ length ss = length l.
Proof.
  induction l as [|x l IH]; intros Hall; cbn [Md.rows].
  - now exists [].
  - destruct (Hall x (or_introl eq_refl)) as [s ->].
    destruct (IH (fun y Hy => Hall y (or_intror Hy))) as (ss & -> & Hlen).
    exists (s :: ss). cbn. now rewrite Hlen.
Qed.

Lemma error_cell_inl (r : outcome) (e : exn) :
  Md.error_cell r = inl e -> bad_message r.
Proof.
  unfold Md.error_cell, bad_message. cbv zeta.
  destruct (error r) as [d|] eqn:Ed.
  - destruct (truthy (JObj d)).
    + unfold dict_get. destruct (d !! "message") as [m|] eqn:Em;
        cbn [default from_option]; [|discriminate].
      change (id m) with m. destruct (truthy m) eqn:Et; [|discriminate].
      destruct m; try discriminate; intros _; eexists _, _;
        (split; [reflexivity | split; [exact Em | split; [exact Et |]]]);
        discriminate.
    + unfold dict_get. rewrite lookup_empty. discriminate.
  - unfold dict_get. rewrite lookup_empty. discriminate.
Qed.

Lemma error_cell_bad (r : outcome) :
  bad_message r -> exists m, Md.error_cell r = inl (AttributeError m "replace").
Proof.
  intros (d & m & Hd & Hm & Ht & Hns). unfold Md.error_cell. cbv zeta.
  rewrite Hd, (truthy_obj_lookup _ _ _ Hm), (dict_get_some _ _ _ Hm), Ht.
  exists m. destruct m; try reflexivity. now destruct (Hns s).
Qed.

Lemma fails_In (rs : list outcome) (r : outcome) :
  In r (Md.fails rs) <-> In r rs /\ ok r = false /\ skipped r = false.
Proof.
  unfold Md.fails. rewrite List.filter_In, andb_true_iff, !negb_true_iff.
  tauto.
Qed.

Lemma md_text_inl (generatedAt : string) (rep : report) (e : exn) :
  Md.text generatedAt rep = inl e ->
  exists r, In r (Md.fails (results rep)) /\ Md.fail_row r = inl e.
Proof.
  unfold Md.text, Md.lines. cbv zeta.
  destruct (Md.fails (results rep)) as [|f fs] eqn:Ef; [discriminate|].
  destruct (Md.rows Md.fail_row _) as [e'|tbl] eqn:Er; [|discriminate].
  intros [= <-]. destruct (rows_inl _ _ _ Er) as (x & Hx & Hfx).
  exists x. split; [|exact Hfx].
  apply (Permutation_in _ (stable_sort_perm Md.key_le (f :: fs))) in Hx.
  exact Hx.
Qed.

Lemma rows_bad (l : list outcome) (r : outcome) :
  In r l -> bad_message r -> exists e, Md.rows Md.fail_row l = inl e.
Proof.
  intros Hr Hbad. induction l as [|x l IH]; [inversion Hr|].
  cbn [Md.rows]. destruct (Md.fail_row x) as [e|s] eqn:Ex; [eauto|].
  destruct Hr as [->|Hr].
  - unfold Md.fail_row in Ex. destruct (error_cell_bad r Hbad) as [m Hm].
    rewrite Hm in Ex. discriminate.
  - destruct (IH Hr) as [e ->]. eauto.
Qed.

Lemma md_text_bad (generatedAt : string) (rep : report) (r : outcome) :
  In r (results rep) -> ok r = false -> skipped r = false -> bad_message r ->
  exists e, Md.text generatedAt rep = inl e.
Proof.
  intros Hin Hok Hsk Hbad.
  assert (Hr : In r (Md.fails (results rep))) by (apply fails_In; auto).
  unfold Md.text, Md.lines. cbv zeta.
  destruct (Md.fails (results rep)) as [|f fs] eqn:Ef; [inversion Hr|].
  apply (Permutation_in _ (Permutation_sym
           (stable_sort_perm Md.key_le (f :: fs)))) in Hr.
  destruct (rows_bad _ r Hr Hbad) as [e ->]. eauto.
Qed.

Lemma write_md_run (path generatedAt : string) (r : report) (w : world) :
  write_md path generatedAt r w
  = match Md.text generatedAt r with
    | inl e => (inl e, w)
    | inr _ => (match fs_write_error w path with
                | Some e => inl e
                | None => inr tt
                end,
                logged w (EvWriteMd path r))
    end.
Proof.
  unfold write_md. destruct (Md.text generatedAt r); [reflexivity|].
  apply write_report_run.
Qed.

Lemma md_text_raises (generatedAt : string) (rep : report) (e : exn) :
  Md.text generatedAt rep = inl e ->
  (exists r, In r (results rep) /\ ok r = false /\ skipped r = false
             /\ bad_message r)
  /\ exists m, e = AttributeError m "replace".
Proof.
  intros He. destruct (md_text_inl _ _ _ He) as (r & Hr & Hrow).
  unfold Md.fail_row in Hrow.
  destruct (Md.error_cell r) as [e'|s] eqn:Ec; [|discriminate].
  injection Hrow as <-. pose proof (error_cell_inl r e' Ec) as Hbad. split.
  - exists r. apply fails_In in Hr as (Hin & Hok & Hsk). auto.
  - destruct (error_cell_bad r Hbad) as [m Hm].
    rewrite Hm in Ec. injection Ec as <-. eauto.
Qed.

(** The two writers at the end of [main]. *)
Lemma write_both_run (pj pm generatedAt : string) (rep : report) (w : world) :
  (write_report EvWriteJson pj rep ;;; write_md pm generatedAt rep ;;; ret 0) w
  = match fs_write_error w pj with
    | Some e => (inl e, logged w (EvWriteJson pj rep))
    | None =>
        match Md.text generatedAt rep with
        | inl e => (inl e, logged w (EvWriteJson pj rep))
        | inr _ =>
            (match fs_write_error w pm with
             | Some e => inl e
             | None => inr 0
             end,
             logged (logged w (EvWriteJson pj rep)) (EvWriteMd pm rep))
        end
    end.
Proof.
  unfold bind. rewrite write_report_run.
  destruct (fs_write_error w pj) as [e|]; [reflexivity|].
  rewrite write_md_run. destruct (Md.text generatedAt rep); [reflexivity|].
  cbn [fs_write_error logged with_trace].
  now destruct (fs_write_error w pm).
Qed.

Section Main.
Context (args : Args) (env : Env).

Lemma main_missing_wav (w : world) :
  fs_exists w (wav_of env) = false ->
  main args env w = (inr 2, logged w (EvStderr (MissingWav (wav_of env)))).
Proof.
  intros Hno. unfold main. cbv zeta. fold (wav_of env). unfold bind at 1, ask.
  rewrite Hno. reflexivity.
Qed.

Lemma main_missing_key (w : world) (e : exn) :
  fs_exists w (wav_of env) = true ->
  headers_json (client_of args env) = inl e ->
  main args env w = (inl e, w).
Proof.
  intros Hyes He. unfold main. cbv zeta. fold (wav_of env) (client_of args env).
  unfold bind at 1, ask. rewrite Hyes. cbn [negb].
  unfold get_models, bind, lift. now rewrite He.
Qed.

Lemma main_listing_failed (w : world) (h : gmap string string) (r : response)
    (rest : list (exn + response)) :
  fs_exists w (wav_of env) = true ->
  headers_json (client_of args env) = inr h ->
  replies w = inr r :: rest ->
  status_code r <> 200 ->
  main args env w
  = (inr 3,
     logged (sent w (listing_request (client_of args env) h))
            (EvStderr (ListingFailed (status_code r) (json_or_raw 500 r)))).
Proof.
  intros Hyes Hh Hrep Hst. unfold main. cbv zeta.
  fold (wav_of env) (client_of args env).
  unfold bind at 1, ask. rewrite Hyes. cbn [negb].
  unfold bind at 1. rewrite (get_models_run _ _ _ Hh), Hrep.
  destruct (Z.eqb_spec (status_code r) 200); [contradiction|]. reflexivity.
Qed.

Lemma main_probing (w : world) (h : gmap string string) (r : response)
    (rest : list (exn + response)) (ids : list string) :
  fs_exists w (wav_of env) = true ->
  headers_json (client_of args env) = inr h ->
  replies w = inr r :: rest ->
  status_code r = 200 ->
  model_ids_of (json_or_raw 500 r) = inr ids ->
  exists rs w1,
    map model rs = ids
    /\ map category rs = map category_for ids
    /\ extends (probe_event (client_of args env))
               (sent w (listing_request (client_of args env) h)) w1
    /\ main args env w
       = (write_report EvWriteJson (arg_out_json args)
            (Report (arg_base_url args) (arg_auth_mode args) (length ids) rs) ;;;
          write_md (arg_out_md args) (now_iso w)
            (Report (arg_base_url args) (arg_auth_mode args) (length ids) rs) ;;;
          ret 0) w1.
Proof.
  intros Hyes Hh Hrep Hst Hids.
  set (w0 := sent w (listing_request (client_of args env) h)).
  destruct (probe_loop_returns (client_of args env) (wav_of env)
              (arg_sleep_ms args) (length ids) ids 1%nat [] w0)
    as (rs & Hrs & Hmodel & Hcat & Hext).
  destruct (probe_loop (client_of args env) (wav_of env) (arg_sleep_ms args)
              (length ids) 1 ids [] w0) as [res w1] eqn:Hloop.
  cbn [fst snd app] in Hrs, Hext. subst res.
  exists rs, w1. repeat (split; [assumption|]).
  unfold main. cbv zeta. fold (wav_of env) (client_of args env).
  unfold bind at 1, ask. rewrite Hyes. cbn [negb].
  unfold bind at 1. rewrite (get_models_run _ _ _ Hh), Hrep.
  rewrite Hst. cbn [Z.eqb Pos.eqb negb]. unfold bind at 1, lift.
  rewrite Hids. unfold bind at 1. fold w0. rewrite Hloop.
  unfold bind at 1, ask.
  destruct Hext as [(_ & _ & _ & Hnow) _].
  change (now_iso w0) with (now_iso w) in Hnow. now rewrite Hnow.
Qed.

(** A listing that cannot be read ends the run before any probe. *)
Lemma main_unreadable_listing (w : world) (h : gmap string string)
    (r : response) (rest : list (exn + response)) (e : exn) :
  fs_exists w (wav_of env) = true ->
  headers_json (client_of args env) = inr h ->
  replies w = inr r :: rest ->
  status_code r = 200 ->
  model_ids_of (json_or_raw 500 r) = inl e ->
  main args env w = (inl e, sent w (listing_request (client_of args env) h)).
Proof.
  intros Hyes Hh Hrep Hst Hids. unfold main. cbv zeta.
  fold (wav_of env) (client_of args env).
  unfold bind at 1, ask. rewrite Hyes. cbn [negb].
  unfold bind at 1. rewrite (get_models_run _ _ _ Hh), Hrep.
  rewrite Hst. cbn [Z.eqb Pos.eqb negb]. unfold bind at 1, lift.
  now rewrite Hids.
Qed.

Lemma does_probe_loop (ids : list string) (i n : nat) (acc : list outcome) :
  does (main_event (client_of args env)) (fun _ => True)
       (probe_loop (client_of args env) (wav_of env) (arg_sleep_ms args)
                   n i ids acc).
Proof.
  intros w.
  destruct (probe_loop_returns (client_of args env) (wav_of env)
              (arg_sleep_ms args) n ids i acc w) as (rs & _ & _ & _ & Hext).
  split; [|auto].
  eapply extends_weaken; [apply probe_event_main_event | exact Hext].
Qed.

Lemma does_write_report (P : event -> Prop) (ev : string -> report -> event)
    (path : string) (r : report) :
  P (ev path r) -> does P (fun _ => True) (write_report ev path r).
Proof.
  intros Hev. unfold write_report.
  does_step; [now apply does_emit_any|].
  does_step; [apply (does_ask _ (fun _ => True)); auto|].
  destruct a0; [apply does_raise | now apply does_ret].
Qed.

Lemma does_write_md (P : event -> Prop) (path generatedAt : string)
    (r : report) :
  P (EvWriteMd path r) -> does P (fun _ => True) (write_md path generatedAt r).
Proof.
  intros Hev. unfold write_md.
  destruct (Md.text generatedAt r); [apply does_raise|].
  now apply does_write_report.
Qed.

Lemma does_main :
  does (main_event (client_of args env))
       (fun code => code = 0 \/ code = 2 \/ code = 3) (main args env).
Proof.
  unfold main. cbv zeta. fold (wav_of env) (client_of args env).
  does_step; [apply (does_ask _ (fun _ => True)); auto|].
  destruct (negb a).
  { does_step; [now apply does_emit_any|]. apply does_ret. auto. }
  does_step.
  { unfold get_models. does_step; [apply does_lift_eq|].
    does_step; [apply (does_send _ (fun _ => True)); [now left | auto]|].
    apply (does_ret _ (fun _ => True)). exact I. }
  does_step. destruct (negb (z =? 200)).
  { does_step; [now apply does_emit_any|]. apply does_ret. auto. }
  does_step; [apply does_lift_eq|].
  does_step; [apply does_probe_loop|].
  does_step; [apply (does_ask _ (fun _ => True)); auto|].
  does_step; [now apply does_write_report|].
  does_step; [now apply does_write_md|].
  apply does_ret. auto.
Qed.

End Main.

(* ================================================================== *)
(** ** The orchestrator *)
(* ================================================================== *)

Lemma append_assoc (a b d : string) : (a +:+ b) +:+ d = a +:+ b +:+ d.
Proof.
  induction a as [|ch a IH]; [reflexivity|].
  change (String ch ((a +:+ b) +:+ d) = String ch (a +:+ b +:+ d)).
  now rewrite IH.
Qed.

Lemma append_empty_r (a : string) : a +:+ "" = a.
Proof.
  induction a as [|ch a IH]; [reflexivity|].
  change (String ch (a +:+ "") = String ch a). now rewrite IH.
Qed.



(** C5. In a run whose listing call answers 200 with a listing that can be
    read, the outcomes handed to the report have pairwise distinct model
    values, in increasing order (the only sorted arrangement of them),
    which are exactly the trimmed and lower-cased raw identifiers of the
    listing, and there is one outcome for each of them whatever the
    replies to the probes. *)
Theorem results_are_the_sorted_identifier_set :
  forall (args : Args) (env : Env) (w : world) (h : gmap string string)
         (r : response) (rest : list (exn + response)) (ids : list string),
    fs_exists w (wav_of env) = true ->
    headers_json (client_of args env) = inr h ->
    replies w = inr r :: rest ->
    status_code r = 200 ->
    model_ids_of (json_or_raw 500 r) = inr ids ->
    exists rs,
      reported (trace (snd (main args env w))) = (reported (trace w) ++ [rs])%list
      /\ map model rs = ids
      /\ ids = sorted_set (map normalize (listed_ids (json_or_raw 500 r)))
      /\ NoDup (map model rs)
      /\ Sorted str_le (map model rs)
      /\ (forall l, l ≡ₚ map model rs -> Sorted str_le l -> l = map model rs)
      /\ (forall s, s ∈ map model rs
                    <-> exists raw, raw ∈ listed_ids (json_or_raw 500 r)
                                    /\ s = PyStr.lower (PyStr.strip raw)
                                    /\ s = PyStr.strip (PyStr.lower raw))
      /\ length rs = length ids.
Proof.
  intros args env w h r rest ids Hyes Hh Hrep Hst Hids.
  destruct (main_probing args env w h r rest ids Hyes Hh Hrep Hst Hids)
    as (rs & w1 & Hmodel & _ & [_ (t & Ht & HF)] & Hmain).
  pose proof (model_ids_of_listed _ _ Hids) as Hsorted.
  exists rs. split.
  { rewrite Hmain. unfold bind at 1. rewrite write_report_run.
    assert (Hw1 : reported (trace w1) = reported (trace w)).
    { rewrite Ht, trace_sent, !reported_app.
      rewrite (probe_event_not_reported _ _ HF). cbn. now rewrite !app_nil_r. }
    destruct (fs_write_error w1 (arg_out_json args)); cbn [snd].
    - rewrite trace_logged, reported_app, Hw1. reflexivity.
    - unfold bind at 1. rewrite write_md_run.
      destruct (Md.text _ _);
        [cbn [snd]; rewrite trace_logged, reported_app, Hw1; reflexivity|].
      destruct (fs_write_error _ (arg_out_md args)); unfold ret; cbn [snd];
        rewrite !trace_logged, !reported_app, Hw1; cbn;
        now rewrite app_nil_r. }
  split; [exact Hmodel|]. split; [exact Hsorted|].
  rewrite Hmodel, Hsorted.
  split; [apply sorted_set_NoDup|]. split; [apply sorted_set_Sorted|].
  split.
  { intros l Hperm Hl.
    apply (Sorted_unique str_le); [exact Hl | apply sorted_set_Sorted | exact Hperm]. }
  split.
  - intros s. rewrite elem_of_sorted_set, list_elem_of_fmap. split.
    + intros (raw & -> & Hin). exists raw. split; [exact Hin|].
      split; [reflexivity | apply normalize_strip_lower].
    + intros (raw & Hin & -> & _). eauto.
  - now rewrite <- Hsorted, <- Hmodel, length_map.
Qed.

(** C8. [main] returns 2 when the audio fixture is missing and 3 when the
    listing call answers with a status other than 200 (nothing is probed
    and no outcome is reported in either case), and it returns no value
    other than 0, 2 and 3.  When the listing is read and both files can be
    written, it hands the outcomes to the report writers and then returns
    0 exactly when no failed outcome carries an error message that is
    truthy and not a string; with such an outcome [write_md] raises an
    AttributeError that leaves [main].  The last conjunct is such a run:
    one speech model whose probe is answered 429 with the message 7. *)
Theorem main_exit_codes :
  forall (args : Args) (env : Env) (w : world),
    (fs_exists w (wav_of env) = false ->
     main args env w = (inr 2, logged w (EvStderr (MissingWav (wav_of env)))))
    /\ (forall h r rest,
          fs_exists w (wav_of env) = true ->
          headers_json (client_of args env) = inr h ->
          replies w = inr r :: rest ->
          status_code r <> 200 ->
          main args env w
          = (inr 3,
             logged (sent w (listing_request (client_of args env) h))
               (EvStderr (ListingFailed (status_code r) (json_or_raw 500 r))))
          /\ reported (trace (snd (main args env w))) = reported (trace w))
    /\ (forall h r rest ids,
          fs_exists w (wav_of env) = true ->
          headers_json (client_of args env) = inr h ->
          replies w = inr r :: rest ->
          status_code r = 200 ->
          model_ids_of (json_or_raw 500 r) = inr ids ->
          fs_write_error w (arg_out_json args) = None ->
          fs_write_error w (arg_out_md args) = None ->
          exists rs,
            reported (trace (snd (main args env w)))
            = (reported (trace w) ++ [rs])%list
            /\ (fst (main args env w) = inr 0
                <-> ~ exists o, In o rs /\ ok o = false /\ skipped o = false
                                /\ bad_message o)
            /\ ((exists o, In o rs /\ ok o = false /\ skipped o = false
                           /\ bad_message o) ->
                exists m, fst (main args env w)
                          = inl (AttributeError m "replace")))
    /\ (forall code, fst (main args env w) = inr code ->
                     code = 0 \/ code = 2 \/ code = 3)
    /\ 2 <> 0 /\ 3 <> 0 /\ 2 <> 3
    /\ (let w0 := Sample.world0
                    [Sample.json_reply 200 Sample.tts_listing;
                     Sample.json_reply 429 Sample.numeric_message] in
        fst (main Sample.args Sample.env w0)
        = inl (AttributeError (JInt 7) "replace")
        /\ map (map (fun o => (model o, ok o, http o)))
               (reported (trace (snd (main Sample.args Sample.env w0))))
           = [[("tts-1", false, Some 429)]]).
Proof.
  intros args env w. split; [apply main_missing_wav|]. split.
  { intros h r rest Hyes Hh Hrep Hst.
    rewrite (main_listing_failed args env w h r rest Hyes Hh Hrep Hst).
    split; [reflexivity|]. cbn [snd].
    rewrite trace_logged, trace_sent, !reported_app. cbn.
    now rewrite !app_nil_r. }
  split.
  { intros h r rest ids Hyes Hh Hrep Hst Hids Hj Hm.
    destruct (main_probing args env w h r rest ids Hyes Hh Hrep Hst Hids)
      as (rs & w1 & _ & _ & [(_ & _ & Hfs & _) (t & Ht & HF)] & Hmain).
    cbn in Hfs.
    assert (Hw1 : reported (trace w1) = reported (trace w)).
    { rewrite Ht, trace_sent, !reported_app.
      rewrite (probe_event_not_reported _ _ HF). cbn. now rewrite !app_nil_r. }
    exists rs. rewrite Hmain, write_both_run, Hfs, Hj, Hm.
    destruct (Md.text (now_iso w) _) as [e|txt] eqn:Etext; cbn [fst snd].
    - destruct (md_text_raises _ _ _ Etext) as [Hbad [m ->]].
      cbn [results] in Hbad.
      split; [rewrite trace_logged, reported_app, Hw1; reflexivity|].
      split; [|intros _; now exists m].
      split; [discriminate | intros Hnone; now destruct Hnone].
    - split.
      { rewrite !trace_logged, !reported_app, Hw1. cbn. now rewrite app_nil_r. }
      assert (Hnone : ~ exists o, In o rs /\ ok o = false /\ skipped o = false
                                  /\ bad_message o).
      { intros (o & Hin & Hok & Hsk & Hbad).
        destruct (md_text_bad (now_iso w)
                    (Report (arg_base_url args) (arg_auth_mode args)
                            (length ids) rs) o Hin Hok Hsk Hbad) as [e He].
        rewrite Etext in He. discriminate. }
      split; [split; [intros _; exact Hnone | reflexivity]|].
      intros Hbad. now destruct Hnone. }
  split.
  { intros code Hcode. destruct (does_main args env w) as [_ Hres].
    now apply Hres. }
  repeat (split; [discriminate|]).
  cbv zeta. split; vm_compute; reflexivity.
Qed.

(** C9. In bearer mode with a missing or empty credential, building the
    headers raises the configuration error; [main] then ends with that
    error as soon as the fixture check is passed, having sent nothing and
    reported nothing (when the fixture is missing it has already returned
    2, also having sent nothing).  In none mode the headers are built
    whatever the credential, and no request [main] sends carries an
    Authorization header. *)
Theorem credential_checked_before_any_request :
  forall (args : Args) (env : Env) (w : world),
    let c := client_of args env in
    (arg_auth_mode args = "bearer" ->
     OPENAI_API_KEY env = None \/ OPENAI_API_KEY env = Some "" ->
     headers_json c = inl missing_key
     /\ headers_multipart c = inl missing_key
     /\ exn_msg missing_key = "OPENAI_API_KEY is required for auth-mode=bearer"
     /\ (fs_exists w (wav_of env) = true ->
         main args env w = (inl missing_key, w))
     /\ (fs_exists w (wav_of env) = false ->
         main args env w
         = (inr 2, logged w (EvStderr (MissingWav (wav_of env))))))
    /\ (arg_auth_mode args = "none" ->
        headers_json c = inr {[ "Content-Type" := "application/json" ]}
        /\ headers_multipart c = inr ∅
        /\ exists t,
             trace (snd (main args env w)) = (trace w ++ t)%list
             /\ Forall (fun ev => forall rq, ev = EvRequest rq ->
                                  rq_headers rq !! "Authorization" = None) t).
Proof.
  intros args env w c. split.
  - intros Hmode Hkey.
    assert (Hj : headers_json c = inl missing_key).
    { unfold headers_json, add_auth. subst c. cbn [auth_mode api_key client_of].
      rewrite Hmode. now destruct Hkey as [-> | ->]. }
    assert (Hm : headers_multipart c = inl missing_key).
    { unfold headers_multipart, add_auth. subst c.
      cbn [auth_mode api_key client_of].
      rewrite Hmode. now destruct Hkey as [-> | ->]. }
    repeat split; try assumption.
    + intros Hyes. now apply main_missing_key.
    + apply main_missing_wav.
  - intros Hmode.
    assert (Hj : headers_json c = inr {[ "Content-Type" := "application/json" ]}).
    { unfold headers_json, add_auth. subst c. cbn [auth_mode client_of].
      now rewrite Hmode. }
    assert (Hm : headers_multipart c = inr ∅).
    { unfold headers_multipart, add_auth. subst c. cbn [auth_mode client_of].
      now rewrite Hmode. }
    repeat split; try assumption.
    destruct (does_main args env w) as [[_ (t & Ht & HF)] _].
    exists t. split; [exact Ht|].
    eapply Forall_impl; [exact HF|]. intros ev Hev rq ->. cbn in Hev.
    fold c in Hev. destruct Hev as [Hev|Hev].
    + rewrite Hj in Hev. injection Hev as <-. reflexivity.
    + rewrite Hm in Hev. injection Hev as <-. reflexivity.
Qed.

(* ================================================================== *)
(** ** The theorems at work on sample runs *)
(* ================================================================== *)

Example category_for_scenario :
  map category_for ["gpt-4o"; "DALL-E-3"; "whisper-1"; "sora-2"; "tts-1"]
  = ["text"; "dalle"; "transcribe"; "video"; "tts"].
Proof. reflexivity. Qed.

Example model_ids_sample :
  model_ids_of Sample.listing = inr ["dall-e-3"; "gpt-4o"; "whisper-1"].
Proof. vm_compute. reflexivity. Qed.

Example main_sample_results :
  map (fun o => (model o, category o, ok o))
      (concat (reported (trace (snd (main Sample.args Sample.env
         (Sample.world0 [Sample.json_reply 200 Sample.listing;
                         Sample.json_reply 200 (JObj ∅);
                         Sample.json_reply 500 (Sample.envelope "server_error" "boom");
                         Sample.json_reply 200 (JObj ∅)]))))))
  = [("dall-e-3", "dalle", true); ("gpt-4o", "text", true);
     ("whisper-1", "transcribe", false)].
Proof. vm_compute. reflexivity. Qed.

Example main_sample_exit :
  fst (main Sample.args Sample.env
         (Sample.world0 [Sample.json_reply 200 Sample.listing;
                         Sample.json_reply 200 (JObj ∅);
                         Sample.json_reply 500 (Sample.envelope "server_error" "boom");
                         Sample.json_reply 200 (JObj ∅)]))
  = inr 0.
Proof. vm_compute. reflexivity. Qed.

(** A 200 answer whose error member is a string: no envelope for
    [err_summary], and the probe is not ok. *)
Example string_error_member_is_a_failure :
  err_summary (JObj {[ "error" := JStr "boom" ]}) = None
  /\ ok_200 200 (JObj {[ "error" := JStr "boom" ]}) = inr false.
Proof. split; vm_compute; reflexivity. Qed.

(** A 200 answer whose error member is the empty object: an envelope for
    [err_summary], and the probe is ok. *)
Example empty_envelope_is_a_success :
  is_Some (err_summary (JObj {[ "error" := JObj ∅ ]}))
  /\ ok_200 200 (JObj {[ "error" := JObj ∅ ]}) = inr true.
Proof. split; [vm_compute; eauto | vm_compute; reflexivity]. Qed.

Lemma err_summary_truncates_message_witness :
  exists d m,
    err_summary (JObj {[ "error" := JObj Sample.long_envelope ]}) = Some d
    /\ d !! "message" = Some (JStr m)
    /\ String.length m = 240%nat.
Proof.
  assert (Ho : ({[ "error" := JObj Sample.long_envelope ]} : gmap string json)
               !! "error" = Some (JObj Sample.long_envelope)) by reflexivity.
  assert (He : Sample.long_envelope !! "message"
               = Some (JStr Sample.long_message)) by reflexivity.
  destruct (err_summary_truncates_message _ _ _ Ho He)
    as (d & m & Hd & Hm & Hlong & _).
  exists d, m. split; [exact Hd|]. split; [exact Hm|].
  apply Hlong. vm_compute. lia.
Defined.

Lemma text_like_retry_on_server_error_witness :
  let w := Sample.world0
             [Sample.json_reply 500 (Sample.envelope "server_error" "boom");
              Sample.json_reply 200 (JObj ∅)] in
  fst (probe_text_like Sample.client "gpt-4o" None w)
  = inr (TextResult true "/v1/responses" 200 None).
Proof.
  intros w.
  set (r1 := Sample.json_response 500 (Sample.envelope "server_error" "boom")).
  set (r2 := Sample.json_response 200 (JObj ∅)).
  assert (Hh : headers_json Sample.client = inr Sample.json_headers)
    by reflexivity.
  assert (Hrep : replies w = [inr r1; inr r2]) by reflexivity.
  assert (Hse : server_error_envelope (seen_body r1)).
  { eexists _, _. split; [reflexivity|]. split; reflexivity. }
  assert (Hobj : object_without_error (seen_body r2)).
  { exists ∅. split; reflexivity. }
  destruct (text_like_retry_on_server_error _ _ "gpt-4o" None _ _ _ Hh Hrep)
    as [Hretry _].
  destruct (Hretry Hse) as (t & _ & _ & Hok).
  exact (proj1 (Hok r2 [] eq_refl eq_refl Hobj)).
Defined.

Lemma text_like_all_endpoints_fail_witness :
  let w := Sample.world0
             [Sample.json_reply 500 (Sample.envelope "server_error" "boom");
              Sample.json_reply 503 (JObj ∅);
              Sample.json_reply 404 (Sample.envelope "not_found" "no chat");
              Sample.json_reply 404 (JObj ∅)] in
  exists d,
    fst (probe_text_like Sample.client "gpt-4o" None w)
    = inr (TextResult false "/v1/responses|/v1/chat/completions|/v1/completions"
             503 (Some d))
    /\ d !! "message" = Some (JStr "no chat").
Proof.
  intros w.
  set (r1 := Sample.json_response 500 (Sample.envelope "server_error" "boom")).
  set (r2 := Sample.json_response 503 (JObj ∅)).
  set (r3 := Sample.json_response 404 (Sample.envelope "not_found" "no chat")).
  set (r4 := Sample.json_response 404 (JObj ∅)).
  assert (Hh : headers_json Sample.client = inr Sample.json_headers)
    by reflexivity.
  assert (Hrep : replies w = inr r1 :: [inr r2; inr r3; inr r4]) by reflexivity.
  assert (F1 : failed_response r1) by (left; discriminate).
  assert (F2 : failed_response r2) by (left; discriminate).
  assert (F3 : failed_response r3) by (left; discriminate).
  assert (F4 : failed_response r4) by (left; discriminate).
  assert (Hse : server_error_envelope (seen_body r1)).
  { eexists _, _. split; [reflexivity|]. split; reflexivity. }
  destruct (text_like_all_endpoints_fail _ _ "gpt-4o" None _ _ _ Hh Hrep F1)
    as (_ & _ & Hretry).
  eexists. split; [exact (Hretry r2 r3 r4 [] Hse eq_refl F2 F3 F4)|].
  reflexivity.
Defined.

Lemma video_probe_validation_only_witness :
  let w := Sample.world0 [Sample.json_reply 400 Sample.size_envelope] in
  exists out,
    fst (probe_one Sample.client "sora-2" default_wav w) = inr out
    /\ ok out = true /\ note out = Some video_note /\ error out = None.
Proof.
  intros w.
  set (r := Sample.json_response 400 Sample.size_envelope).
  assert (Hh : headers_json Sample.client = inr Sample.json_headers)
    by reflexivity.
  assert (Hcat : category_for "sora-2" = "video") by reflexivity.
  assert (Hrep : replies w = [inr r]) by reflexivity.
  destruct (video_probe_validation_only _ _ "sora-2" default_wav _ _ _
              Hh Hcat Hrep) as (_ & _ & Hout & _).
  destruct Hout as (out & Hrun & Hiff & Hnote); [left; discriminate|].
  assert (Hok : ok out = true).
  { apply Hiff. left. split; [reflexivity|].
    eexists _, _. split; [reflexivity|]. split; reflexivity. }
  exists out. split; [exact Hrun|]. split; [exact Hok|].
  now apply Hnote.
Defined.

Lemma results_are_the_sorted_identifier_set_witness :
  let w := Sample.world0 [Sample.json_reply 200 Sample.listing;
                          Sample.json_reply 200 (JObj ∅)] in
  exists rs,
    reported (trace (snd (main Sample.args Sample.env w))) = [rs]
    /\ map model rs = ["dall-e-3"; "gpt-4o"; "whisper-1"].
Proof.
  intros w.
  set (r := Sample.json_response 200 Sample.listing).
  assert (Hyes : fs_exists w (wav_of Sample.env) = true) by reflexivity.
  assert (Hh : headers_json (client_of Sample.args Sample.env)
               = inr (<["Authorization" := "Bearer sk-test"]> Sample.json_headers))
    by reflexivity.
  assert (Hrep : replies w = [inr r; Sample.json_reply 200 (JObj ∅)])
    by reflexivity.
  assert (Hst : status_code r = 200) by reflexivity.
  assert (Hids : model_ids_of (json_or_raw 500 r)
                 = inr ["dall-e-3"; "gpt-4o"; "whisper-1"])
    by (vm_compute; reflexivity).
  destruct (results_are_the_sorted_identifier_set Sample.args Sample.env _ _ _
              _ _ Hyes Hh Hrep Hst Hids) as (rs & Hrun & Hmodel & _).
  exists rs. split; [exact Hrun | exact Hmodel].
Defined.


Lemma probe_one_error_field_witness :
  let w := Sample.world0 [Sample.json_reply 429 (JObj ∅)] in
  exists out,
    fst (probe_one Sample.client "tts-1" default_wav w) = inr out
    /\ ok out = false /\ error out <> None.
Proof.
  intros w.
  destruct (fst (probe_one Sample.client "tts-1" default_wav w))
    as [e|out] eqn:Hrun; [vm_compute in Hrun; discriminate|].
  assert (Hok : ok out = false)
    by (vm_compute in Hrun; injection Hrun as <-; reflexivity).
  destruct (probe_one_error_field Sample.client "tts-1" default_wav w out Hrun)
    as (_ & Herr & _).
  exists out. split; [reflexivity|]. split; [exact Hok|].
  apply Herr; [left; reflexivity | exact Hok].
Defined.

(* ================================================================== *)
(** * Further properties of the code *)
(* ================================================================== *)

(* ================================================================== *)
(** * Further properties of the code *)
(* ================================================================== *)

(** ** Strings: case and trimming *)

Lemma lower_char_idem (ch : ascii) :
  PyStr.lower_char (PyStr.lower_char ch) = PyStr.lower_char ch.
Proof. destruct ch as [[] [] [] [] [] [] [] []]; vm_compute; reflexivity. Qed.

Lemma lower_idem (s : string) : PyStr.lower (PyStr.lower s) = PyStr.lower s.
Proof.
  induction s as [|ch s IH]; [reflexivity|]. cbn [PyStr.lower].
  now rewrite lower_char_idem, IH.
Qed.

Lemma rstrip_by_cons (p : ascii -> bool) (ch : ascii) (s : string) :
  PyStr.rstrip_by p (String ch s)
  = match PyStr.rstrip_by p s with
    | EmptyString => if p ch then EmptyString else String ch EmptyString
    | t => String ch t
    end.
Proof. reflexivity. Qed.

Lemma rstrip_by_head (p : ascii -> bool) (ch : ascii) (s : string) :
  PyStr.rstrip_by p (String ch s) = ""
  \/ exists t, PyStr.rstrip_by p (String ch s) = String ch t.
Proof.
  cbn [PyStr.rstrip_by]. destruct (PyStr.rstrip_by p s) as [|ch' t].
  - destruct (p ch); [now left | right; eauto].
  - right; eauto.
Qed.

Lemma rstrip_by_idem (p : ascii -> bool) (s : string) :
  PyStr.rstrip_by p (PyStr.rstrip_by p s) = PyStr.rstrip_by p s.
Proof.
  induction s as [|ch s IH]; [reflexivity|]. cbn [PyStr.rstrip_by].
  destruct (PyStr.rstrip_by p s) as [|ch' t] eqn:E.
  - destruct (p ch) eqn:Ep; [reflexivity|]. cbn. now rewrite Ep.
  - rewrite rstrip_by_cons, IH. reflexivity.
Qed.

Lemma lstrip_idem (s : string) : PyStr.lstrip (PyStr.lstrip s) = PyStr.lstrip s.
Proof.
  induction s as [|ch s IH]; [reflexivity|]. cbn [PyStr.lstrip].
  destruct (PyStr.is_space ch) eqn:E; [exact IH|]. cbn. now rewrite E.
Qed.

Lemma lstrip_fixed (s : string) :
  PyStr.lstrip s = s ->
  PyStr.lstrip (PyStr.rstrip_by PyStr.is_space s) = PyStr.rstrip_by PyStr.is_space s.
Proof.
  destruct s as [|ch s]; [reflexivity|]. intros Hfix.
  destruct (rstrip_by_head PyStr.is_space ch s) as [->|[t ->]]; [reflexivity|].
  cbn [PyStr.lstrip] in *. destruct (PyStr.is_space ch) eqn:E; [|reflexivity].
  exfalso. assert (Hlen : String.length (PyStr.lstrip s) = String.length (String ch s))
    by now rewrite Hfix.
  clear -Hlen. cbn in Hlen.
  assert (Hle : forall u, (String.length (PyStr.lstrip u) <= String.length u)%nat).
  { induction u as [|c u IH]; cbn; [lia|]. destruct (PyStr.is_space c); cbn; lia. }
  specialize (Hle s). lia.
Qed.

Lemma strip_idem (s : string) : PyStr.strip (PyStr.strip s) = PyStr.strip s.
Proof.
  unfold PyStr.strip. rewrite (lstrip_fixed _ (lstrip_idem s)).
  apply rstrip_by_idem.
Qed.

Lemma normalize_idem (s : string) : normalize (normalize s) = normalize s.
Proof.
  rewrite (normalize_strip_lower (normalize s)). unfold normalize at 1.
  rewrite lower_idem. fold (normalize s).
  rewrite (normalize_strip_lower s). apply strip_idem.
Qed.

(** ** The client: URLs and headers *)

Lemma rstrip_by_snoc (p : ascii -> bool) (s : string) (ch : ascii) :
  p ch = true ->
  PyStr.rstrip_by p (s +:+ String ch "") = PyStr.rstrip_by p s.
Proof.
  intros Hp. induction s as [|a s IH].
  - change ("" +:+ String ch "") with (String ch ""). cbn. now rewrite Hp.
  - change (String a s +:+ String ch "") with (String a (s +:+ String ch "")).
    now rewrite !rstrip_by_cons, IH.
Qed.

Lemma rstrip_by_last (p : ascii -> bool) (s t : string) (ch : ascii) :
  PyStr.rstrip_by p s = t +:+ String ch "" -> p ch = false.
Proof.
  revert t; induction s as [|a s IH]; intros t.
  - destruct t; discriminate.
  - rewrite rstrip_by_cons. destruct (PyStr.rstrip_by p s) as [|b u] eqn:E.
    + destruct (p a) eqn:Ea; [destruct t; discriminate|].
      destruct t as [|x [|y t]]; intros [=]; congruence.
    + destruct t as [|x t].
      * intros [=].
      * change (String x t +:+ String ch "") with (String x (t +:+ String ch "")).
        intros [= _ Hu]. now apply (IH t).
Qed.

Lemma append_slashes_snoc (s : string) (n : nat) :
  s +:+ slashes (S n) = (s +:+ slashes n) +:+ "/".
Proof.
  rewrite append_assoc. f_equal. induction n as [|n IH]; [reflexivity|].
  change (String "/"%char (slashes (S n))
          = String "/"%char (slashes n +:+ "/")).
  now rewrite <- IH.
Qed.

(** X1. Trailing slashes of the base URL do not matter: the URL of a path
    is the same whatever their number, and it is the path appended to a
    base that does not end with a slash. *)
Theorem url_ignores_trailing_slashes :
  forall (base : string) (key : option string) (mode path : string) (n : nat),
    url (MkClient (base +:+ slashes n) key mode) path
    = url (MkClient base key mode) path
    /\ exists b,
         url (MkClient base key mode) path = b +:+ path
         /\ forall b', b <> b' +:+ "/".
Proof.
  intros base key mode path n. unfold url. cbn [base_url]. split.
  - f_equal. unfold PyStr.rstrip_slash. induction n as [|n IH].
    + cbn [slashes]. now rewrite append_empty_r.
    + rewrite append_slashes_snoc, rstrip_by_snoc; [exact IH | reflexivity].
  - exists (PyStr.rstrip_slash base). split; [reflexivity|].
    intros b' Hb. apply rstrip_by_last in Hb. discriminate.
Qed.

Lemma client_request_bearer (c : Client) (k : string) (rq : request) :
  auth_mode c = "bearer" -> api_key c = Some k -> k <> "" ->
  client_request c rq ->
  rq_headers rq !! "Authorization" = Some ("Bearer " +:+ k).
Proof.
  intros Hmode Hkey Hne. unfold client_request, headers_json,
    headers_multipart, add_auth. rewrite Hmode, Hkey. cbn.
  destruct (String.eqb_spec k ""); [contradiction|].
  intros [[= <-]|[= <-]]; now simplify_map_eq.
Qed.

(** X2. In bearer mode with a non-empty credential, every request a run
    of [main] sends, the listing call and each probe alike, carries the
    header Authorization: Bearer <credential>. *)
Theorem bearer_run_authorizes_every_request :
  forall (args : Args) (env : Env) (w : world) (k : string),
    arg_auth_mode args = "bearer" ->
    OPENAI_API_KEY env = Some k ->
    k <> "" ->
    exists t,
      trace (snd (main args env w)) = (trace w ++ t)%list
      /\ Forall (fun ev => forall rq, ev = EvRequest rq ->
                   rq_headers rq !! "Authorization" = Some ("Bearer " +:+ k)) t.
Proof.
  intros args env w k Hmode Hkey Hne.
  destruct (does_main args env w) as [[_ (t & Ht & HF)] _].
  exists t. split; [exact Ht|].
  eapply Forall_impl; [exact HF|]. intros ev Hev rq ->. cbn in Hev.
  now apply (client_request_bearer (client_of args env) k).
Qed.

(** ** Response headers *)

Lemma lower_keys_foldl (hs : list (string * string)) :
  forall (m : gmap string string) (k v : string),
    foldl (fun m kv => <[PyStr.lower (fst kv) := snd kv]> m) m hs !! k = Some v ->
    m !! k = Some v
    \/ exists k', (k', v) ∈ hs /\ PyStr.lower k' = k.
Proof.
  induction hs as [|[k0 v0] hs IH]; intros m k v; cbn [foldl]; [now left|].
  intros H. destruct (IH _ _ _ H) as [Hm|(k' & Hin & Hk)].
  - cbn [fst snd] in Hm. destruct (decide (PyStr.lower k0 = k)) as [<-|Hne].
    + rewrite lookup_insert_eq in Hm. injection Hm as <-.
      right. exists k0. split; [left | reflexivity].
    + rewrite lookup_insert_ne in Hm by exact Hne. now left.
  - right. exists k'. split; [now right | exact Hk].
Qed.

Lemma lower_keys_foldl_present (hs : list (string * string)) :
  forall (m : gmap string string) (k : string),
    is_Some (m !! k) \/ (exists k' v, (k', v) ∈ hs /\ PyStr.lower k' = k) ->
    is_Some (foldl (fun m kv => <[PyStr.lower (fst kv) := snd kv]> m) m hs !! k).
Proof.
  induction hs as [|[k0 v0] hs IH]; intros m k; cbn [foldl].
  - intros [H|(k' & v & Hin & _)]; [exact H | inversion Hin].
  - intros H. apply IH. cbn [fst snd].
    destruct (decide (PyStr.lower k0 = k)) as [<-|Hne].
    + left. rewrite lookup_insert_eq. eauto.
    + destruct H as [H|(k' & v & Hin & Hk)].
      * left. now rewrite lookup_insert_ne.
      * apply elem_of_cons in Hin as [[= -> ->]|Hin]; [contradiction|].
        right. eauto.
Qed.

Lemma lower_keys_foldl_absent (hs : list (string * string)) :
  forall (m : gmap string string) (k : string),
    (forall k2 v2, (k2, v2) ∈ hs -> PyStr.lower k2 <> k) ->
    foldl (fun m kv => <[PyStr.lower (fst kv) := snd kv]> m) m hs !! k = m !! k.
Proof.
  induction hs as [|[k0 v0] hs IH]; intros m k Hno; cbn [foldl]; [reflexivity|].
  rewrite IH by (intros k2 v2 Hin; apply (Hno k2 v2); now right).
  cbn [fst snd]. apply lookup_insert_ne, (Hno k0 v0). now left.
Qed.

(** X3. The header dict [post_json] returns can be read without regard to
    the case the server used: every key of it is lower-case and comes with
    the value of a header of that name, and every header of the response
    is found under its lower-cased name.  Its value there is that of the
    last header with this name up to case: where two names differ only by
    case, the later one wins. *)
Theorem response_headers_are_lower_cased :
  forall (r : response),
    let hdrs := snd (decode_json_response r) in
    (forall k v, hdrs !! k = Some v ->
       PyStr.lower k = k
       /\ exists k', (k', v) ∈ resp_headers r /\ PyStr.lower k' = k)
    /\ (forall k' v, (k', v) ∈ resp_headers r ->
          is_Some (hdrs !! PyStr.lower k'))
    /\ (forall before k' v after,
          resp_headers r = (before ++ (k', v) :: after)%list ->
          (forall k2 v2, (k2, v2) ∈ after -> PyStr.lower k2 <> PyStr.lower k') ->
          hdrs !! PyStr.lower k' = Some v).
Proof.
  intros r hdrs. subst hdrs. rewrite decode_json_response_eq. cbn [snd].
  unfold lower_keys. split; [|split].
  - intros k v H. destruct (lower_keys_foldl _ _ _ _ H) as [He|(k' & Hin & Hk)].
    + rewrite lookup_empty in He. discriminate.
    + split; [|eauto]. rewrite <- Hk. apply lower_idem.
  - intros k' v Hin. apply lower_keys_foldl_present. right. eauto.
  - intros before k' v after Hsplit Hlast.
    rewrite Hsplit, foldl_app. cbn [foldl fst snd].
    rewrite (lower_keys_foldl_absent _ _ _ Hlast). apply lookup_insert_eq.
Qed.

Example later_header_wins :
  snd (decode_json_response
         (Response 200 [("Content-Type", "text/html");
                        ("content-type", "audio/mpeg")] None ""))
  !! "content-type" = Some "audio/mpeg".
Proof. reflexivity. Qed.

(** ** Error summaries and response bodies *)

Lemma err_summary_obj (o e : gmap string json) :
  o !! "error" = Some (JObj e) ->
  err_summary (JObj o)
  = Some {[ "type" := dict_get e "type";
            "code" := dict_get e "code";
            "param" := dict_get e "param";
            "message" :=
              match dict_get e "message" with
              | JStr s =>
                  if (240 <? String.length s)%nat
                  then JStr (PyStr.slice_to 237 s +:+ "...")
                  else dict_get e "message"
              | _ => dict_get e "message"
              end ]}.
Proof. intros Ho. unfold err_summary. now rewrite (dict_get_some _ _ _ Ho). Qed.

(** X4. [err_summary] gives a summary exactly when the body is an object
    whose error member is an object; a summary always has the four keys
    type, code, param and message and nothing else, it copies type, code and
    param (null when missing), and a message string in it is never longer
    than 240 characters. *)
Theorem err_summary_shape :
  forall (j : json),
    (is_Some (err_summary j)
     <-> exists o e, j = JObj o /\ o !! "error" = Some (JObj e))
    /\ forall d, err_summary j = Some d ->
         dom d = ({[ "type"; "code"; "param"; "message" ]} : gset string)
         /\ (exists o e, j = JObj o /\ o !! "error" = Some (JObj e)
               /\ d !! "type" = Some (dict_get e "type")
               /\ d !! "code" = Some (dict_get e "code")
               /\ d !! "param" = Some (dict_get e "param"))
         /\ forall s, d !! "message" = Some (JStr s) ->
                      (String.length s <= 240)%nat.
Proof.
  intros j. split.
  - split.
    + intros [d Hd]. destruct (err_summary_inv _ _ Hd) as (o & e & -> & Ho & _).
      eauto.
    + intros (o & e & -> & Ho). now apply (err_summary_of_envelope o e).
  - intros d Hd.
    destruct (err_summary_inv _ _ Hd) as (o & e & -> & Ho & Ht & Hc & Hp).
    rewrite (err_summary_obj _ _ Ho) in Hd. apply (inj Some) in Hd.
    split; [|split]; [| |clear Ht Hc Hp; subst d].
    + rewrite <- Hd, !dom_insert_L, dom_singleton_L. set_solver.
    + exists o, e. repeat split; assumption.
    + intros s.
      rewrite !lookup_insert_ne, lookup_singleton_eq by discriminate.
      destruct (dict_get e "message") as [| | | |m| |]; try discriminate.
      destruct (Nat.ltb_spec 240 (String.length m)) as [Hlong|Hshort];
        intros Hs; cbv beta iota in Hs.
      * assert (Hs' : s = PyStr.slice_to 237 m +:+ "...") by congruence.
        rewrite Hs', length_append, slice_to_length. cbn [String.length]. lia.
      * assert (Hs' : s = m) by congruence. now rewrite Hs'.
Qed.

Lemma seen_body_not_json (r : response) :
  resp_json r = None ->
  seen_body r = JObj {[ "_binary" := JBool true ]}
  \/ seen_body r = JObj {[ "_raw" := JStr (PyStr.slice_to 800 (resp_text r)) ]}.
Proof.
  intros Hno. unfold seen_body, decode_json_response, json_or_raw.
  rewrite Hno. destruct (PyStr.startswith _ _); [now left | now right].
Qed.

(** X5. A response whose body is not JSON reaches the caller as the object
    [{"_raw": ...}] holding at most 800 characters of the text.  It has no
    error member, so a probe whose test is [ok_200] never raises on it and
    counts it as a success when the status is 200, with a null error. *)
Theorem non_json_200_counts_as_success :
  forall (c : Client) (h : gmap string string) (mid cat path : string)
         (payload : gmap string json) (t : Z) (w : world) (r : response)
         (rest : list (exn + response)),
    headers_json c = inr h ->
    replies w = inr r :: rest ->
    resp_json r = None ->
    (exists o, seen_body r = JObj o /\ o !! "error" = None
               /\ forall s, o !! "_raw" = Some (JStr s) ->
                            (String.length s <= 800)%nat
                            /\ String.prefix s (resp_text r) = true)
    /\ err_summary (seen_body r) = None
    /\ fst (simple_probe c mid cat path payload t w)
       = inr (Outcome mid cat (status_code r =? 200) false (Some path)
                      (Some (status_code r)) None None).
Proof.
  intros c h mid cat path payload t w r rest Hh Hrep Hno.
  assert (Hobj : exists o, seen_body r = JObj o /\ o !! "error" = None
                   /\ forall s, o !! "_raw" = Some (JStr s) ->
                                (String.length s <= 800)%nat
                                /\ String.prefix s (resp_text r) = true).
  { destruct (seen_body_not_json r Hno) as [Hb|Hb]; rewrite Hb;
      eexists; (split; [reflexivity|]);
      (split; [now rewrite lookup_singleton_ne|]); intros s.
    - now rewrite lookup_singleton_ne.
    - rewrite lookup_singleton_eq. intros Hs.
      assert (Hs' : s = PyStr.slice_to 800 (resp_text r)) by congruence.
      rewrite Hs'. split; [rewrite slice_to_length; lia | apply slice_to_prefix]. }
  destruct Hobj as (o & Ho & Herr & Hraw).
  assert (Hes : err_summary (seen_body r) = None).
  { rewrite Ho. unfold err_summary, dict_get. now rewrite Herr. }
  split; [|split; [exact Hes|]].
  - exists o. repeat split; try assumption; now apply Hraw.
  - unfold simple_probe.
    rewrite (run_bind_inr _ _ _ _ _ (post_json_reply _ _ _ _ _ _ _ _ Hh Hrep)).
    cbv beta iota zeta. rewrite Hes, Ho. unfold ok_200, py_get, dict_get.
    rewrite Herr. unfold lift, bind, ret, plain_outcome.
    now destruct (status_code r =? 200).
Qed.

(** ** Discovery *)

(** X6. A listing that [model_ids_of] can read yields identifiers that are
    already trimmed and lower-cased, so that classifying one of them or
    normalizing it again changes nothing. *)
Theorem model_ids_are_normalized :
  forall (models_resp : json) (ids : list string) (s : string),
    model_ids_of models_resp = inr ids ->
    s ∈ ids ->
    PyStr.lower s = s /\ PyStr.strip s = s /\ normalize s = s
    /\ category_for (PyStr.lower s) = category_for s.
Proof.
  intros models_resp ids s Hids Hin.
  rewrite (model_ids_of_listed _ _ Hids) in Hin.
  apply elem_of_sorted_set, list_elem_of_fmap in Hin as (raw & -> & _).
  assert (Hl : PyStr.lower (normalize raw) = normalize raw)
    by (unfold normalize; apply lower_idem).
  assert (Hs : PyStr.strip (normalize raw) = normalize raw)
    by (rewrite normalize_strip_lower; apply strip_idem).
  split; [exact Hl|]. split; [exact Hs|]. split; [apply normalize_idem|].
  now rewrite Hl.
Qed.

(** When [models_resp] is not an object, or has no [data] member, there is
    nothing to probe; a [data] member that is null, a boolean or a number
    cannot be iterated. *)
Lemma model_ids_of_edges :
  (forall j, (forall o, j <> JObj o) -> model_ids_of j = inr [])
  /\ (forall o, o !! "data" = None -> model_ids_of (JObj o) = inr [])
  /\ (forall o d, o !! "data" = Some d ->
        match d with
        | JNull | JBool _ | JInt _ | JFloat _ =>
            model_ids_of (JObj o) = inl (TypeError_not_iterable d)
        | _ => True
        end).
Proof.
  split; [|split].
  - intros j Hno. unfold model_ids_of, listed_models.
    destruct j; try reflexivity. now destruct (Hno o).
  - intros o Ho. unfold model_ids_of, listed_models. now rewrite Ho.
  - intros o d Ho. unfold model_ids_of, listed_models. rewrite Ho.
    now destruct d.
Qed.

(** ** The image and speech probes *)

Lemma category_dalle_inv (mid : string) :
  category_for mid = "dalle" ->
  PyStr.lower mid = "dall-e-2" \/ PyStr.lower mid = "dall-e-3".
Proof.
  unfold category_for. cbv zeta. generalize (PyStr.lower mid) as m. intros m.
  repeat match goal with
         | |- (if ?b then ?s else _) = _ -> _ =>
             lazymatch s with
             | "dalle" => fail
             | _ => destruct b; [discriminate|]
             end
         end.
  destruct (String.eqb_spec m "dall-e-2") as [->|_]; [now left|].
  destruct (String.eqb_spec m "dall-e-3") as [->|_]; [now right|].
  cbn [orb]. destruct (PyStr.contains "image" m); discriminate.
Qed.

Lemma probe_one_image (c : Client) (mid wav_path : string) :
  category_for mid = "dalle" \/ category_for mid = "image" ->
  probe_one c mid wav_path = probe_image c mid (category_for mid).
Proof. intros [Hcat|Hcat]; unfold probe_one; rewrite Hcat; reflexivity. Qed.

Lemma probe_image_world (c : Client) (h : gmap string string)
    (mid cat : string) (w : world) :
  headers_json c = inr h ->
  snd (probe_image c mid cat w)
  = sent w (post_request c h "/v1/images/generations" (image_payload mid) 120).
Proof.
  intros Hh. unfold probe_image. cbv zeta.
  change ({[ "model" := JStr mid; "prompt" := JStr "A tiny red dot";
             "size" := JStr (if String.eqb mid "dall-e-2" then "256x256"
                             else if String.eqb mid "dall-e-3" then "1024x1024"
                             else "auto");
             "n" := JInt 1 ]} : gmap string json) with (image_payload mid).
  unfold bind at 1. rewrite (post_json_run _ _ _ _ _ _ Hh).
  destruct (replies w) as [|[e|r] rest]; try reflexivity.
  cbv beta iota. unfold bind, lift, ret.
  destruct (ok_200 _ _) as [e|b]; [reflexivity|].
  now destruct (data_count b (seen_body r)).
Qed.

(** X7. For a model of category dalle or image the probe sends exactly one
    request, to the image endpoint, and its size field is 256x256 for the
    identifier dall-e-2, 1024x1024 for dall-e-3 and auto otherwise.  The
    choice compares the identifier as given: a lower-cased identifier of
    category dalle (as discovery produces them) never gets auto, and a
    model of category image always does. *)
Theorem image_probe_size :
  forall (c : Client) (h : gmap string string) (mid wav_path : string)
         (w : world),
    headers_json c = inr h ->
    category_for mid = "dalle" \/ category_for mid = "image" ->
    snd (probe_one c mid wav_path w)
    = sent w (post_request c h "/v1/images/generations" (image_payload mid) 120)
    /\ image_payload mid !! "size" = Some (JStr (image_size mid))
    /\ (category_for mid = "dalle" -> PyStr.lower mid = mid ->
        (mid = "dall-e-2" /\ image_size mid = "256x256")
        \/ (mid = "dall-e-3" /\ image_size mid = "1024x1024"))
    /\ (category_for mid = "image" -> image_size mid = "auto").
Proof.
  intros c h mid wav_path w Hh Hcat.
  rewrite (probe_one_image _ _ _ Hcat).
  split; [now apply probe_image_world|].
  split; [unfold image_payload; now simplify_map_eq|]. split.
  - intros Hd Hlow. destruct (category_dalle_inv _ Hd) as [H|H];
      rewrite Hlow in H; subst mid; [left | right]; split; reflexivity.
  - intros Hi. unfold image_size.
    destruct (String.eqb_spec mid "dall-e-2") as [->|_]; [discriminate|].
    destruct (String.eqb_spec mid "dall-e-3") as [->|_]; [discriminate|].
    reflexivity.
Qed.

Lemma probe_one_tts (c : Client) (mid wav_path : string) :
  category_for mid = "tts" ->
  probe_one c mid wav_path = probe_tts c mid "tts".
Proof. intros Hcat. unfold probe_one. rewrite Hcat. reflexivity. Qed.

(** X8. The speech probe returns an outcome for every response, whatever
    its body.  The outcome is ok exactly when the status is 200 and the
    content type, read without regard to the case of the header name,
    starts with "audio/"; otherwise its error is the summary of the error
    envelope when there is one, and else the generic error that names the
    status and the content type. *)
Theorem tts_probe_total :
  forall (c : Client) (h : gmap string string) (mid wav_path : string)
         (w : world) (r : response) (rest : list (exn + response)),
    headers_json c = inr h ->
    category_for mid = "tts" ->
    replies w = inr r :: rest ->
    let hdrs := lower_keys (resp_headers r) in
    let audio := PyStr.startswith (default "" (hdrs !! "content-type")) "audio/" in
    exists out,
      probe_one c mid wav_path w
      = (inr out, sent w (post_request c h "/v1/audio/speech" (tts_payload mid) 120))
      /\ endpoint out = Some "/v1/audio/speech"
      /\ http out = Some (status_code r)
      /\ (ok out = true <-> status_code r = 200 /\ audio = true)
      /\ (ok out = false ->
          error out
          = Some match err_summary (seen_body r) with
                 | Some d => d
                 | None => tts_generic_error (status_code r) hdrs
                 end).
Proof.
  intros c h mid wav_path w r rest Hh Hcat Hrep hdrs audio.
  rewrite (probe_one_tts _ _ _ Hcat). unfold probe_tts.
  fold (tts_payload mid).
  rewrite (run_bind_inr _ _ _ _ _ (post_json_reply _ _ _ _ _ _ _ _ Hh Hrep)).
  cbv beta iota zeta. fold hdrs. fold audio. unfold ret.
  eexists. split; [reflexivity|]. cbn [endpoint http ok error].
  split; [reflexivity|]. split; [reflexivity|]. split.
  - rewrite andb_true_iff, Z.eqb_eq. reflexivity.
  - intros ->. rewrite py_or_summary. unfold tts_generic_error.
    now destruct (err_summary (seen_body r)).
Qed.

(** ** What every outcome looks like *)

Lemma ok_200_true (st : Z) (j : json) : ok_200 st j = inr true -> st = 200.
Proof.
  unfold ok_200. destruct (Z.eqb_spec st 200); [auto | discriminate].
Qed.

Lemma video_ok_true (st : Z) (es : option (gmap string json)) (j : json) :
  video_ok st es j = inr true -> st = 200 \/ st = 400.
Proof.
  unfold video_ok. destruct (Z.eqb_spec st 400) as [->|_]; cbn [andb].
  - now right.
  - intros H. left. now apply ok_200_true in H.
Qed.

Section Invariant.
Context (c : Client).

Lemma inv_text_like_fallbacks (mid : string) (st : Z)
    (es : option (gmap string json)) :
  does (probe_event c) text_result_invariant (text_like_fallbacks c mid st es).
Proof.
  unfold text_like_fallbacks.
  does_step; [apply does_post_json|]. does_step.
  does_step; [apply does_lift_eq|]. destruct a.
  { does_step. split; [|discriminate]. intros _. cbn.
    split; [now apply ok_200_true in H0 | auto]. }
  does_step; [apply does_post_json|]. does_step.
  does_step; [apply does_lift_eq|]. destruct a.
  { does_step. split; [|discriminate]. intros _. cbn.
    split; [now apply ok_200_true in H2 | auto]. }
  does_step. split; [discriminate | reflexivity].
Qed.

Lemma inv_probe_text_like (mid : string) (extra : option (gmap string json)) :
  does (probe_event c) text_result_invariant (probe_text_like c mid extra).
Proof.
  unfold probe_text_like. cbv zeta.
  does_step; [apply does_post_json|]. does_step.
  does_step; [apply does_lift_eq|]. destruct a.
  { does_step. split; [|discriminate]. intros _. cbn.
    split; [now apply ok_200_true in H0 | auto]. }
  destruct (is_server_error (err_summary j)); [|apply inv_text_like_fallbacks].
  does_step; [now apply does_emit_any|].
  does_step; [apply does_post_json|]. does_step.
  does_step; [apply does_lift_eq|]. destruct a0.
  { does_step. split; [|discriminate]. intros _. cbn.
    split; [now apply ok_200_true in H3 | auto]. }
  apply inv_text_like_fallbacks.
Qed.

Lemma inv_plain (mid cat : string) (b : bool) (ep : string) (st : Z)
    (es : option (gmap string json)) (j : json) :
  cat = category_for mid -> cat <> "video" ->
  endpoints_for cat = [ep] ->
  ok_200 st j = inr b ->
  outcome_invariant mid (plain_outcome mid cat b ep st es).
Proof.
  intros -> Hnv Hep Hok. unfold outcome_invariant, plain_outcome. cbn.
  split; [reflexivity|]. split; [exists ep; rewrite Hep; split; [auto | now left]|].
  split; [|now intros []].
  exists st. split; [reflexivity|]. intros ->. left. now apply ok_200_true in Hok.
Qed.

Lemma inv_simple_probe (mid cat path : string) (payload : gmap string json)
    (t : Z) :
  cat = category_for mid -> cat <> "video" -> endpoints_for cat = [path] ->
  does (probe_event c) (outcome_invariant mid)
       (simple_probe c mid cat path payload t).
Proof.
  intros Hcat Hnv Hep. unfold simple_probe.
  does_step; [apply does_post_json|]. does_step. cbv zeta.
  does_step; [apply does_lift_eq|].
  does_step. now apply (inv_plain mid cat a path z _ j).
Qed.

Lemma inv_of_text_result (mid cat : string) (r : text_result) :
  cat = category_for mid ->
  endpoints_for cat
  = ["/v1/responses"; "/v1/chat/completions"; "/v1/completions"; all_endpoints] ->
  text_result_invariant r ->
  outcome_invariant mid (of_text_result mid cat r).
Proof.
  intros -> Hep [Hok Hfail]. unfold outcome_invariant, of_text_result. cbn.
  split; [reflexivity|]. split; [|split; [|now intros []]].
  - exists (tr_endpoint r). split; [reflexivity|]. rewrite Hep.
    destruct (tr_ok r).
    + destruct (Hok eq_refl) as [_ Hin]. cbn in Hin |- *. tauto.
    + rewrite (Hfail eq_refl). cbn. tauto.
  - exists (tr_http r). split; [reflexivity|]. intros H. left. now apply Hok.
Qed.

Lemma inv_probe_one (mid wav_path : string) :
  does (probe_event c) (outcome_invariant mid) (probe_one c mid wav_path).
Proof.
  unfold probe_one. cbv zeta.
  remember (category_for mid) as cat eqn:Hcat.
  destruct (String.eqb_spec cat "video") as [Heq|Hn1].
  { unfold probe_video.
    does_step; [apply does_post_json|]. does_step. cbv zeta.
    does_step; [apply does_lift_eq|].
    does_step. unfold outcome_invariant. cbn. rewrite <- Hcat, Heq.
    split; [reflexivity|]. split; [exists "/v1/videos"; split; [auto | now left]|].
    split.
    - exists z. split; [reflexivity|]. intros ->.
      destruct (video_ok_true _ _ _ H0) as [->| ->]; [now left | right; auto].
    - destruct (Z.eqb_spec z 400) as [->|_]; cbn [andb]; [|now intros []].
      destruct a; [auto | now intros []]. }
  destruct (String.eqb_spec cat "realtime") as [Heq|Hn2];
    [apply inv_simple_probe; [exact Hcat | exact Hn1 | now rewrite Heq]|].
  destruct (String.eqb_spec cat "embeddings") as [Heq|Hn3];
    [apply inv_simple_probe; [exact Hcat | exact Hn1 | now rewrite Heq]|].
  destruct (String.eqb_spec cat "moderation") as [Heq|Hn4];
    [apply inv_simple_probe; [exact Hcat | exact Hn1 | now rewrite Heq]|].
  destruct (String.eqb_spec cat "image") as [Heq|Hn5];
    [|destruct (String.eqb_spec cat "dalle") as [Heq|Hn6]]; cbn [orb];
    try (unfold probe_image; cbv zeta;
         does_step; [apply does_post_json|]; does_step; cbv zeta;
         does_step; [apply does_lift_eq|];
         does_step; [apply does_lift_eq|];
         does_step; cbv beta in *;
         match goal with
         | H : ok_200 _ ?j = inr _ |- _ =>
             apply (inv_plain mid cat _ _ _ _ j);
             [exact Hcat | exact Hn1 | now rewrite Heq | exact H]
         end).
  destruct (String.eqb_spec cat "tts") as [Heq|Hn7].
  { unfold probe_tts.
    does_step; [apply does_post_json|]. does_step. cbv zeta.
    does_step. unfold outcome_invariant. cbn. rewrite <- Hcat, Heq.
    split; [reflexivity|].
    split; [exists "/v1/audio/speech"; split; [auto | now left]|].
    split; [|now intros []].
    exists z. split; [reflexivity|]. intros [Hz _]%andb_true_iff.
    left. now apply Z.eqb_eq. }
  destruct (String.eqb_spec cat "transcribe") as [Heq|Hn8].
  { unfold probe_transcribe.
    does_step; [now apply does_emit_any|].
    does_step; [apply (does_ask _ (fun _ => True)); auto|].
    destruct a0; [apply does_raise|].
    does_step; [apply does_post_multipart|]. does_step. cbv zeta.
    does_step; [apply does_lift_eq|].
    does_step. apply (inv_plain mid cat _ _ _ _ j);
      [exact Hcat | exact Hn1 | now rewrite Heq | assumption]. }
  destruct (String.eqb_spec cat "audio_chat") as [Heq|Hn9];
    [apply inv_simple_probe; [exact Hcat | exact Hn1 | now rewrite Heq]|].
  assert (Hdefault : cat <> "search" ->
            endpoints_for cat
            = ["/v1/responses"; "/v1/chat/completions"; "/v1/completions";
               all_endpoints]).
  { intros Hns. unfold endpoints_for.
    repeat match goal with
           | |- context [String.eqb cat ?s] =>
               destruct (String.eqb_spec cat s); [contradiction|]
           end.
    reflexivity. }
  destruct (String.eqb_spec cat "computer_use") as [Heq|Hn10].
  { does_step; [apply inv_probe_text_like|]. does_step.
    apply inv_of_text_result; [exact Hcat | | assumption].
    apply Hdefault. now rewrite Heq. }
  destruct (String.eqb_spec cat "deep_research") as [Heq|Hn11].
  { does_step; [apply inv_probe_text_like|]. does_step.
    apply inv_of_text_result; [exact Hcat | | assumption].
    apply Hdefault. now rewrite Heq. }
  destruct (String.eqb_spec cat "search") as [Heq|Hn12];
    [apply inv_simple_probe; [exact Hcat | exact Hn1 | now rewrite Heq]|].
  does_step; [apply inv_probe_text_like|]. does_step.
  apply inv_of_text_result; [exact Hcat | now apply Hdefault | assumption].
Qed.

End Invariant.

(** X9. Every outcome [probe_one] returns has skipped false, an endpoint
    and a status; the endpoint is the one its category is probed on (for
    the text-like chain: one of the three paths, or the three joined when
    the chain gave up); an ok outcome has status 200, or 400 for a video
    model; and a note appears only on an ok video outcome of status 400. *)
Theorem probe_one_outcome_invariant :
  forall (c : Client) (mid wav_path : string) (w : world) (out : outcome),
    fst (probe_one c mid wav_path w) = inr out ->
    outcome_invariant mid out.
Proof.
  intros c mid wav_path w out Hout.
  destruct (inv_probe_one c mid wav_path w) as [_ Hres]. now apply Hres.
Qed.

(** ** How many requests a probe costs *)

Lemma n_requests_app (t1 t2 : list event) :
  n_requests (t1 ++ t2) = (n_requests t1 + n_requests t2)%nat.
Proof. unfold n_requests. now rewrite List.filter_app, length_app. Qed.

Lemma sam_pure {A} (m : M A) :
  (forall w, snd (m w) = w) -> sends_at_most 0 m.
Proof.
  intros Hm w. exists []. rewrite Hm, app_nil_r. repeat split. cbn. lia.
Qed.

Lemma sam_ret {A} (a : A) : sends_at_most 0 (ret a).
Proof. now apply sam_pure. Qed.

Lemma sam_raise {A} (e : exn) : sends_at_most 0 (@raise A e).
Proof. now apply sam_pure. Qed.

Lemma sam_lift {A} (r : exn + A) : sends_at_most 0 (lift r).
Proof. now apply sam_pure. Qed.

Lemma sam_ask {A} (f : world -> A) : sends_at_most 0 (ask f).
Proof. now apply sam_pure. Qed.

Lemma sam_emit (ev : event) : is_request ev = false -> sends_at_most 0 (emit ev).
Proof.
  intros Hev w. exists [ev]. cbn [emit snd]. rewrite trace_logged.
  unfold n_requests. cbn [List.filter]. rewrite Hev. repeat split. cbn. lia.
Qed.

Lemma sam_send (rq : request) : sends_at_most 1 (send rq).
Proof.
  intros w. exists [EvRequest rq]. unfold send.
  destruct (replies w) as [|rp rs] eqn:E; cbn [snd];
    rewrite trace_sent, replies_sent, E; repeat split; cbn; lia.
Qed.

Lemma sam_weaken {A} (n n' : nat) (m : M A) :
  (n <= n')%nat -> sends_at_most n m -> sends_at_most n' m.
Proof.
  intros Hle Hm w. destruct (Hm w) as (t & Ht & Hn & Hr).
  exists t. repeat split; [exact Ht | lia | exact Hr].
Qed.

Lemma sam_bind {A B} (n1 n2 : nat) (m : M A) (k : A -> M B) :
  sends_at_most n1 m -> (forall a, sends_at_most n2 (k a)) ->
  sends_at_most (n1 + n2) (bind m k).
Proof.
  intros Hm Hk w. destruct (Hm w) as (t1 & Ht1 & Hn1 & Hr1). unfold bind.
  destruct (m w) as [[e|a] w1]; cbn [snd] in *.
  - exists t1. repeat split; [exact Ht1 | lia | exact Hr1].
  - destruct (Hk a w1) as (t2 & Ht2 & Hn2 & Hr2).
    exists (t1 ++ t2)%list. rewrite n_requests_app.
    repeat split; [now rewrite Ht2, Ht1, app_assoc | lia|].
    now rewrite Hr2, Hr1, drop_drop.
Qed.

Lemma sam_try {A} (n : nat) (m : M A) (h : exn -> M A) :
  sends_at_most n m -> (forall e, sends_at_most 0 (h e)) ->
  sends_at_most n (try_except m h).
Proof.
  intros Hm Hh w. destruct (Hm w) as (t1 & Ht1 & Hn1 & Hr1).
  unfold try_except. destruct (m w) as [[e|a] w1]; cbn [snd] in *.
  - destruct (Hh e w1) as (t2 & Ht2 & Hn2 & Hr2).
    exists (t1 ++ t2)%list. rewrite n_requests_app.
    repeat split; [now rewrite Ht2, Ht1, app_assoc | lia|].
    now rewrite Hr2, Hr1, drop_drop.
  - exists t1. repeat split; assumption.
Qed.

Ltac sam_step n1 n2 :=
  apply (sam_bind n1 n2); [ | intros ? ].

Lemma category_for_in (mid : string) : In (category_for mid) Categories.
Proof.
  rewrite category_for_categorize. unfold categorize.
  exact (first_match_in rules (PyStr.lower mid)).
Qed.

Lemma budget_le_4 (mid : string) :
  ((if bool_decide (In (category_for mid)
                       ["computer_use"; "deep_research"; "text"])
    then 4 else 1) <= 4)%nat.
Proof. destruct (bool_decide _); lia. Qed.

Section Budget.
Context (c : Client).

Lemma sam_post_json (path : string) (payload : gmap string json) (t : Z) :
  sends_at_most 1 (post_json c path payload t).
Proof.
  unfold post_json. sam_step 0%nat 1%nat; [apply sam_lift|].
  sam_step 1%nat 0%nat; [apply sam_send | apply sam_ret].
Qed.

Lemma sam_post_multipart (path : string) (fields : gmap string string)
    (files : list (string * (string * string * string))) (t : Z) :
  sends_at_most 1 (post_multipart c path fields files t).
Proof.
  unfold post_multipart. sam_step 0%nat 1%nat; [apply sam_lift|].
  sam_step 1%nat 0%nat; [apply sam_send | apply sam_ret].
Qed.

Lemma sam_simple_probe (mid cat path : string) (payload : gmap string json)
    (t : Z) :
  sends_at_most 1 (simple_probe c mid cat path payload t).
Proof.
  unfold simple_probe. sam_step 1%nat 0%nat; [apply sam_post_json|].
  destruct a as [[st j] hd]. cbv zeta.
  sam_step 0%nat 0%nat; [apply sam_lift | apply sam_ret].
Qed.

Lemma sam_text_like_fallbacks (mid : string) (st : Z)
    (es : option (gmap string json)) :
  sends_at_most 2 (text_like_fallbacks c mid st es).
Proof.
  unfold text_like_fallbacks. sam_step 1%nat 1%nat; [apply sam_post_json|].
  destruct a as [[st3 j3] hd]. sam_step 0%nat 1%nat; [apply sam_lift|].
  destruct a; [apply (sam_weaken 0); [lia | apply sam_ret]|].
  sam_step 1%nat 0%nat; [apply sam_post_json|].
  destruct a as [[st4 j4] hd4]. sam_step 0%nat 0%nat; [apply sam_lift|].
  destruct a; apply sam_ret.
Qed.

Lemma sam_probe_text_like (mid : string) (extra : option (gmap string json)) :
  sends_at_most 4 (probe_text_like c mid extra).
Proof.
  unfold probe_text_like. cbv zeta. sam_step 1%nat 3%nat; [apply sam_post_json|].
  destruct a as [[st j] hd]. sam_step 0%nat 3%nat; [apply sam_lift|].
  destruct a; [apply (sam_weaken 0); [lia | apply sam_ret]|].
  destruct (is_server_error (err_summary j));
    [|apply (sam_weaken 2); [lia | apply sam_text_like_fallbacks]].
  sam_step 0%nat 3%nat; [now apply sam_emit|].
  sam_step 1%nat 2%nat; [apply sam_post_json|].
  destruct a0 as [[st2 j2] hd2]. sam_step 0%nat 2%nat; [apply sam_lift|].
  destruct a0; [apply (sam_weaken 0); [lia | apply sam_ret]|].
  apply sam_text_like_fallbacks.
Qed.

Lemma sam_probe_one (mid wav_path : string) :
  sends_at_most
    (if bool_decide (In (category_for mid)
                        ["computer_use"; "deep_research"; "text"])
     then 4 else 1)
    (probe_one c mid wav_path).
Proof.
  unfold probe_one. cbv zeta.
  pose proof (category_for_in mid) as Hin.
  remember (category_for mid) as cat eqn:Hcat. clear Hcat.
  cbn [Categories In] in Hin.
  assert (Htext : forall extra,
            sends_at_most 4 (r <- probe_text_like c mid extra ;;
                             ret (of_text_result mid cat r))).
  { intros extra. sam_step 4%nat 0%nat; [apply sam_probe_text_like | apply sam_ret]. }
  repeat (destruct Hin as [<-|Hin]); try contradiction;
    cbn [String.eqb Ascii.eqb Bool.eqb orb andb];
    try (rewrite bool_decide_eq_true_2 by (cbn; tauto); apply Htext);
    rewrite bool_decide_eq_false_2
      by (cbn; intros Hc; repeat (destruct Hc as [Hc|Hc]; [discriminate|]);
          exact Hc).
  - unfold probe_video. sam_step 1%nat 0%nat; [apply sam_post_json|].
    destruct a as [[st j] hd]. cbv zeta.
    sam_step 0%nat 0%nat; [apply sam_lift | apply sam_ret].
  - apply sam_simple_probe.
  - apply sam_simple_probe.
  - apply sam_simple_probe.
  - unfold probe_transcribe. sam_step 0%nat 1%nat; [now apply sam_emit|].
    sam_step 0%nat 1%nat; [apply sam_ask|].
    destruct a0; [apply (sam_weaken 0); [lia | apply sam_raise]|].
    sam_step 1%nat 0%nat; [apply sam_post_multipart|].
    destruct a0 as [[st j] hd]. cbv zeta.
    sam_step 0%nat 0%nat; [apply sam_lift | apply sam_ret].
  - unfold probe_tts. sam_step 1%nat 0%nat; [apply sam_post_json|].
    destruct a as [[st j] hd]. cbv zeta. apply sam_ret.
  - apply sam_simple_probe.
  - apply sam_simple_probe.
  - unfold probe_image. cbv zeta. sam_step 1%nat 0%nat; [apply sam_post_json|].
    destruct a as [[st j] hd]. cbv zeta.
    sam_step 0%nat 0%nat; [apply sam_lift|].
    sam_step 0%nat 0%nat; [apply sam_lift | apply sam_ret].
  - unfold probe_image. cbv zeta. sam_step 1%nat 0%nat; [apply sam_post_json|].
    destruct a as [[st j] hd]. cbv zeta.
    sam_step 0%nat 0%nat; [apply sam_lift|].
    sam_step 0%nat 0%nat; [apply sam_lift | apply sam_ret].
Qed.

Lemma sam_probe_loop (wav_path : string) (sleep_ms : Z) (total : nat)
    (ids : list string) :
  forall (i : nat) (acc : list outcome),
    sends_at_most (4 * length ids)
                  (probe_loop c wav_path sleep_ms total i ids acc).
Proof.
  induction ids as [|mid ids IH]; intros i acc; cbn [probe_loop length].
  - apply sam_ret.
  - apply (sam_weaken (4 + (0 + (0 + 4 * length ids)))); [lia|].
    sam_step 4%nat (0 + (0 + 4 * length ids))%nat.
    { unfold guarded_probe. apply sam_try; [|intros e; apply sam_ret].
      apply (sam_weaken _ _ _ (budget_le_4 mid)), sam_probe_one. }
    sam_step 0%nat (0 + 4 * length ids)%nat.
    { destruct (Nat.eqb (i mod 10) 0); [now apply sam_emit | apply sam_ret]. }
    sam_step 0%nat (4 * length ids)%nat; [now apply sam_emit | apply IH].
Qed.

End Budget.

(** X10. A probe is cheap: [probe_one] sends at most four requests for a
    model of the text-like chain and at most one for a model of any other
    category, the whole loop over [n] identifiers sends at most [4 * n],
    and each request sent uses up exactly one reply of the server. *)
Theorem request_budget :
  forall (c : Client) (wav_path : string),
    (forall mid,
       sends_at_most
         (if bool_decide (In (category_for mid)
                             ["computer_use"; "deep_research"; "text"])
          then 4 else 1)
         (probe_one c mid wav_path))
    /\ (forall sleep_ms total i ids acc,
          sends_at_most (4 * length ids)
                        (probe_loop c wav_path sleep_ms total i ids acc)).
Proof.
  intros c wav_path. split.
  - intros mid. apply sam_probe_one.
  - intros. apply sam_probe_loop.
Qed.

(** ** The text-like chain: the first success wins *)

Lemma ok_200_success (r : response) :
  status_code r = 200 -> object_without_error (seen_body r) ->
  ok_200 (status_code r) (seen_body r) = inr true.
Proof. intros -> Hobj. now apply ok_200_object_without_error. Qed.

Lemma fallbacks_first_success (c : Client) (h : gmap string string)
    (mid : string) (st : Z) (es : option (gmap string json)) (wa : world)
    (r3 : response) (rest3 : list (exn + response)) :
  headers_json c = inr h ->
  replies wa = inr r3 :: rest3 ->
  (status_code r3 = 200 /\ object_without_error (seen_body r3) ->
   text_like_fallbacks c mid st es wa
   = (inr (TextResult true "/v1/chat/completions" 200 None),
      sent wa (chat_request c h mid)))
  /\ (failed_response r3 ->
      forall r4 rest4,
        rest3 = inr r4 :: rest4 ->
        status_code r4 = 200 /\ object_without_error (seen_body r4) ->
        text_like_fallbacks c mid st es wa
        = (inr (TextResult true "/v1/completions" 200 None),
           sent (sent wa (chat_request c h mid)) (completions_request c h mid))).
Proof.
  intros Hh Hrep.
  remember (text_like_fallbacks c mid st es wa) as run eqn:Hrun.
  unfold text_like_fallbacks in Hrun.
  rewrite (run_bind_inr _ _ _ _ _ (post_json_reply _ _ _ _ _ _ _ _ Hh Hrep))
    in Hrun.
  cbv beta iota in Hrun. unfold lift at 1 in Hrun.
  change (sent wa (post_request c h "/v1/chat/completions"
                     (chat_payload mid) 90))
    with (sent wa (chat_request c h mid)) in Hrun.
  split.
  - intros [Hst Hobj].
    erewrite run_bind_inr in Hrun
      by (rewrite (ok_200_success _ Hst Hobj); reflexivity).
    cbv beta iota in Hrun. subst run. unfold ret. now rewrite Hst.
  - intros F3 r4 rest4 Hrest3 [Hst Hobj].
    erewrite run_bind_inr in Hrun
      by (rewrite (ok_200_failed _ F3); reflexivity).
    cbv beta iota in Hrun.
    assert (Hrep2 : replies (sent wa (chat_request c h mid)) = inr r4 :: rest4)
      by (rewrite replies_sent, Hrep, Hrest3; reflexivity).
    rewrite (run_bind_inr _ _ _ _ _ (post_json_reply _ _ _ _ _ _ _ _ Hh Hrep2))
      in Hrun.
    cbv beta iota in Hrun. unfold lift at 1 in Hrun.
    erewrite run_bind_inr in Hrun
      by (rewrite (ok_200_success _ Hst Hobj); reflexivity).
    cbv beta iota in Hrun. subst run. unfold ret. now rewrite Hst.
Qed.

(** X11. In the text-like chain the first endpoint that answers 200
    without an error decides: the result is ok with that endpoint, status
    200 and a null error, whatever failures the earlier endpoints
    answered, and no request is sent after it.  This holds after a first
    failure that is not retried, and after a server error: for the retry
    itself, and for the chat and the completions endpoint after a failed
    retry. *)
Theorem text_like_first_success_wins :
  forall (c : Client) (h : gmap string string) (mid : string)
         (extra : option (gmap string json)) (w : world) (r1 : response)
         (rest : list (exn + response)),
    headers_json c = inr h ->
    replies w = inr r1 :: rest ->
    let P := primary_request c h mid extra in
    let w1 := sent w P in
    let w1' := sent (logged w1 (EvSleep 500)) P in
    let success := fun r => status_code r = 200
                            /\ object_without_error (seen_body r) in
    let fallback := fun (wa : world) (ra : list (exn + response)) =>
      forall r3 rest3, ra = inr r3 :: rest3 ->
        (success r3 ->
         probe_text_like c mid extra w
         = (inr (TextResult true "/v1/chat/completions" 200 None),
            sent wa (chat_request c h mid)))
        /\ (failed_response r3 ->
            forall r4 rest4, rest3 = inr r4 :: rest4 -> success r4 ->
              probe_text_like c mid extra w
              = (inr (TextResult true "/v1/completions" 200 None),
                 sent (sent wa (chat_request c h mid))
                      (completions_request c h mid))) in
    (success r1 ->
     probe_text_like c mid extra w
     = (inr (TextResult true "/v1/responses" 200 None), w1))
    /\ (failed_response r1 -> ~ server_error_envelope (seen_body r1) ->
        fallback w1 rest)
    /\ (server_error_envelope (seen_body r1) ->
        forall r2 rest2, rest = inr r2 :: rest2 ->
          (success r2 ->
           probe_text_like c mid extra w
           = (inr (TextResult true "/v1/responses" 200 None), w1'))
          /\ (failed_response r2 -> fallback w1' rest2)).
Proof.
  intros c h mid extra w r1 rest Hh Hrep P w1 w1' success fallback.
  subst fallback. cbv beta.
  remember (probe_text_like c mid extra w) as run eqn:Hrun.
  unfold probe_text_like in Hrun. cbv zeta in Hrun.
  rewrite (run_bind_inr _ _ _ _ _ (post_json_reply _ _ _ _ _ _ _ _ Hh Hrep))
    in Hrun.
  cbv beta iota in Hrun. unfold lift at 1 in Hrun.
  change (post_request c h "/v1/responses" (responses_payload mid extra) 90)
    with P in Hrun.
  fold w1 in Hrun.
  split; [|split].
  - intros [Hst Hobj].
    erewrite run_bind_inr in Hrun by (rewrite (ok_200_success _ Hst Hobj); reflexivity).
    cbv beta iota in Hrun. subst run. unfold ret. now rewrite Hst.
  - intros F1 Hnse r3 rest3 Hrest.
    erewrite run_bind_inr in Hrun by (rewrite (ok_200_failed _ F1); reflexivity).
    cbv beta iota in Hrun. rewrite (not_server_error _ Hnse) in Hrun.
    assert (Hrep1 : replies w1 = inr r3 :: rest3)
      by (subst w1; rewrite replies_sent, Hrep, Hrest; reflexivity).
    subst run. exact (fallbacks_first_success c h mid _ _ w1 r3 rest3 Hh Hrep1).
  - intros Hse r2 rest2 Hrest.
    erewrite run_bind_inr in Hrun
      by (rewrite (ok_200_envelope _ _ _ _ Hse); reflexivity).
    cbv beta iota in Hrun. rewrite (proj2 (is_server_error_iff _) Hse) in Hrun.
    erewrite run_bind_inr in Hrun by reflexivity.
    assert (Hrep1 : replies (logged w1 (EvSleep 500)) = inr r2 :: rest2)
      by (subst w1; rewrite replies_logged, replies_sent, Hrep, Hrest;
          reflexivity).
    rewrite (run_bind_inr _ _ _ _ _ (post_json_reply _ _ _ _ _ _ _ _ Hh Hrep1))
      in Hrun.
    cbv beta iota in Hrun. unfold lift at 1 in Hrun.
    change (post_request c h "/v1/responses" (responses_payload mid extra) 90)
      with P in Hrun.
    fold w1' in Hrun.
    split.
    + intros [Hst Hobj].
      erewrite run_bind_inr in Hrun
        by (rewrite (ok_200_success _ Hst Hobj); reflexivity).
      cbv beta iota in Hrun. subst run. unfold ret. now rewrite Hst.
    + intros F2 r3 rest3 Hrest2.
      erewrite run_bind_inr in Hrun
        by (rewrite (ok_200_failed _ F2); reflexivity).
      cbv beta iota in Hrun.
      assert (Hrep2 : replies w1' = inr r3 :: rest3)
        by (subst w1'; rewrite replies_sent, Hrep1, Hrest2; reflexivity).
      subst run.
      exact (fallbacks_first_success c h mid _ _ w1' r3 rest3 Hh Hrep2).
Qed.

(** ** The run as a whole *)

Lemma collect_ids_bad_entry (l : list json) (m : json) :
  m ∈ l ->
  (exists o id, m = JObj o /\ o !! "id" = Some id /\ truthy id = true
                /\ forall s, id <> JStr s) ->
  exists id, collect_ids l = inl (AttributeError id "strip").
Proof.
  intros Hin Hbad. induction l as [|x l IH]; [inversion Hin|].
  cbn [collect_ids]. destruct (model_id_of x) as [e|o] eqn:Hx.
  - exists (match x with
            | JObj d => dict_get d "id"
            | _ => JNull
            end).
    f_equal. unfold model_id_of in Hx. destruct x; try discriminate.
    destruct (truthy (dict_get o "id")); [|discriminate].
    destruct (dict_get o "id"); congruence.
  - apply elem_of_cons in Hin as [->|Hin].
    + exfalso. destruct Hbad as (d & id & -> & Hid & Ht & Hns).
      unfold model_id_of in Hx. rewrite (dict_get_some _ _ _ Hid), Ht in Hx.
      destruct id; try discriminate. now destruct (Hns s).
    + destruct (IH Hin) as [id ->]. eauto.
Qed.

Lemma listed_models_data (o : gmap string json) (d : json) :
  o !! "data" = Some d -> listed_models (JObj o) = d.
Proof. intros Hd. unfold listed_models. now rewrite Hd. Qed.

(** X12. A listing that answers 200 but cannot be read ends the run with
    an uncaught exception right after the listing call, before any probe
    and before any report: a TypeError when the data member is null, a
    boolean or a number, an AttributeError when some entry of the data
    array is an object whose id is a truthy value other than a string. *)
Theorem unreadable_listing_aborts_run :
  forall (args : Args) (env : Env) (w : world) (h : gmap string string)
         (r : response) (rest : list (exn + response))
         (o : gmap string json) (d : json),
    fs_exists w (wav_of env) = true ->
    headers_json (client_of args env) = inr h ->
    replies w = inr r :: rest ->
    status_code r = 200 ->
    resp_json r = Some (JObj o) ->
    o !! "data" = Some d ->
    let w1 := sent w (listing_request (client_of args env) h) in
    (match d with
     | JNull | JBool _ | JInt _ | JFloat _ => True
     | _ => False
     end ->
     main args env w = (inl (TypeError_not_iterable d), w1))
    /\ (forall l m, d = JArr l -> m ∈ l ->
          (exists e id, m = JObj e /\ e !! "id" = Some id /\ truthy id = true
                        /\ forall s, id <> JStr s) ->
          exists id, main args env w = (inl (AttributeError id "strip"), w1)).
Proof.
  intros args env w h r rest o d Hyes Hh Hrep Hst Hjson Hdata w1.
  assert (Hbody : json_or_raw 500 r = JObj o)
    by (unfold json_or_raw; now rewrite Hjson).
  split.
  - intros Hd. apply (main_unreadable_listing args env w h r rest);
      try assumption.
    rewrite Hbody. unfold model_ids_of.
    rewrite (listed_models_data _ _ Hdata). now destruct d.
  - intros l m -> Hin Hbad.
    destruct (collect_ids_bad_entry l m Hin Hbad) as [id Hid].
    exists id. apply (main_unreadable_listing args env w h r rest);
      try assumption.
    rewrite Hbody. unfold model_ids_of.
    rewrite (listed_models_data _ _ Hdata). cbn [py_iter]. now rewrite Hid.
Qed.

Lemma probe_event_no_writes (c : Client) (t : list event) :
  Forall (probe_event c) t ->
  Forall (fun ev => forall p rep, ev <> EvWriteJson p rep /\ ev <> EvWriteMd p rep) t.
Proof.
  intros HF. eapply Forall_impl; [exact HF|].
  intros ev Hev p rep. destruct ev; cbn in Hev; try contradiction;
    split; discriminate.
Qed.

(** X13. In a run that reads its listing, the structured report is written
    first and the Markdown report second, from one and the same report,
    whose totalModels is the number of its results and whose base URL and
    auth mode are those of the command line; nothing is written before
    the loop has ended.  If writing the structured report raises, or if
    [write_md] raises while it builds its lines, the Markdown file is not
    opened and the exception ends the run; otherwise the run ends with
    the exception of the Markdown file, or returns 0. *)
Theorem reports_written_once_in_order :
  forall (args : Args) (env : Env) (w : world) (h : gmap string string)
         (r : response) (rest : list (exn + response)) (ids : list string),
    fs_exists w (wav_of env) = true ->
    headers_json (client_of args env) = inr h ->
    replies w = inr r :: rest ->
    status_code r = 200 ->
    model_ids_of (json_or_raw 500 r) = inr ids ->
    exists rep t,
      meta_totalModels rep = length (results rep)
      /\ map model (results rep) = ids
      /\ meta_baseUrl rep = arg_base_url args
      /\ meta_authMode rep = arg_auth_mode args
      /\ Forall (fun ev => forall p rep', ev <> EvWriteJson p rep'
                                           /\ ev <> EvWriteMd p rep') t
      /\ let json_only :=
           (trace w ++ t ++ [EvWriteJson (arg_out_json args) rep])%list in
         match fs_write_error w (arg_out_json args) with
         | Some e =>
             fst (main args env w) = inl e
             /\ trace (snd (main args env w)) = json_only
         | None =>
             match Md.text (now_iso w) rep with
             | inl e =>
                 fst (main args env w) = inl e
                 /\ trace (snd (main args env w)) = json_only
             | inr _ =>
                 fst (main args env w)
                 = match fs_write_error w (arg_out_md args) with
                   | Some e => inl e
                   | None => inr 0
                   end
                 /\ trace (snd (main args env w))
                    = (json_only ++ [EvWriteMd (arg_out_md args) rep])%list
             end
         end.
Proof.
  intros args env w h r rest ids Hyes Hh Hrep Hst Hids.
  destruct (main_probing args env w h r rest ids Hyes Hh Hrep Hst Hids)
    as (rs & w1 & Hmodel & _ & [(_ & _ & Hfs & _) (t & Ht & HF)] & Hmain).
  cbn in Hfs.
  exists (Report (arg_base_url args) (arg_auth_mode args) (length ids) rs),
         (EvRequest (listing_request (client_of args env) h) :: t).
  cbn [meta_totalModels results meta_baseUrl meta_authMode].
  split; [now rewrite <- Hmodel, length_map|]. split; [exact Hmodel|].
  split; [reflexivity|]. split; [reflexivity|]. split.
  { constructor; [intros p rep'; split; discriminate|].
    now apply (probe_event_no_writes (client_of args env)). }
  cbv zeta. rewrite Hmain, write_both_run, Hfs.
  destruct (fs_write_error w (arg_out_json args)) as [e|]; cbn [fst snd];
    [|destruct (Md.text (now_iso w) _) as [e|txt]; cbn [fst snd]];
    (split; [reflexivity|]);
    rewrite !trace_logged, Ht, trace_sent, <- !app_assoc; reflexivity.
Qed.

(** ** write_md *)

Example md_text_sample :
  Md.text "2026-01-01T00:00:00"
    (Report "http://localhost:3000" "none" 2
       [ Outcome "gpt-4o" "text" true false (Some "/v1/responses") (Some 200)
                 None None;
         Outcome "tts-1" "tts" false false (Some "/v1/audio/speech") (Some 429)
                 (Some {[ "message" := JStr "rate|limit" ]}) None ])
  = inr (String.concat Md.nl
      [ "# OpenAI model probe results"; "";
        "**Generated:** 2026-01-01T00:00:00  "; "";
        "**Base URL:** `http://localhost:3000`  "; "";
        "**Auth mode:** `none`"; "";
        "## Summary"; "";
        "- Total models probed: **2**";
        "- Supported (probe OK): **1**";
        "- Failed: **1**"; "";
        "## Results by category"; "";
        "| Category | Total | OK | Fail |";
        "|---|---:|---:|---:|";
        "| text | 1 | 1 | 0 |";
        "| tts | 1 | 0 | 1 |"; "";
        "## Failed models"; "";
        "| Model | Category | Endpoint | HTTP | Error |";
        "|---|---|---|---:|---|";
        "| `tts-1` | tts | `/v1/audio/speech` | 429 | rate\|limit |"; "";
        "## Notes"; "";
        Md.note_smoke; Md.note_video; "" ]).
Proof. vm_compute. reflexivity. Qed.





(** *** The summary *)



(** Without that condition the number can be negative. *)
Example failed_count_negative :
  Md.n_fail [Outcome "m" "text" true true None None None None] = -1.
Proof. reflexivity. Qed.

(** X16. [write_md] raises while it builds its lines exactly when some
    failed outcome (neither ok nor skipped) has an error message that is
    truthy and not a string; the exception is then an AttributeError for
    the missing [replace]. *)
Theorem write_md_raises_on_non_string_message :
  forall (generatedAt : string) (rep : report),
    ((exists e, Md.text generatedAt rep = inl e)
     <-> exists r, In r (results rep) /\ ok r = false /\ skipped r = false
                   /\ bad_message r)
    /\ (forall e, Md.text generatedAt rep = inl e ->
          exists m, e = AttributeError m "replace").
Proof.
  intros generatedAt rep. split; [split|].
  - intros [e He]. destruct (md_text_inl _ _ _ He) as (r & Hr & Hrow).
    exists r. apply fails_In in Hr as (Hin & Hok & Hsk).
    repeat split; try assumption. unfold Md.fail_row in Hrow.
    destruct (Md.error_cell r) as [e'|s] eqn:Ec; [|discriminate].
    now apply (error_cell_inl r e').
  - intros (r & Hin & Hok & Hsk & Hbad). now apply (md_text_bad _ _ r).
  - intros e He. destruct (md_text_inl _ _ _ He) as (r & _ & Hrow).
    unfold Md.fail_row in Hrow.
    destruct (Md.error_cell r) as [e'|s] eqn:Ec; [|discriminate].
    injection Hrow as <-.
    destruct (error_cell_bad r (error_cell_inl r e' Ec)) as [m Hm].
    rewrite Hm in Ec. injection Ec as <-. eauto.
Qed.


(** *** The table by category *)






(** *** From an upstream error to the Markdown report *)

(** X19. The message of an upstream error envelope reaches the Markdown
    writer unchecked: when the speech endpoint answers a status other than
    200 with an envelope whose message is truthy and not a string, the
    probe returns a failed outcome, and [write_md] raises an
    AttributeError on any report that holds it. *)
Theorem non_string_upstream_message_breaks_markdown :
  forall (c : Client) (h : gmap string string) (mid wav_path : string)
         (w : world) (r : response) (rest : list (exn + response)) (m : json),
    headers_json c = inr h ->
    category_for mid = "tts" ->
    replies w = inr r :: rest ->
    status_code r <> 200 ->
    envelope_field (seen_body r) "message" m ->
    truthy m = true ->
    (forall s, m <> JStr s) ->
    exists out,
      fst (probe_one c mid wav_path w) = inr out
      /\ ok out = false /\ skipped out = false
      /\ forall generatedAt rep, In out (results rep) ->
           exists m', Md.text generatedAt rep = inl (AttributeError m' "replace").
Proof.
  intros c h mid wav_path w r rest m Hh Hcat Hrep Hst (o & e & Hj & Ho & He)
    Ht Hns.
  rewrite (probe_one_tts _ _ _ Hcat). unfold probe_tts.
  rewrite (run_bind_inr _ _ _ _ _ (post_json_reply _ _ _ _ _ _ _ _ Hh Hrep)).
  cbv beta iota zeta. unfold ret. cbn [fst].
  apply Z.eqb_neq in Hst. rewrite Hst. cbn [andb].
  rewrite py_or_summary, Hj, (err_summary_obj _ _ Ho), (dict_get_some _ _ _ He).
  eexists. split; [reflexivity|]. cbn [ok skipped].
  split; [reflexivity|]. split; [reflexivity|].
  intros generatedAt rep Hin.
  match type of Hin with In ?x _ => set (out := x) in * end.
  assert (Hbad : bad_message out).
  { eexists _, m. split; [reflexivity|]. split; [|split; assumption].
    destruct m; try reflexivity. now destruct (Hns s). }
  destruct (md_text_bad generatedAt rep out Hin eq_refl eq_refl Hbad)
    as [e' He'].
  destruct (md_text_inl generatedAt rep e' He') as (x & _ & Hrow).
  rewrite He'. unfold Md.fail_row in Hrow.
  destruct (Md.error_cell x) as [e''|s] eqn:Ec; [|discriminate].
  injection Hrow as <-.
  destruct (error_cell_bad x (error_cell_inl x e'' Ec)) as [m' Hm].
  rewrite Hm in Ec. injection Ec as <-. eauto.
Qed.

(** ** What a probe requests *)

Section Targets.
Context (c : Client) (mid wav_path : string).

Lemma tgt_post_json (path : string) (payload : gmap string json) (t : Z) :
  In path (probe_paths (category_for mid)) ->
  payload !! "model" = Some (JStr mid) ->
  does (probe_step c mid wav_path) (fun _ => True) (post_json c path payload t).
Proof.
  intros Hp Hm. apply does_post_json_gen. intros h _.
  split; [reflexivity|]. split; [now exists path | exact Hm].
Qed.

Lemma tgt_simple_probe (cat path : string) (payload : gmap string json)
    (t : Z) :
  In path (probe_paths (category_for mid)) ->
  payload !! "model" = Some (JStr mid) ->
  does (probe_step c mid wav_path) (fun _ => True)
       (simple_probe c mid cat path payload t).
Proof.
  intros Hp Hm. unfold simple_probe.
  does_step; [now apply tgt_post_json|]. does_step. cbv zeta.
  does_step; [apply does_lift_eq|]. now does_step.
Qed.

Lemma tgt_text_like_fallbacks (st : Z) (es : option (gmap string json)) :
  probe_paths (category_for mid)
  = ["/v1/responses"; "/v1/chat/completions"; "/v1/completions"] ->
  does (probe_step c mid wav_path) (fun _ => True)
       (text_like_fallbacks c mid st es).
Proof.
  intros Hp. unfold text_like_fallbacks.
  does_step; [apply tgt_post_json; [rewrite Hp; cbn; tauto | reflexivity]|].
  does_step. does_step; [apply does_lift_eq|]. destruct a; [now does_step|].
  does_step; [apply tgt_post_json; [rewrite Hp; cbn; tauto | reflexivity]|].
  does_step. does_step; [apply does_lift_eq|]. destruct a; now does_step.
Qed.

Lemma tgt_probe_text_like (extra : option (gmap string json)) :
  probe_paths (category_for mid)
  = ["/v1/responses"; "/v1/chat/completions"; "/v1/completions"] ->
  responses_payload mid extra !! "model" = Some (JStr mid) ->
  does (probe_step c mid wav_path) (fun _ => True)
       (probe_text_like c mid extra).
Proof.
  intros Hp Hm. unfold probe_text_like. cbv zeta.
  does_step; [apply tgt_post_json; [rewrite Hp; cbn; tauto | exact Hm]|].
  does_step. does_step; [apply does_lift_eq|]. destruct a; [now does_step|].
  destruct (is_server_error (err_summary j));
    [|now apply tgt_text_like_fallbacks].
  does_step; [apply does_emit_any; split; [reflexivity | rewrite Hp; now left]|].
  does_step; [apply tgt_post_json; [rewrite Hp; cbn; tauto | exact Hm]|].
  does_step. does_step; [apply does_lift_eq|]. destruct a0; [now does_step|].
  now apply tgt_text_like_fallbacks.
Qed.

Lemma tgt_probe_one :
  does (probe_step c mid wav_path) (fun _ => True) (probe_one c mid wav_path).
Proof.
  unfold probe_one. cbv zeta.
  remember (category_for mid) as cat eqn:Hcat.
  assert (Hone : forall s p, cat = s -> probe_paths s = [p] ->
            In p (probe_paths (category_for mid))).
  { intros s p Hs Hp. rewrite <- Hcat, Hs, Hp. now left. }
  destruct (String.eqb_spec cat "video") as [Heq|Hn1].
  { unfold probe_video.
    does_step; [apply tgt_post_json;
                [now apply (Hone _ _ Heq) | reflexivity]|].
    does_step. cbv zeta. does_step; [apply does_lift_eq|]. now does_step. }
  destruct (String.eqb_spec cat "realtime") as [Heq|Hn2];
    [apply tgt_simple_probe; [now apply (Hone _ _ Heq) | reflexivity]|].
  destruct (String.eqb_spec cat "embeddings") as [Heq|Hn3];
    [apply tgt_simple_probe; [now apply (Hone _ _ Heq) | reflexivity]|].
  destruct (String.eqb_spec cat "moderation") as [Heq|Hn4];
    [apply tgt_simple_probe; [now apply (Hone _ _ Heq) | reflexivity]|].
  destruct (String.eqb_spec cat "image") as [Heq|Hn5];
    [|destruct (String.eqb_spec cat "dalle") as [Heq|Hn6]]; cbn [orb];
    try (unfold probe_image; cbv zeta;
         does_step; [apply tgt_post_json;
                     [now apply (Hone _ _ Heq) | reflexivity]|];
         does_step; cbv zeta;
         does_step; [apply does_lift_eq|];
         does_step; [apply does_lift_eq|];
         now does_step).
  destruct (String.eqb_spec cat "tts") as [Heq|Hn7].
  { unfold probe_tts.
    does_step; [apply tgt_post_json;
                [now apply (Hone _ _ Heq) | reflexivity]|].
    does_step. cbv zeta. now does_step. }
  destruct (String.eqb_spec cat "transcribe") as [Heq|Hn8].
  { unfold probe_transcribe.
    does_step; [apply does_emit_any; split; [reflexivity | now rewrite <- Hcat]|].
    does_step; [apply (does_ask _ (fun _ => True)); auto|].
    destruct a0; [apply does_raise|].
    does_step.
    { unfold post_multipart. eapply does_bind; [apply does_lift_eq|].
      intros h _. eapply does_bind.
      - apply (does_send _ (fun _ => True)); [|auto].
        split; [reflexivity|]. split; [|reflexivity].
        exists "/v1/audio/transcriptions".
        split; [now apply (Hone _ _ Heq) | reflexivity].
      - intros r _. now apply (does_ret _ (fun _ => True)). }
    does_step. cbv zeta. does_step; [apply does_lift_eq|]. now does_step. }
  destruct (String.eqb_spec cat "audio_chat") as [Heq|Hn9];
    [apply tgt_simple_probe; [now apply (Hone _ _ Heq) | reflexivity]|].
  assert (Hdefault : cat <> "search" ->
            probe_paths (category_for mid)
            = ["/v1/responses"; "/v1/chat/completions"; "/v1/completions"]).
  { intros Hns. rewrite <- Hcat. unfold probe_paths, endpoints_for.
    repeat match goal with
           | |- context [String.eqb cat ?s] =>
               destruct (String.eqb_spec cat s); [contradiction|]
           end.
    reflexivity. }
  destruct (String.eqb_spec cat "computer_use") as [Heq|Hn10].
  { does_step; [apply tgt_probe_text_like; [|reflexivity]|now does_step].
    apply Hdefault. now rewrite Heq. }
  destruct (String.eqb_spec cat "deep_research") as [Heq|Hn11].
  { does_step; [apply tgt_probe_text_like; [|reflexivity]|now does_step].
    apply Hdefault. now rewrite Heq. }
  destruct (String.eqb_spec cat "search") as [Heq|Hn12];
    [apply tgt_simple_probe; [now apply (Hone _ _ Heq) | reflexivity]|].
  does_step; [apply tgt_probe_text_like; [|reflexivity]|now does_step].
  now apply Hdefault.
Qed.

End Targets.

(** X20. Whatever the server answers, a probe of a model only sends POST
    requests to the paths of the model's category, each naming the model
    in its body; it pauses only in the text-like chain, for 500 ms before
    the retry; it opens a file only for a transcription model, and then the
    fixture; and it writes nothing to the standard error or to a report. *)
Theorem probe_requests_stay_in_category :
  forall (c : Client) (mid wav_path : string) (w : world),
    exists t,
      trace (snd (probe_one c mid wav_path w)) = (trace w ++ t)%list
      /\ Forall (probe_step c mid wav_path) t.
Proof.
  intros c mid wav_path w.
  destruct (tgt_probe_one c mid wav_path w) as [[_ Ht] _]. exact Ht.
Qed.

(** ** The fixture of the transcription probe *)

Lemma probe_one_transcribe (c : Client) (mid wav_path : string) :
  category_for mid = "transcribe" ->
  probe_one c mid wav_path = probe_transcribe c mid "transcribe" wav_path.
Proof. intros Hcat. unfold probe_one. rewrite Hcat. reflexivity. Qed.

(** X21. [main] only checks that the fixture exists.  When it cannot be
    opened, the probe of a transcription model sends no request: the
    exception of [open] is caught by the loop and becomes the failed
    outcome of that model, with no endpoint and no status. *)
Theorem unreadable_fixture_fails_transcription_probe :
  forall (c : Client) (mid wav_path : string) (w : world) (e : exn),
    category_for mid = "transcribe" ->
    fs_open_error w wav_path = Some e ->
    guarded_probe c mid wav_path w
    = (inr (Outcome mid "transcribe" false false None None
                    (Some {[ "message" := JStr (exception_message e) ]}) None),
       logged w (EvOpen wav_path))
    /\ replies (snd (guarded_probe c mid wav_path w)) = replies w.
Proof.
  intros c mid wav_path w e Hcat He.
  assert (Hrun : guarded_probe c mid wav_path w
                 = (inr (exception_outcome mid e), logged w (EvOpen wav_path))).
  { unfold guarded_probe, try_except.
    rewrite (probe_one_transcribe _ _ _ Hcat).
    unfold probe_transcribe, bind, emit, ask, raise. cbn [fst snd].
    change (fs_open_error (logged w (EvOpen wav_path)) wav_path)
      with (fs_open_error w wav_path).
    rewrite He. reflexivity. }
  rewrite Hrun. unfold exception_outcome. rewrite Hcat.
  split; reflexivity.
Qed.

(* ================================================================== *)
(** * The further properties at work on sample runs *)
(* ================================================================== *)

Lemma bearer_run_authorizes_every_request_witness :
  let w := Sample.world0 [Sample.json_reply 200 Sample.listing] in
  exists t,
    trace (snd (main Sample.args Sample.env w)) = (trace w ++ t)%list
    /\ Forall (fun ev => forall rq, ev = EvRequest rq ->
                 rq_headers rq !! "Authorization" = Some "Bearer sk-test") t.
Proof.
  intros w.
  assert (Hmode : arg_auth_mode Sample.args = "bearer") by reflexivity.
  assert (Hkey : OPENAI_API_KEY Sample.env = Some "sk-test") by reflexivity.
  assert (Hne : "sk-test" <> "") by discriminate.
  exact (bearer_run_authorizes_every_request Sample.args Sample.env w "sk-test"
           Hmode Hkey Hne).
Defined.

Lemma non_json_200_counts_as_success_witness :
  let r := Response 200 [("Content-Type", "text/html")] None "<html>ok</html>" in
  fst (simple_probe Sample.client "text-embedding-3-small" "embeddings"
         "/v1/embeddings" {[ "model" := JStr "text-embedding-3-small" ]} 60
         (Sample.world0 [inr r]))
  = inr (Outcome "text-embedding-3-small" "embeddings" true false
                 (Some "/v1/embeddings") (Some 200) None None).
Proof.
  intros r.
  assert (Hh : headers_json Sample.client = inr Sample.json_headers)
    by reflexivity.
  assert (Hrep : replies (Sample.world0 [inr r]) = [inr r]) by reflexivity.
  assert (Hjson : resp_json r = None) by reflexivity.
  exact (proj2 (proj2 (non_json_200_counts_as_success Sample.client _
           "text-embedding-3-small" "embeddings" "/v1/embeddings"
           {[ "model" := JStr "text-embedding-3-small" ]} 60 _ r [] Hh Hrep
           Hjson))).
Defined.

Lemma model_ids_are_normalized_witness :
  normalize "gpt-4o" = "gpt-4o"
  /\ category_for (PyStr.lower "gpt-4o") = category_for "gpt-4o".
Proof.
  assert (Hids : model_ids_of Sample.listing
                 = inr ["dall-e-3"; "gpt-4o"; "whisper-1"])
    by (vm_compute; reflexivity).
  assert (Hin : "gpt-4o" ∈ ["dall-e-3"; "gpt-4o"; "whisper-1"])
    by (apply list_elem_of_In; right; left; reflexivity).
  destruct (model_ids_are_normalized Sample.listing _ "gpt-4o" Hids Hin)
    as (_ & _ & Hn & Hc).
  split; [exact Hn | exact Hc].
Defined.

Lemma image_probe_size_witness :
  image_payload "dall-e-3" !! "size" = Some (JStr (image_size "dall-e-3"))
  /\ image_size "dall-e-3" = "1024x1024".
Proof.
  assert (Hh : headers_json Sample.client = inr Sample.json_headers)
    by reflexivity.
  assert (Hcat : category_for "dall-e-3" = "dalle") by (vm_compute; reflexivity).
  destruct (image_probe_size Sample.client _ "dall-e-3" default_wav
              (Sample.world0 []) Hh (or_introl Hcat)) as (_ & Hsize & Hd & _).
  split; [exact Hsize|].
  destruct (Hd Hcat eq_refl) as [[Hmid _]|[_ Hs]]; [discriminate Hmid | exact Hs].
Defined.

Lemma tts_probe_total_witness :
  let w := Sample.world0 [Sample.json_reply 429 (JObj ∅)] in
  exists out,
    fst (probe_one Sample.client "tts-1" default_wav w) = inr out
    /\ endpoint out = Some "/v1/audio/speech" /\ http out = Some 429.
Proof.
  intros w.
  assert (Hh : headers_json Sample.client = inr Sample.json_headers)
    by reflexivity.
  assert (Hcat : category_for "tts-1" = "tts") by (vm_compute; reflexivity).
  assert (Hrep : replies w = [Sample.json_reply 429 (JObj ∅)]) by reflexivity.
  pose proof (tts_probe_total Sample.client _ "tts-1" default_wav w _ _
                Hh Hcat Hrep) as Htts.
  cbv zeta in Htts. destruct Htts as (out & Hrun & Hep & Hst & _).
  exists out. split; [now rewrite Hrun|]. split; [exact Hep | exact Hst].
Defined.

Lemma probe_one_outcome_invariant_witness :
  let w := Sample.world0 [Sample.json_reply 200 (JObj ∅)] in
  exists out,
    fst (probe_one Sample.client "gpt-4o" default_wav w) = inr out
    /\ outcome_invariant "gpt-4o" out.
Proof.
  intros w.
  destruct (fst (probe_one Sample.client "gpt-4o" default_wav w))
    as [e|out] eqn:Hrun; [vm_compute in Hrun; discriminate|].
  exists out. split; [reflexivity|].
  exact (probe_one_outcome_invariant Sample.client "gpt-4o" default_wav w out
           Hrun).
Defined.

Lemma text_like_first_success_wins_witness :
  let boom := Sample.envelope "server_error" "boom" in
  let w := Sample.world0 [Sample.json_reply 500 boom;
                          Sample.json_reply 500 boom;
                          Sample.json_reply 200 (JObj ∅)] in
  fst (probe_text_like Sample.client "gpt-4o" None w)
  = inr (TextResult true "/v1/chat/completions" 200 None).
Proof.
  intros boom w.
  set (r1 := Sample.json_response 500 boom).
  set (r3 := Sample.json_response 200 (JObj ∅)).
  assert (Hh : headers_json Sample.client = inr Sample.json_headers)
    by reflexivity.
  assert (Hrep : replies w = [inr r1; inr r1; inr r3]) by reflexivity.
  assert (Hse : server_error_envelope (seen_body r1)).
  { eexists _, _. split; [reflexivity|]. split; reflexivity. }
  assert (Hfail : failed_response r1) by (left; discriminate).
  assert (Hok : status_code r3 = 200 /\ object_without_error (seen_body r3)).
  { split; [reflexivity|]. exists ∅. split; reflexivity. }
  pose proof (text_like_first_success_wins Sample.client _ "gpt-4o" None w r1 _
                Hh Hrep) as Hwin.
  cbv zeta in Hwin. destruct Hwin as (_ & _ & Hretry).
  destruct (Hretry Hse r1 [inr r3] eq_refl) as [_ Hfallback].
  destruct (Hfallback Hfail r3 [] eq_refl) as [Hchat _].
  now rewrite (Hchat Hok).
Defined.

Lemma unreadable_listing_aborts_run_witness :
  let w := Sample.world0 [Sample.json_reply 200 (JObj {[ "data" := JNull ]})] in
  fst (main Sample.args Sample.env w) = inl (TypeError_not_iterable JNull).
Proof.
  intros w.
  set (r := Sample.json_response 200 (JObj {[ "data" := JNull ]})).
  assert (Hyes : fs_exists w (wav_of Sample.env) = true) by reflexivity.
  assert (Hh : headers_json (client_of Sample.args Sample.env)
               = inr (<["Authorization" := "Bearer sk-test"]> Sample.json_headers))
    by reflexivity.
  assert (Hrep : replies w = [inr r]) by reflexivity.
  assert (Hst : status_code r = 200) by reflexivity.
  assert (Hj : resp_json r = Some (JObj {[ "data" := JNull ]})) by reflexivity.
  assert (Hd : ({[ "data" := JNull ]} : gmap string json) !! "data" = Some JNull)
    by reflexivity.
  pose proof (unreadable_listing_aborts_run Sample.args Sample.env w _ r [] _
                JNull Hyes Hh Hrep Hst Hj Hd) as Habort.
  cbv zeta in Habort. destruct Habort as [Hnull _].
  now rewrite (Hnull I).
Defined.

Lemma reports_written_once_in_order_witness :
  let w := Sample.world0 [Sample.json_reply 200 Sample.listing;
                          Sample.json_reply 200 (JObj ∅)] in
  exists rep,
    meta_totalModels rep = length (results rep)
    /\ map model (results rep) = ["dall-e-3"; "gpt-4o"; "whisper-1"]
    /\ meta_baseUrl rep = "https://api.openai.com/".
Proof.
  intros w.
  set (r := Sample.json_response 200 Sample.listing).
  assert (Hyes : fs_exists w (wav_of Sample.env) = true) by reflexivity.
  assert (Hh : headers_json (client_of Sample.args Sample.env)
               = inr (<["Authorization" := "Bearer sk-test"]> Sample.json_headers))
    by reflexivity.
  assert (Hrep : replies w = [inr r; Sample.json_reply 200 (JObj ∅)])
    by reflexivity.
  assert (Hst : status_code r = 200) by reflexivity.
  assert (Hids : model_ids_of (json_or_raw 500 r)
                 = inr ["dall-e-3"; "gpt-4o"; "whisper-1"])
    by (vm_compute; reflexivity).
  destruct (reports_written_once_in_order Sample.args Sample.env _ _ _ _ _
              Hyes Hh Hrep Hst Hids) as (rep & t & Htot & Hmodel & Hbase & _).
  exists rep. split; [exact Htot|]. split; [exact Hmodel | exact Hbase].
Defined.


Lemma non_string_upstream_message_breaks_markdown_witness :
  let body := JObj {[ "error" := JObj {[ "message" := JInt 7 ]} ]} in
  let w := Sample.world0 [Sample.json_reply 429 body] in
  exists out,
    fst (probe_one Sample.client "tts-1" default_wav w) = inr out
    /\ exists m', Md.text "2026-01-01T00:00:00"
                    (Report "http://localhost:3000" "none" 1 [out])
                  = inl (AttributeError m' "replace").
Proof.
  intros body w.
  set (r := Sample.json_response 429 body).
  assert (Hh : headers_json Sample.client = inr Sample.json_headers)
    by reflexivity.
  assert (Hcat : category_for "tts-1" = "tts") by (vm_compute; reflexivity).
  assert (Hrep : replies w = [inr r]) by reflexivity.
  assert (Hst : status_code r <> 200) by discriminate.
  assert (Henv : envelope_field (seen_body r) "message" (JInt 7)).
  { eexists _, _. split; [reflexivity|]. split; reflexivity. }
  assert (Ht : truthy (JInt 7) = true) by reflexivity.
  assert (Hns : forall s, JInt 7 <> JStr s) by discriminate.
  destruct (non_string_upstream_message_breaks_markdown Sample.client _ "tts-1"
              default_wav w r [] (JInt 7) Hh Hcat Hrep Hst Henv Ht Hns)
    as (out & Hrun & _ & _ & Hmd).
  exists out. split; [exact Hrun|].
  apply Hmd. now left.
Defined.

Lemma unreadable_fixture_fails_transcription_probe_witness :
  let denied := Exn "PermissionError" "[Errno 13] Permission denied" in
  let w := World [] Sample.fs_all (fun _ => Some denied) Sample.fs_fine
                 "2026-01-01T00:00:00-05:00" [] in
  trace (snd (guarded_probe Sample.client "whisper-1" default_wav w))
  = [EvOpen default_wav].
Proof.
  intros denied w.
  assert (Hcat : category_for "whisper-1" = "transcribe")
    by (vm_compute; reflexivity).
  assert (He : fs_open_error w default_wav = Some denied) by reflexivity.
  destruct (unreadable_fixture_fails_transcription_probe Sample.client
              "whisper-1" default_wav w denied Hcat He) as [Hrun _].
  now rewrite Hrun.
Defined.
